(** * The to-do application's data-access layer (backend/src/dal.py)

    A shallow embedding of the three document mappers ([ListSummary.from_doc],
    [ToDoListItem.from_doc], [ToDoList.from_doc]) and of the [ToDoDAL]
    operations, with the statements of the specification proved about them.

    Layout:
    - Python values, exceptions and the builtins the mappers call;
    - the three read models and their [from_doc] mappers;
    - ObjectId, uuid4().hex and the identity filters of the DAL;
    - the document collection with the three update operators the DAL sends;
    - the DAL operations as state-passing functions over the collection;
    - the properties. *)

From Stdlib Require Import List String Ascii ZArith NArith Bool Lia.
From Stdlib Require Import DecimalString.
Import ListNotations.
Open Scope string_scope.

(** ** Exceptions and results *)

(** The exception classes that occur; all of them derive from [Exception], so
    an [except Exception] clause catches each one. *)
Inductive exn : Type :=
| AttributeError
| TypeError
| ValueError
| ValidationError
| InvalidId
| OperationFailure.

Inductive result (A : Type) : Type :=
| Ok (a : A)
| Raise (e : exn).
Arguments Ok {A} a.
Arguments Raise {A} e.

Definition bind {A B : Type} (r : result A) (k : A -> result B) : result B :=
  match r with
  | Ok a => k a
  | Raise e => Raise e
  end.

Notation "x <- r ;; k" := (bind r (fun x => k))
  (at level 61, r at next level, right associativity).

(** [try: r except Exception: h]. *)
Definition try_except {A : Type} (r : result A) (h : A) : A :=
  match r with
  | Ok a => a
  | Raise _ => h
  end.

Definition returns {A : Type} (r : result A) : Prop := exists a, r = Ok a.

(** ** Python values

    What a stored document, or an argument handed to a mapper, can be.  A
    [string] is a sequence of characters (one [ascii] per character); a dict
    is an association list in insertion order and [dict_get] reads the first
    binding of a key.  [VObject] is any other object: all that the code can
    observe of it is what [str()] does, it is truthy, and it has neither a
    length, nor an iterator, nor a [get] method. *)
#[warnings="-register-all"]
Inductive pyval : Type :=
| VNone
| VBool (b : bool)
| VInt (z : Z)
| VStr (s : string)
| VObjectId (binary : list Byte.byte)
| VList (l : list pyval)
| VDict (kv : list (string * pyval))
| VObject (str_result : result string).

Definition pydict : Type := list (string * pyval).

Fixpoint dict_get (k : string) (kv : pydict) : option pyval :=
  match kv with
  | [] => None
  | (k', v) :: rest => if String.eqb k k' then Some v else dict_get k rest
  end.

(** [d[k] = v]: an existing key keeps its place, a new one goes last. *)
Fixpoint dict_set (k : string) (v : pyval) (kv : pydict) : pydict :=
  match kv with
  | [] => [(k, v)]
  | (k', v') :: rest =>
      if String.eqb k k' then (k', v) :: rest else (k', v') :: dict_set k v rest
  end.

(** Truth value testing ([not doc], [a or b], [bool(x)]). *)
Definition truthy (v : pyval) : bool :=
  match v with
  | VNone => false
  | VBool b => b
  | VInt z => negb (Z.eqb z 0)
  | VStr s => negb (String.eqb s "")
  | VObjectId _ => true
  | VList l => negb (Nat.eqb (List.length l) 0)
  | VDict kv => negb (Nat.eqb (List.length kv) 0)
  | VObject _ => true
  end.

Definition is_none (v : pyval) : bool :=
  match v with
  | VNone => true
  | _ => false
  end.

Definition is_dict (v : pyval) : bool :=
  match v with
  | VDict _ => true
  | _ => false
  end.

(** [doc.get(k, default)]: only a dict has the method. *)
Definition py_get_default (doc : pyval) (k : string) (default : pyval) : result pyval :=
  match doc with
  | VDict kv =>
      match dict_get k kv with
      | Some v => Ok v
      | None => Ok default
      end
  | _ => Raise AttributeError
  end.

(** [doc.get(k)]. *)
Definition py_get (doc : pyval) (k : string) : result pyval :=
  py_get_default doc k VNone.

(** [len(v)]. *)
Definition py_len (v : pyval) : result Z :=
  match v with
  | VList l => Ok (Z.of_nat (List.length l))
  | VStr s => Ok (Z.of_nat (String.length s))
  | VDict kv => Ok (Z.of_nat (List.length kv))
  | _ => Raise TypeError
  end.

Fixpoint chars (s : string) : list pyval :=
  match s with
  | EmptyString => []
  | String c rest => VStr (String c EmptyString) :: chars rest
  end.

(** [for item in v]: the elements of a list, the characters of a string, the
    keys of a dict. *)
Definition py_iter (v : pyval) : result (list pyval) :=
  match v with
  | VList l => Ok l
  | VStr s => Ok (chars s)
  | VDict kv => Ok (map (fun p => VStr (fst p)) kv)
  | _ => Raise TypeError
  end.

(** ** Hexadecimal text *)

Definition hex_digit (n : N) : ascii :=
  if N.ltb n 10 then ascii_of_N (48 + n)%N else ascii_of_N (87 + n)%N.

(** The value of a hexadecimal digit, either case. *)
Definition hex_value (c : ascii) : option N :=
  let n := N_of_ascii c in
  if (N.leb 48 n && N.leb n 57)%N then Some (n - 48)%N
  else if (N.leb 97 n && N.leb n 102)%N then Some (n - 87)%N
  else if (N.leb 65 n && N.leb n 70)%N then Some (n - 55)%N
  else None.

(** [binascii.hexlify(b).decode()]: two lower-case digits per byte. *)
Fixpoint hexlify (b : list Byte.byte) : string :=
  match b with
  | [] => EmptyString
  | x :: rest =>
      let n := Byte.to_N x in
      String (hex_digit (N.div n 16)) (String (hex_digit (N.modulo n 16)) (hexlify rest))
  end.

(** ** The runtime the module is loaded in

    Two things are left to the installation: the text Python's [repr] gives a
    list or a dict (what [str()] of a container returns), and the major
    version of pydantic, which decides what a [str] field accepts. *)
Inductive pydantic_version : Type :=
| PydanticV1
| PydanticV2.

Class PyRuntime : Type := {
  py_repr : pyval -> string;
  pydantic : pydantic_version
}.

Definition decimal (z : Z) : string := NilZero.string_of_int (Z.to_int z).

Section Builtins.
Context {rt : PyRuntime}.

(** [str(v)]. *)
Definition py_str (v : pyval) : result string :=
  match v with
  | VNone => Ok "None"
  | VBool true => Ok "True"
  | VBool false => Ok "False"
  | VInt z => Ok (decimal z)
  | VStr s => Ok s
  | VObjectId b => Ok (hexlify b)
  | VList _ | VDict _ => Ok (py_repr v)
  | VObject r => r
  end.

(** The two lines shared by the three mappers,
    [try: id_str = str(raw_id) if raw_id is not None else None]
    [except Exception: id_str = None]. *)
Definition id_str_of (raw_id : pyval) : option string :=
  try_except
    (if is_none raw_id then Ok None else s <- py_str raw_id ;; Ok (Some s))
    None.

(** Validation of a value given for a field annotated [str]: pydantic 2
    takes a string only, pydantic 1 also turns a number into its text.
    Anything else fails the construction of the model. *)
Definition validate_str (v : pyval) : result string :=
  match v with
  | VStr s => Ok s
  | VInt _ | VBool _ =>
      match pydantic with
      | PydanticV1 => py_str v
      | PydanticV2 => Raise ValidationError
      end
  | _ => Raise ValidationError
  end.
End Builtins.

(** ** The read models and their mappers *)

Module ListSummary.
Record t : Type := mk {
  id : option string;
  name : string;
  item_count : Z
}.

Section Mapper.
Context {rt : PyRuntime}.

(** [ListSummary(id=..., name=..., item_count=...)]: the constructor
    validates the [str] field. *)
Definition new (id_str : option string) (name_arg : pyval) (count : Z) : result t :=
  n <- validate_str name_arg ;;
  Ok (mk id_str n count).

Definition from_doc (doc : pyval) : result t :=
  if negb (truthy doc) then new None (VStr "") 0
  else
    primary <- py_get doc "_id" ;;
    raw_id <- (if truthy primary then Ok primary else py_get doc "id") ;;
    let id_str := id_str_of raw_id in
    items <- py_get_default doc "items" (VList []) ;;
    let count := try_except (py_len items) 0%Z in
    name_arg <- py_get_default doc "name" (VStr "") ;;
    new id_str name_arg count.
End Mapper.
End ListSummary.

Module ToDoListItem.
Record t : Type := mk {
  id : option string;
  label : string;
  checked : bool
}.

Section Mapper.
Context {rt : PyRuntime}.

Definition new (id_str : option string) (label_arg : pyval) (checked_arg : bool) : result t :=
  l <- validate_str label_arg ;;
  Ok (mk id_str l checked_arg).

Definition from_doc (item : pyval) : result t :=
  if negb (truthy item) || negb (is_dict item) then new None (VStr "") false
  else
    explicit <- py_get item "id" ;;
    raw_id <- (if negb (is_none explicit) then py_get item "id" else py_get item "_id") ;;
    let id_str := id_str_of raw_id in
    label_arg <- py_get_default item "label" (VStr "") ;;
    checked_arg <- py_get_default item "checked" (VBool false) ;;
    new id_str label_arg (truthy checked_arg).
End Mapper.
End ToDoListItem.

Module ToDoList.
Record t : Type := mk {
  id : option string;
  name : string;
  items : list ToDoListItem.t
}.

Section Mapper.
Context {rt : PyRuntime}.

Definition new (id_str : option string) (name_arg : pyval)
    (items_list : list ToDoListItem.t) : result t :=
  n <- validate_str name_arg ;;
  Ok (mk id_str n items_list).

(** The loop over [items_docs]: an item whose mapping raises is logged
    and left out, the loop goes on. *)
Fixpoint map_items (items_docs : list pyval) : list ToDoListItem.t :=
  match items_docs with
  | [] => []
  | item :: rest =>
      match ToDoListItem.from_doc item with
      | Ok it => it :: map_items rest
      | Raise _ => map_items rest
      end
  end.

(** [None] is the absence signal. *)
Definition from_doc (doc : pyval) : result (option t) :=
  if negb (truthy doc) then Ok None
  else
    primary <- py_get doc "_id" ;;
    raw_id <- (if truthy primary then Ok primary else py_get doc "id") ;;
    let id_str := id_str_of raw_id in
    stored <- py_get_default doc "items" (VList []) ;;
    let items_docs := if truthy stored then stored else VList [] in
    elements <- py_iter items_docs ;;
    let items_list := map_items elements in
    name_arg <- py_get_default doc "name" (VStr "") ;;
    r <- new id_str name_arg items_list ;;
    Ok (Some r).
End Mapper.
End ToDoList.

(** ** ObjectId *)

Definition is_space (c : ascii) : bool :=
  let n := N_of_ascii c in
  (N.eqb n 32 || (N.leb 9 n && N.leb n 13))%N.

(** [bytes.fromhex(s)]: two hexadecimal digits per byte, white space between
    the bytes skipped; [None] stands for its [ValueError]. *)
Fixpoint bytes_fromhex (s : string) : option (list Byte.byte) :=
  match s with
  | EmptyString => Some []
  | String c rest =>
      if is_space c then bytes_fromhex rest
      else
        match hex_value c, rest with
        | Some top, String c' rest' =>
            match hex_value c', bytes_fromhex rest' with
            | Some bot, Some tail =>
                Some (byte_of_ascii (ascii_of_N (16 * top + bot)) :: tail)
            | _, _ => None
            end
        | _, _ => None
        end
  end.

(** A list identity as the operations are annotated to take it:
    [str | ObjectId]. *)
Inductive identity : Type :=
| IdStr (s : string)
| IdObjectId (binary : list Byte.byte).

Definition id_value (i : identity) : pyval :=
  match i with
  | IdStr s => VStr s
  | IdObjectId b => VObjectId b
  end.

Definition isinstance_str (i : identity) : bool :=
  match i with
  | IdStr _ => true
  | IdObjectId _ => false
  end.

(** [str(id)]. *)
Definition identity_str (i : identity) : string :=
  match i with
  | IdStr s => s
  | IdObjectId b => hexlify b
  end.

Module ObjectId.
Definition t : Type := list Byte.byte.

(** [ObjectId(oid)]: a copy of an ObjectId; of a string, the bytes of its
    24 hexadecimal characters, and [InvalidId] for any other string. *)
Definition new (oid : identity) : result t :=
  match oid with
  | IdObjectId b => Ok b
  | IdStr s =>
      if Nat.eqb (String.length s) 24 then
        match bytes_fromhex s with
        | Some b => Ok b
        | None => Raise InvalidId
        end
      else Raise InvalidId
  end.

(** [ObjectId.is_valid(oid)]: false for a falsy argument, otherwise
    whether the constructor accepts it. *)
Definition is_valid (oid : identity) : bool :=
  if negb (truthy (id_value oid)) then false
  else
    match new oid with
    | Ok _ => true
    | Raise _ => false
    end.
End ObjectId.

(** ** uuid4().hex

    [hex_fixed w n] is ['%0wx' % n] for [n] below [16^w]; a UUID is a 128-bit
    integer and its [hex] attribute has 32 digits. *)
Fixpoint hex_fixed (w : nat) (n : N) : string :=
  match w with
  | O => EmptyString
  | S w' => String (hex_digit (N.modulo (N.div n (16 ^ N.of_nat w')) 16)) (hex_fixed w' n)
  end.

Definition uuid_hex (u : N) : string := hex_fixed 32 u.

(** ** The document collection

    The part of the store the DAL talks to: a sequence of documents in
    natural order, queried by equality conditions on (dotted) field paths and
    updated with [$push], the positional [$set] and [$pull]. *)

Definition collection : Type := list pydict.

Fixpoint bytes_eqb (a b : list Byte.byte) : bool :=
  match a, b with
  | [], [] => true
  | x :: a', y :: b' => Byte.eqb x y && bytes_eqb a' b'
  | _, _ => false
  end.

(** Equality of stored values. *)
Fixpoint pyval_eqb (a b : pyval) {struct a} : bool :=
  match a, b with
  | VNone, VNone => true
  | VBool x, VBool y => Bool.eqb x y
  | VInt x, VInt y => Z.eqb x y
  | VStr x, VStr y => String.eqb x y
  | VObjectId x, VObjectId y => bytes_eqb x y
  | VList xs, VList ys =>
      (fix all2 (xs ys : list pyval) {struct xs} : bool :=
         match xs, ys with
         | [], [] => true
         | x :: xs', y :: ys' => pyval_eqb x y && all2 xs' ys'
         | _, _ => false
         end) xs ys
  | VDict xs, VDict ys =>
      (fix all2 (xs ys : pydict) {struct xs} : bool :=
         match xs, ys with
         | [], [] => true
         | (k, x) :: xs', (k', y) :: ys' => String.eqb k k' && pyval_eqb x y && all2 xs' ys'
         | _, _ => false
         end) xs ys
  | _, _ => false
  end.

(** ["items.id"] is the path [["items"; "id"]]. *)
Fixpoint split_dots_aux (s acc : string) : list string :=
  match s with
  | EmptyString => [acc]
  | String c rest =>
      if Ascii.eqb c "."%char then acc :: split_dots_aux rest EmptyString
      else split_dots_aux rest (acc ++ String c EmptyString)
  end.

Definition split_dots (s : string) : list string := split_dots_aux s EmptyString.

(** The values a path reaches in a document; an array on the way stands for
    each of its embedded documents. *)
Fixpoint path_values (path : list string) (v : pyval) : list pyval :=
  match path with
  | [] => [v]
  | k :: rest =>
      let field (e : pyval) : list pyval :=
        match e with
        | VDict kv =>
            match dict_get k kv with
            | Some x => path_values rest x
            | None => []
            end
        | _ => []
        end in
      match v with
      | VList l => flat_map field l
      | _ => field v
      end
  end.

(** A reached value satisfies [{path: q}] when it equals [q] or is an array
    with an element equal to [q]. *)
Definition value_matches (q leaf : pyval) : bool :=
  pyval_eqb leaf q ||
  match leaf with
  | VList l => existsb (fun x => pyval_eqb x q) l
  | _ => false
  end.

Definition cond_matches (path : list string) (q : pyval) (v : pyval) : bool :=
  existsb (value_matches q) (path_values path v).

Definition query_matches (flt : pydict) (v : pyval) : bool :=
  forallb (fun c => cond_matches (split_dots (fst c)) (snd c) v) flt.

(** The three update documents the DAL sends. *)
Inductive update : Type :=
| Push (field : string) (value : pyval)
    (* {"$push": {field: value}} *)
| SetPositional (array field : string) (value : pyval)
    (* {"$set": {"array.$.field": value}} *)
| Pull (field : string) (cond : pydict).
    (* {"$pull": {field: cond}} *)

(** The condition of the query that bears on the elements of [array]: the
    positional operator stands for the first element that satisfies it. *)
Fixpoint array_cond (flt : pydict) (array : string) : option (list string * pyval) :=
  match flt with
  | [] => None
  | (k, q) :: rest =>
      match split_dots k with
      | a :: f :: sub =>
          if String.eqb a array then Some (f :: sub, q) else array_cond rest array
      | _ => array_cond rest array
      end
  end.

(** Apply [f] to the first element that satisfies [p]. *)
Fixpoint set_first (p : pyval -> bool) (f : pyval -> pyval) (l : list pyval)
    : option (list pyval) :=
  match l with
  | [] => None
  | e :: rest =>
      if p e then Some (f e :: rest)
      else option_map (cons e) (set_first p f rest)
  end.

Definition set_field (k : string) (v : pyval) (e : pyval) : pyval :=
  match e with
  | VDict kv => VDict (dict_set k v kv)
  | _ => e
  end.

Definition apply_update (flt : pydict) (upd : update) (d : pydict) : result pydict :=
  match upd with
  | Push f v =>
      match dict_get f d with
      | None => Ok (dict_set f (VList [v]) d)
      | Some (VList l) => Ok (dict_set f (VList (l ++ [v])) d)
      | Some _ => Raise OperationFailure
      end
  | SetPositional a f v =>
      match array_cond flt a, dict_get a d with
      | Some (sub, q), Some (VList l) =>
          match set_first (fun e => is_dict e && cond_matches sub q e) (set_field f v) l with
          | Some l' => Ok (dict_set a (VList l') d)
          | None => Raise OperationFailure
          end
      | _, _ => Raise OperationFailure
      end
  | Pull f cond =>
      match dict_get f d with
      | None => Ok d
      | Some (VList l) =>
          Ok (dict_set f (VList (filter (fun e => negb (is_dict e && query_matches cond e)) l)) d)
      | Some _ => Raise OperationFailure
      end
  end.

(** [find_one(flt)]: the first document that matches. *)
Definition find_one (flt : pydict) (c : collection) : option pydict :=
  find (fun d => query_matches flt (VDict d)) c.

(** [delete_one(flt)]: the first document that matches is removed; the
    result is [deleted_count] and the collection left. *)
Fixpoint delete_one (flt : pydict) (c : collection) : nat * collection :=
  match c with
  | [] => (0, [])
  | d :: rest =>
      if query_matches flt (VDict d) then (1, rest)
      else let (n, rest') := delete_one flt rest in (n, d :: rest')
  end.

(** [find_one_and_update(flt, upd, return_document=AFTER)]: the first
    document that matches is updated in place and returned as updated;
    [None] when no document matches; a failed update changes nothing. *)
Fixpoint find_one_and_update (flt : pydict) (upd : update) (c : collection)
    : result (option pydict) * collection :=
  match c with
  | [] => (Ok None, [])
  | d :: rest =>
      if query_matches flt (VDict d) then
        match apply_update flt upd d with
        | Ok d' => (Ok (Some d'), d' :: rest)
        | Raise e => (Raise e, d :: rest)
        end
      else
        let (r, rest') := find_one_and_update flt upd rest in (r, d :: rest')
  end.

(** [insert_one(doc)], the store assigning the primary key [oid]. *)
Definition insert_one (oid : ObjectId.t) (doc : pydict) (c : collection)
    : ObjectId.t * collection :=
  (oid, (c ++ [("_id", VObjectId oid) :: doc])%list).

(** What the driver hands back to Python for an optional document. *)
Definition py_of_doc (d : option pydict) : pyval :=
  match d with
  | Some kv => VDict kv
  | None => VNone
  end.

(** ** The data-access layer

    An operation runs against the collection and leaves it changed or not;
    it returns a value or raises.  What is raised after the store has been
    updated leaves the update in place.

    The calls of this section are those of a store that answers every
    round trip: [find_one] and [delete_one] return, and [insert_one] is
    given a key that the store assigns fresh.  They say what a completed
    round trip returns.  [Unreliable], further down, has the operations
    over a store whose round trips can raise and that refuses a key that
    is stored already. *)

Definition DAL (A : Type) : Type := collection -> result A * collection.

Definition ret {A : Type} (a : A) : DAL A := fun c => (Ok a, c).

Definition lift {A : Type} (r : result A) : DAL A := fun c => (r, c).

Definition dal_bind {A B : Type} (m : DAL A) (k : A -> DAL B) : DAL B :=
  fun c =>
    match m c with
    | (Ok a, c') => k a c'
    | (Raise e, c') => (Raise e, c')
    end.

Notation "x <~ m ;; k" := (dal_bind m (fun x => k))
  (at level 61, m at next level, right associativity).

(** [try: m except Exception: h], around calls to the store. *)
Definition dal_try {A : Type} (m h : DAL A) : DAL A :=
  fun c =>
    match m c with
    | (Ok a, c') => (Ok a, c')
    | (Raise _, c') => h c'
    end.

Definition call_find_one (flt : pydict) : DAL pyval :=
  fun c => (Ok (py_of_doc (find_one flt c)), c).

Definition call_delete_one (flt : pydict) : DAL nat :=
  fun c => let (n, c') := delete_one flt c in (Ok n, c').

Definition call_find_one_and_update (flt : pydict) (upd : update) : DAL pyval :=
  fun c =>
    let (r, c') := find_one_and_update flt upd c in
    (d <- r ;; Ok (py_of_doc d), c').

Definition call_insert_one (oid : ObjectId.t) (doc : pydict) : DAL pyval :=
  fun c => let (i, c') := insert_one oid doc c in (Ok (VObjectId i), c').

Module ToDoDAL.
Section Operations.
Context {rt : PyRuntime}.

(** [oid] is the primary key the store assigns to the new document. *)
Definition create_todo_list (oid : ObjectId.t) (name : string) : DAL string :=
  inserted_id <~ call_insert_one oid [("name", VStr name); ("items", VList [])] ;;
  lift (py_str inserted_id).

Definition get_todo_list (id : identity) : DAL (option ToDoList.t) :=
  doc <~ dal_try
           (o <~ lift (ObjectId.new id) ;; call_find_one [("_id", VObjectId o)])
           (call_find_one [("_id", id_value id)]) ;;
  if negb (truthy doc) then ret None
  else lift (ToDoList.from_doc doc).

Definition delete_todo_list (id : identity) : DAL bool :=
  deleted_count <~ dal_try
           (o <~ lift (ObjectId.new id) ;; call_delete_one [("_id", VObjectId o)])
           (call_delete_one [("_id", id_value id)]) ;;
  ret (Nat.eqb deleted_count 1).

(** [u] is the integer of the UUID that [uuid4()] returns in the call. *)
Definition create_item (u : N) (id : identity) (label : string)
    : DAL (option ToDoList.t) :=
  let item_id := uuid_hex u in
  key <~ lift (if negb (isinstance_str id) || ObjectId.is_valid id
               then o <- ObjectId.new id ;; Ok (VObjectId o)
               else Ok (id_value id)) ;;
  result <~ call_find_one_and_update
              [("_id", key)]
              (Push "items"
                 (VDict [("id", VStr item_id);
                         ("label", VStr label);
                         ("checked", VBool false)])) ;;
  if truthy result then lift (ToDoList.from_doc result)
  else ret None.

Definition set_checked_state (doc_id : identity) (item_id : string)
    (checked_state : bool) : DAL (option ToDoList.t) :=
  filter_doc <~ lift (if ObjectId.is_valid (IdStr (identity_str doc_id))
                      then o <- ObjectId.new doc_id ;; Ok [("_id", VObjectId o)]
                      else Ok [("_id", id_value doc_id)]) ;;
  let filter_doc := dict_set "items.id" (VStr item_id) filter_doc in
  result <~ call_find_one_and_update
              filter_doc
              (SetPositional "items" "checked" (VBool checked_state)) ;;
  if truthy result then lift (ToDoList.from_doc result)
  else ret None.

Definition delete_item (doc_id : identity) (item_id : string)
    : DAL (option ToDoList.t) :=
  let filter_doc :=
    try_except (o <- ObjectId.new doc_id ;; Ok [("_id", VObjectId o)])
               [("_id", id_value doc_id)] in
  result <~ call_find_one_and_update
              filter_doc
              (Pull "items" [("id", VStr item_id)]) ;;
  if truthy result then lift (ToDoList.from_doc result)
  else ret None.
End Operations.
End ToDoDAL.

(** ** Identity resolution in two stages

    The rule the specification gives for every operation: try the native
    encoding of the identity, and match the identity literally when it does
    not decode.  [Resolved] has the five operations written against that one
    function. *)

Definition resolve_identity (id : identity) : pydict :=
  match ObjectId.new id with
  | Ok o => [("_id", VObjectId o)]
  | Raise _ => [("_id", id_value id)]
  end.

Module Resolved.
Section Operations.
Context {rt : PyRuntime}.

(** The full list of a document the store returned, or the absence
    signal. *)
Definition mapped (d : option pydict) : result (option ToDoList.t) :=
  match d with
  | Some kv => ToDoList.from_doc (VDict kv)
  | None => Ok None
  end.

Definition updated (flt : pydict) (upd : update) : DAL (option ToDoList.t) :=
  fun c =>
    let (r, c') := find_one_and_update flt upd c in
    (d <- r ;; mapped d, c').

Definition get_todo_list (id : identity) : DAL (option ToDoList.t) :=
  fun c => (mapped (find_one (resolve_identity id) c), c).

Definition delete_todo_list (id : identity) : DAL bool :=
  fun c =>
    let (n, c') := delete_one (resolve_identity id) c in
    (Ok (Nat.eqb n 1), c').

Definition create_item (u : N) (id : identity) (label : string)
    : DAL (option ToDoList.t) :=
  updated (resolve_identity id)
    (Push "items"
       (VDict [("id", VStr (uuid_hex u)); ("label", VStr label); ("checked", VBool false)])).

Definition set_checked_state (doc_id : identity) (item_id : string)
    (checked_state : bool) : DAL (option ToDoList.t) :=
  updated (resolve_identity doc_id ++ [("items.id", VStr item_id)])%list
    (SetPositional "items" "checked" (VBool checked_state)).

Definition delete_item (doc_id : identity) (item_id : string)
    : DAL (option ToDoList.t) :=
  updated (resolve_identity doc_id) (Pull "items" [("id", VStr item_id)]).
End Operations.
End Resolved.

(** * Vocabulary of the properties *)

(** A runtime to evaluate the definitions in: pydantic 2, and a container
    printed as its brackets. *)
Definition sample_runtime : PyRuntime := {|
  py_repr := fun v => match v with VList _ => "[...]" | _ => "{...}" end;
  pydantic := PydanticV2
|}.



(** The field [k] is missing or holds a string: what the constructor of a
    model accepts for a [str] field under either version of pydantic. *)
Definition str_field_ok (k : string) (kv : pydict) : bool :=
  match dict_get k kv with
  | None => true
  | Some (VStr _) => true
  | Some _ => false
  end.

(** Values with a length: [len()] accepts them. *)
Definition list_like (v : pyval) : bool :=
  match v with
  | VList _ | VStr _ | VDict _ => true
  | _ => false
  end.

Definition length_of (v : pyval) : Z :=
  match v with
  | VList l => Z.of_nat (List.length l)
  | VStr s => Z.of_nat (String.length s)
  | VDict kv => Z.of_nat (List.length kv)
  | _ => 0
  end.

(** The count the specification gives a summary: the length of the items
    field if it is present and list-like, else zero. *)
Definition expected_item_count (kv : pydict) : Z :=
  match dict_get "items" kv with
  | Some v => if list_like v then length_of v else 0
  | None => 0
  end.

(** The items field can be looped over: missing, falsy, or iterable. *)
Definition items_iterable (kv : pydict) : bool :=
  match dict_get "items" kv with
  | None => true
  | Some v => negb (truthy v) || list_like v
  end.

Definition field_or_none (k : string) (kv : pydict) : pyval :=
  match dict_get k kv with
  | Some v => v
  | None => VNone
  end.

Definition zero_summary : ListSummary.t := ListSummary.mk None "" 0.
Definition zero_item : ToDoListItem.t := ToDoListItem.mk None "" false.


(** ** Stored lists

    The persisted layout: a document with a primary key (an ObjectId or a
    string), a name that is a string, and an array of items, each with a
    string id, a string label and a boolean checked flag. *)
Definition scalar_key (v : pyval) : bool :=
  match v with
  | VStr _ | VObjectId _ => true
  | _ => false
  end.

Definition item_doc (e : pyval) : bool :=
  match e with
  | VDict kv =>
      match dict_get "id" kv, dict_get "label" kv, dict_get "checked" kv with
      | Some (VStr _), Some (VStr _), Some (VBool _) => true
      | _, _, _ => false
      end
  | _ => false
  end.

Definition list_doc (d : pydict) : bool :=
  match dict_get "_id" d, dict_get "name" d, dict_get "items" d with
  | Some k, Some (VStr _), Some (VList l) => scalar_key k && forallb item_doc l
  | _, _, _ => false
  end.

(** The invariant of the collection: every document is a stored list, and
    no two documents have the same primary key (the store enforces it). *)
Definition store_ok (c : collection) : Prop :=
  Forall (fun d => list_doc d = true) c /\ NoDup (map (field_or_none "_id") c).

(** What an item document and a list document are read as. *)
Definition item_view (e : pyval) : ToDoListItem.t :=
  match e with
  | VDict kv =>
      match dict_get "id" kv, dict_get "label" kv, dict_get "checked" kv with
      | Some (VStr i), Some (VStr l), Some (VBool b) => ToDoListItem.mk (Some i) l b
      | _, _, _ => zero_item
      end
  | _ => zero_item
  end.

Definition item_ids (l : ToDoList.t) : list (option string) :=
  map ToDoListItem.id (ToDoList.items l).

Definition with_items (l : ToDoList.t) (items : list ToDoListItem.t) : ToDoList.t :=
  ToDoList.mk (ToDoList.id l) (ToDoList.name l) items.

Definition with_checked (it : ToDoListItem.t) (b : bool) : ToDoListItem.t :=
  ToDoListItem.mk (ToDoListItem.id it) (ToDoListItem.label it) b.

(** The item [create_item] stores, as it is read back. *)
Definition new_item (u : N) (label : string) : ToDoListItem.t :=
  ToDoListItem.mk (Some (uuid_hex u)) label false.

Definition has_id (i : string) (it : ToDoListItem.t) : bool :=
  match ToDoListItem.id it with
  | Some j => String.eqb j i
  | None => false
  end.

(** The items of a list after the first one with id [i] is given the checked
    flag [b]. *)
Fixpoint check_first (i : string) (b : bool) (items : list ToDoListItem.t)
    : list ToDoListItem.t :=
  match items with
  | [] => []
  | it :: rest =>
      if has_id i it then with_checked it b :: rest
      else it :: check_first i b rest
  end.

Section Views.
Context {rt : PyRuntime}.

(** What a stored list is read as. *)
Definition list_view (d : pydict) : ToDoList.t :=
  ToDoList.mk
    (id_str_of (if truthy (field_or_none "_id" d)
                then field_or_none "_id" d else field_or_none "id" d))
    (match dict_get "name" d with
     | Some (VStr n) => n
     | _ => ""
     end)
    (match dict_get "items" d with
     | Some (VList l) => map item_view l
     | _ => []
     end).
End Views.

(** ** A collection to run the operations on *)

Definition sample_oid : ObjectId.t :=
  [Byte.x01; Byte.x23; Byte.x45; Byte.x67; Byte.x89; Byte.xab;
   Byte.xcd; Byte.xef; Byte.x01; Byte.x23; Byte.x45; Byte.x67].

Definition sample_identity : identity := IdStr "0123456789abcdef01234567".

(** One list, "Groceries", with the item "Milk". *)
Definition sample_store : collection :=
  [[("_id", VObjectId sample_oid);
    ("name", VStr "Groceries");
    ("items", VList [VDict [("id", VStr "0000000000000000000000000000004d");
                            ("label", VStr "Milk");
                            ("checked", VBool false)]])]].

Definition milk : ToDoListItem.t :=
  ToDoListItem.mk (Some "0000000000000000000000000000004d") "Milk" false.

Definition groceries (items : list ToDoListItem.t) : ToDoList.t :=
  ToDoList.mk (Some "0123456789abcdef01234567") "Groceries" items.

(** The same list before the item was added. *)
Definition new_store : collection :=
  [[("_id", VObjectId sample_oid); ("name", VStr "Groceries"); ("items", VList [])]].

Definition eggs (u : N) (checked : bool) : ToDoListItem.t :=
  ToDoListItem.mk (Some (uuid_hex u)) "Eggs" checked.

(** * The rest of the module and its callers *)

From Stdlib Require Import Sorted Permutation.

(** ** Enumeration (ToDoDAL.list_todo_lists)

    [find({}, projection={"name": 1, "items": 1}, sort=[("name", 1)])]: every
    document, cut down to its primary key and the two fields, in ascending
    order of the name.  The store compares two strings character by
    character; where it puts values that are not both strings is left to it
    ([bson_le]), and a missing name counts as None.  Which of two documents
    of equal name comes first is the store's choice; the model keeps them in
    stored order. *)
Class StoreOrder : Type := {
  bson_le : pyval -> pyval -> bool
}.

Definition project (fields : list string) (d : pydict) : pydict :=
  filter (fun kv => String.eqb (fst kv) "_id" || existsb (String.eqb (fst kv)) fields) d.

Section Sorting.
Context {so : StoreOrder}.

Definition key_le (a b : pyval) : bool :=
  match a, b with
  | VStr s, VStr t => String.leb s t
  | _, _ => bson_le a b
  end.

Fixpoint insert_by (field : string) (d : pydict) (sorted : collection) : collection :=
  match sorted with
  | [] => [d]
  | x :: rest =>
      if key_le (field_or_none field d) (field_or_none field x) then d :: x :: rest
      else x :: insert_by field d rest
  end.

Definition sort_by (field : string) (c : collection) : collection :=
  fold_right (insert_by field) [] c.

Definition find_all (fields : list string) (field : string) (c : collection) : collection :=
  map (project fields) (sort_by field c).
End Sorting.

Module Listing.
Section Operations.
Context {rt : PyRuntime} {so : StoreOrder}.

(** The async generator, as what it yields before it ends and the exception
    that ends it, if one does. *)
Fixpoint yield_summaries (docs : collection) : list ListSummary.t * option exn :=
  match docs with
  | [] => ([], None)
  | doc :: rest =>
      match ListSummary.from_doc (VDict doc) with
      | Ok s => let (ys, e) := yield_summaries rest in (s :: ys, e)
      | Raise e => ([], Some e)
      end
  end.

Definition list_todo_lists (c : collection) : list ListSummary.t * option exn :=
  yield_summaries (find_all ["name"; "items"] "name" c).
End Operations.
End Listing.

(** ** The request handlers (server.py)

    A handler runs against the collection behind [app.todo_dal] and either
    returns its response body or raises; what it raises is an
    [HTTPException], which the framework answers with that status, or
    anything else. *)
Inductive raised : Type :=
| HTTPException (status_code : nat) (detail : string)
| Uncaught (e : exn).

Inductive outcome (A : Type) : Type :=
| Returned (a : A)
| Raised (r : raised).
Arguments Returned {A} a.
Arguments Raised {A} r.

Definition handler (A : Type) : Type := collection -> outcome A * collection.

(** [await app.todo_dal.operation(...)]. *)
Definition await {A : Type} (m : DAL A) : handler A :=
  fun c =>
    match m c with
    | (Ok a, c') => (Returned a, c')
    | (Raise e, c') => (Raised (Uncaught e), c')
    end.

Definition handler_bind {A B : Type} (h : handler A) (k : A -> handler B) : handler B :=
  fun c =>
    match h c with
    | (Returned a, c') => k a c'
    | (Raised r, c') => (Raised r, c')
    end.

Notation "x <== h ;; k" := (handler_bind h (fun x => k))
  (at level 61, h at next level, right associativity).

Definition returned {A : Type} (a : A) : handler A := fun c => (Returned a, c).

Definition raise_http {A : Type} (status_code : nat) (detail : string) : handler A :=
  fun c => (Raised (HTTPException status_code detail), c).

(** [try: body] [except HTTPException: raise]
    [except Exception: raise HTTPException(status_code=500, detail=...)]. *)
Definition try_reraising_http {A : Type} (detail : string) (body : handler A) : handler A :=
  fun c =>
    match body c with
    | (Raised (Uncaught _), c') => (Raised (HTTPException 500 detail), c')
    | r => r
    end.

(** [try: body] [except Exception: raise HTTPException(status_code=500, ...)]:
    an [HTTPException] is an [Exception] too. *)
Definition try_any {A : Type} (detail : string) (body : handler A) : handler A :=
  fun c =>
    match body c with
    | (Raised _, c') => (Raised (HTTPException 500 detail), c')
    | r => r
    end.

Module Server.
Record NewListResponse : Type := mkNewListResponse {
  id : string;
  name : string
}.

Section Handlers.
Context {rt : PyRuntime} {so : StoreOrder}.

(** [lists = [i async for i in app.todo_dal.list_todo_lists()]]. *)
Definition collect_lists : handler (list ListSummary.t) :=
  fun c =>
    match Listing.list_todo_lists c with
    | (lists, None) => (Returned lists, c)
    | (_, Some e) => (Raised (Uncaught e), c)
    end.

Definition get_all_lists : handler (list ListSummary.t) :=
  try_any "Failed to list todo lists"
    (lists <== collect_lists ;; returned lists).

Definition create_todo_list (oid : ObjectId.t) (new_list_name : string)
    : handler NewListResponse :=
  try_any "Failed to create todo list"
    (list_id <== await (ToDoDAL.create_todo_list oid new_list_name) ;;
     returned (mkNewListResponse list_id new_list_name)).

Definition get_list (list_id : string) : handler ToDoList.t :=
  try_reraising_http "Failed to get list"
    (todo <== await (ToDoDAL.get_todo_list (IdStr list_id)) ;;
     match todo with
     | None => raise_http 404 "List not found"
     | Some t => returned t
     end).

Definition delete_list (list_id : string) : handler bool :=
  try_reraising_http "Failed to delete list"
    (ok <== await (ToDoDAL.delete_todo_list (IdStr list_id)) ;;
     if negb ok then raise_http 404 "List not found"
     else returned true).

Definition create_item (u : N) (list_id : string) (new_item_label : string)
    : handler ToDoList.t :=
  try_reraising_http "Failed to create item"
    (result <== await (ToDoDAL.create_item u (IdStr list_id) new_item_label) ;;
     match result with
     | None => raise_http 404 "List not found"
     | Some t => returned t
     end).

Definition delete_item (list_id item_id : string) : handler ToDoList.t :=
  try_reraising_http "Failed to delete item"
    (result <== await (ToDoDAL.delete_item (IdStr list_id) item_id) ;;
     match result with
     | None => raise_http 404 "List or item not found"
     | Some t => returned t
     end).

Definition set_checked_state (list_id item_id : string) (checked_state : bool)
    : handler ToDoList.t :=
  try_reraising_http "Failed to update checked state"
    (result <== await (ToDoDAL.set_checked_state (IdStr list_id) item_id checked_state) ;;
     match result with
     | None => raise_http 404 "List or item not found"
     | Some t => returned t
     end).
End Handlers.
End Server.

(** ** Vocabulary of the further properties *)

(** The status a handler answers with when it raises: never another
    exception than an [HTTPException] of one of the two statuses. *)
Definition answers_in {A : Type} (statuses : list nat) (o : outcome A) : Prop :=
  match o with
  | Returned _ => True
  | Raised (HTTPException s _) => In s statuses
  | Raised (Uncaught _) => False
  end.

Definition names_sorted (l : list ListSummary.t) : Prop :=
  Sorted (fun a b => String.leb (ListSummary.name a) (ListSummary.name b) = true) l.

(** The summary of a stored list, as its full view gives it. *)
Definition summary_of (l : ToDoList.t) : ListSummary.t :=
  ListSummary.mk (ToDoList.id l) (ToDoList.name l)
    (Z.of_nat (List.length (ToDoList.items l))).

(** An order to run the enumeration with: values other than strings all
    alike. *)
Definition sample_order : StoreOrder := {| bson_le := fun _ _ => true |}.

(** A second stored list, "Chores", under a string key. *)
Definition chores_doc : pydict :=
  [("_id", VStr "chores"); ("name", VStr "Chores"); ("items", VList [])].

Definition chores : ToDoList.t := ToDoList.mk (Some "chores") "Chores" [].

Definition two_lists : collection := (sample_store ++ [chores_doc])%list.

(** The field an update document changes. *)
Definition update_field (upd : update) : string :=
  match upd with
  | Push f _ => f
  | SetPositional a _ _ => a
  | Pull f _ => f
  end.

Definition without_id (i : string) (items : list ToDoListItem.t) : list ToDoListItem.t :=
  filter (fun it => negb (has_id i it)) items.

Section ListingVocabulary.
Context {rt : PyRuntime}.

(** A summary agrees with a stored list: the name and the number of items
    of the list as a get reads it, and its id when the primary key is
    truthy (the enumeration does not fetch the secondary id field). *)
Definition summarises (s : ListSummary.t) (d : pydict) : Prop :=
  ListSummary.name s = ToDoList.name (list_view d) /\
  ListSummary.item_count s = Z.of_nat (List.length (ToDoList.items (list_view d))) /\
  (truthy (field_or_none "_id" d) = true ->
   ListSummary.id s = ToDoList.id (list_view d)).

Definition listed_summary (d : pydict) : ListSummary.t :=
  ListSummary.mk
    (id_str_of (if truthy (field_or_none "_id" d) then field_or_none "_id" d else VNone))
    (ToDoList.name (list_view d))
    (Z.of_nat (List.length (ToDoList.items (list_view d)))).
End ListingVocabulary.

(** A list stored under a string key of 24 hexadecimal characters. *)
Definition hex_keyed_store : collection :=
  [[("_id", VStr "0123456789abcdef01234567"); ("name", VStr "Legacy"); ("items", VList [])]].

(** A document whose name is None. *)
Definition nameless_doc : pydict :=
  [("_id", VObjectId sample_oid); ("name", VNone); ("items", VList [])].

Definition milk_doc : pyval :=
  VDict [("id", VStr (uuid_hex 77)); ("label", VStr "Milk"); ("checked", VBool false)].

(** * A store that can fail

    The operations of [ToDoDAL] above are written for a store that answers
    every round trip.  A round trip can also fail: the driver then raises
    where the call is awaited, and a surrounding [except Exception] catches
    it like any other exception.  [Unreliable] has the operations and two
    handlers over such a store.  [outages] is what becomes of the round
    trips to come, in order: [Some e] for one that raises [e], [None] for
    one that is answered; past the end every round trip is answered. *)
Record store : Type := mkStore {
  documents : collection;
  outages : list (option exn)
}.

Definition Store (A : Type) : Type := store -> result A * store.

Definition next_answers (out : list (option exn)) : bool :=
  match out with
  | Some _ :: _ => false
  | _ => true
  end.

(** One awaited call of the driver. *)
Definition round_trip {A : Type} (call : DAL A) : Store A :=
  fun s =>
    match outages s with
    | Some e :: rest => (Raise e, mkStore (documents s) rest)
    | out =>
        let (r, c') := call (documents s) in
        (r, mkStore c' (tl out))
    end.

(** A primary key is unique in a collection: an insert under a key that is
    stored already is refused with [DuplicateKeyError], which is an
    [OperationFailure]. *)
Definition key_taken (k : pyval) (c : collection) : bool :=
  existsb (fun d => pyval_eqb (field_or_none "_id" d) k) c.

Definition call_insert_one_unique (oid : ObjectId.t) (doc : pydict) : DAL pyval :=
  fun c =>
    if key_taken (VObjectId oid) c then (Raise OperationFailure, c)
    else call_insert_one oid doc c.


Definition store_ret {A : Type} (a : A) : Store A := fun s => (Ok a, s).

Definition store_lift {A : Type} (r : result A) : Store A := fun s => (r, s).

Definition store_bind {A B : Type} (m : Store A) (k : A -> Store B) : Store B :=
  fun s =>
    match m s with
    | (Ok a, s') => k a s'
    | (Raise e, s') => (Raise e, s')
    end.

Notation "x <-- m ;; k" := (store_bind m (fun x => k))
  (at level 61, m at next level, right associativity).

(** [try: m except Exception: h]. *)
Definition store_try {A : Type} (m h : Store A) : Store A :=
  fun s =>
    match m s with
    | (Ok a, s') => (Ok a, s')
    | (Raise _, s') => h s'
    end.

Definition store_handler (A : Type) : Type := store -> outcome A * store.

Definition store_await {A : Type} (m : Store A) : store_handler A :=
  fun s =>
    match m s with
    | (Ok a, s') => (Returned a, s')
    | (Raise e, s') => (Raised (Uncaught e), s')
    end.

Definition store_handler_bind {A B : Type} (h : store_handler A)
    (k : A -> store_handler B) : store_handler B :=
  fun s =>
    match h s with
    | (Returned a, s') => k a s'
    | (Raised r, s') => (Raised r, s')
    end.

Notation "x <=== h ;; k" := (store_handler_bind h (fun x => k))
  (at level 61, h at next level, right associativity).

Definition store_returned {A : Type} (a : A) : store_handler A :=
  fun s => (Returned a, s).

Definition store_raise_http {A : Type} (status_code : nat) (detail : string)
    : store_handler A :=
  fun s => (Raised (HTTPException status_code detail), s).

(** [except HTTPException: raise], then [except Exception: raise 500]. *)
Definition store_try_reraising_http {A : Type} (detail : string)
    (body : store_handler A) : store_handler A :=
  fun s =>
    match body s with
    | (Raised (Uncaught _), s') => (Raised (HTTPException 500 detail), s')
    | r => r
    end.


Module Unreliable.
Section Operations.
Context {rt : PyRuntime}.

Definition create_todo_list (oid : ObjectId.t) (name : string) : Store string :=
  inserted_id <-- round_trip
                    (call_insert_one_unique oid
                       [("name", VStr name); ("items", VList [])]) ;;
  store_lift (py_str inserted_id).

(** The [try] holds the call of the store: whatever that call raises is
    caught with what [ObjectId(id)] raises. *)
Definition get_todo_list (id : identity) : Store (option ToDoList.t) :=
  doc <-- store_try
            (o <-- store_lift (ObjectId.new id) ;;
             round_trip (call_find_one [("_id", VObjectId o)]))
            (round_trip (call_find_one [("_id", id_value id)])) ;;
  if negb (truthy doc) then store_ret None
  else store_lift (ToDoList.from_doc doc).

Definition delete_todo_list (id : identity) : Store bool :=
  deleted_count <-- store_try
            (o <-- store_lift (ObjectId.new id) ;;
             round_trip (call_delete_one [("_id", VObjectId o)]))
            (round_trip (call_delete_one [("_id", id_value id)])) ;;
  store_ret (Nat.eqb deleted_count 1).

Definition create_item (u : N) (id : identity) (label : string)
    : Store (option ToDoList.t) :=
  let item_id := uuid_hex u in
  key <-- store_lift (if negb (isinstance_str id) || ObjectId.is_valid id
                      then o <- ObjectId.new id ;; Ok (VObjectId o)
                      else Ok (id_value id)) ;;
  result <-- round_trip
               (call_find_one_and_update
                  [("_id", key)]
                  (Push "items"
                     (VDict [("id", VStr item_id);
                             ("label", VStr label);
                             ("checked", VBool false)]))) ;;
  if truthy result then store_lift (ToDoList.from_doc result)
  else store_ret None.

Definition set_checked_state (doc_id : identity) (item_id : string)
    (checked_state : bool) : Store (option ToDoList.t) :=
  filter_doc <-- store_lift (if ObjectId.is_valid (IdStr (identity_str doc_id))
                             then o <- ObjectId.new doc_id ;; Ok [("_id", VObjectId o)]
                             else Ok [("_id", id_value doc_id)]) ;;
  let filter_doc := dict_set "items.id" (VStr item_id) filter_doc in
  result <-- round_trip
               (call_find_one_and_update
                  filter_doc
                  (SetPositional "items" "checked" (VBool checked_state))) ;;
  if truthy result then store_lift (ToDoList.from_doc result)
  else store_ret None.

(** Here the [try] holds [ObjectId(doc_id)] alone. *)
Definition delete_item (doc_id : identity) (item_id : string)
    : Store (option ToDoList.t) :=
  let filter_doc :=
    try_except (o <- ObjectId.new doc_id ;; Ok [("_id", VObjectId o)])
               [("_id", id_value doc_id)] in
  result <-- round_trip
               (call_find_one_and_update
                  filter_doc
                  (Pull "items" [("id", VStr item_id)])) ;;
  if truthy result then store_lift (ToDoList.from_doc result)
  else store_ret None.


Definition get_list (list_id : string) : store_handler ToDoList.t :=
  store_try_reraising_http "Failed to get list"
    (todo <=== store_await (get_todo_list (IdStr list_id)) ;;
     match todo with
     | None => store_raise_http 404 "List not found"
     | Some t => store_returned t
     end).
End Operations.
End Unreliable.

(** ** Vocabulary of the properties over the store *)

(** Version 4 UUIDs, as [uuid4()] returns them: the version digit is 4 and
    the two high bits of the variant are 1 and 0. *)
Definition is_uuid4 (u : N) : bool :=
  (N.ltb u (2 ^ 128) &&
   N.eqb (N.modulo (N.div u (2 ^ 76)) 16) 4 &&
   N.eqb (N.modulo (N.div u (2 ^ 62)) 4) 2)%N.

Definition uuid_a : N := 302240678275694148452352%N.
Definition uuid_b : N := 302240678275694148452353%N.
(** * Properties *)

Open Scope list_scope.

(** ** The mappers *)

Section MapperFacts.
Context {rt : PyRuntime}.

Lemma validate_str_field (k : string) (kv : pydict) :
  str_field_ok k kv = true ->
  exists s, (a <- py_get_default (VDict kv) k (VStr "") ;; validate_str a) = Ok s.
Proof.
  unfold str_field_ok, py_get_default. intros H.
  destruct (dict_get k kv) as [v|]; [destruct v; try discriminate|];
    cbn; eexists; reflexivity.
Qed.

Lemma try_len_expected (kv : pydict) :
  (items <- py_get_default (VDict kv) "items" (VList []) ;;
   Ok (try_except (py_len items) 0%Z)) = Ok (expected_item_count kv).
Proof.
  unfold expected_item_count, py_get_default.
  destruct (dict_get "items" kv) as [v|]; [destruct v|]; reflexivity.
Qed.

Lemma falsy_dict (kv : pydict) : truthy (VDict kv) = false -> kv = [].
Proof. destruct kv; [reflexivity | discriminate]. Qed.

Lemma summary_of_falsy (doc : pyval) :
  truthy doc = false -> ListSummary.from_doc doc = Ok zero_summary.
Proof. intros H. unfold ListSummary.from_doc. rewrite H. reflexivity. Qed.

Lemma item_of_falsy (doc : pyval) :
  truthy doc = false -> ToDoListItem.from_doc doc = Ok zero_item.
Proof. intros H. unfold ToDoListItem.from_doc. rewrite H. reflexivity. Qed.


Lemma list_of_falsy (doc : pyval) :
  truthy doc = false -> ToDoList.from_doc doc = Ok None.
Proof. intros H. unfold ToDoList.from_doc. rewrite H. reflexivity. Qed.

(** The equations of the three mappers on a document with fields. *)
Lemma summary_of_dict (kv : pydict) :
  truthy (VDict kv) = true ->
  ListSummary.from_doc (VDict kv) =
    (n <- validate_str (match dict_get "name" kv with Some v => v | None => VStr "" end) ;;
     Ok (ListSummary.mk
           (id_str_of (if truthy (field_or_none "_id" kv)
                       then field_or_none "_id" kv else field_or_none "id" kv))
           n (expected_item_count kv))).
Proof.
  intros H. unfold ListSummary.from_doc. rewrite H.
  unfold py_get, py_get_default, field_or_none, expected_item_count, ListSummary.new.
  destruct (dict_get "_id" kv) as [a|]; cbn [negb bind];
    [destruct (truthy a)|cbn [truthy]];
    destruct (dict_get "id" kv); cbn [bind];
    destruct (dict_get "name" kv);
    (destruct (dict_get "items" kv) as [v|]; [destruct v|]; reflexivity).
Qed.

Lemma item_of_dict (kv : pydict) :
  truthy (VDict kv) = true ->
  ToDoListItem.from_doc (VDict kv) =
    (l <- validate_str (match dict_get "label" kv with Some v => v | None => VStr "" end) ;;
     Ok (ToDoListItem.mk
           (id_str_of (if is_none (field_or_none "id" kv)
                       then field_or_none "_id" kv else field_or_none "id" kv))
           l
           (truthy (match dict_get "checked" kv with Some v => v | None => VBool false end)))).
Proof.
  intros H. unfold ToDoListItem.from_doc. rewrite H.
  unfold py_get, py_get_default, field_or_none, ToDoListItem.new.
  cbn [negb is_dict orb].
  destruct (dict_get "id" kv) as [a|]; cbn [bind];
    [destruct (is_none a)|cbn [is_none]]; cbn [negb bind];
    destruct (dict_get "_id" kv); destruct (dict_get "label" kv);
    destruct (dict_get "checked" kv); reflexivity.
Qed.

Lemma list_of_dict (kv : pydict) :
  truthy (VDict kv) = true ->
  ToDoList.from_doc (VDict kv) =
    (elements <- py_iter (if truthy (match dict_get "items" kv with
                                     | Some v => v | None => VList [] end)
                          then match dict_get "items" kv with
                               | Some v => v | None => VList [] end
                          else VList []) ;;
     n <- validate_str (match dict_get "name" kv with Some v => v | None => VStr "" end) ;;
     Ok (Some (ToDoList.mk
           (id_str_of (if truthy (field_or_none "_id" kv)
                       then field_or_none "_id" kv else field_or_none "id" kv))
           n (ToDoList.map_items elements)))).
Proof.
  intros H. unfold ToDoList.from_doc. rewrite H.
  unfold py_get, py_get_default, field_or_none, ToDoList.new.
  destruct (dict_get "_id" kv) as [a|]; cbn [negb bind];
    [destruct (truthy a)|cbn [truthy]];
    destruct (dict_get "id" kv); cbn [bind];
    destruct (dict_get "items" kv) as [v|]; cbn [bind];
    (destruct (py_iter _); cbn [bind]; [|reflexivity]);
    destruct (dict_get "name" kv); cbn [bind];
    (destruct (validate_str _); reflexivity).
Qed.
End MapperFacts.

Section MapperClaims.
Context {rt : PyRuntime}.

Lemma dict_get_truthy (k : string) (kv : pydict) (v : pyval) :
  dict_get k kv = Some v -> truthy (VDict kv) = true.
Proof. destruct kv; [discriminate | reflexivity]. Qed.

Lemma truthy_or_falsy_dict (kv : pydict) :
  kv = [] \/ truthy (VDict kv) = true.
Proof. destruct kv; [left | right]; reflexivity. Qed.

Lemma summary_returns (kv : pydict) :
  str_field_ok "name" kv = true -> returns (ListSummary.from_doc (VDict kv)).
Proof.
  intros Hn. destruct (truthy_or_falsy_dict kv) as [-> | Ht].
  - eexists; reflexivity.
  - rewrite (summary_of_dict kv Ht).
    destruct (validate_str_field "name" kv Hn) as [s Hs].
    unfold py_get_default in Hs. destruct (dict_get "name" kv); cbn [bind] in Hs;
      rewrite Hs; eexists; reflexivity.
Qed.


Lemma iterable_items (kv : pydict) :
  items_iterable kv = true ->
  returns (py_iter (if truthy (match dict_get "items" kv with
                               | Some v => v | None => VList [] end)
                    then match dict_get "items" kv with
                         | Some v => v | None => VList [] end
                    else VList [])).
Proof.
  unfold items_iterable. destruct (dict_get "items" kv) as [v|].
  - destruct (truthy v); cbn [negb orb]; intros H.
    + destruct v; try discriminate; eexists; reflexivity.
    + eexists; reflexivity.
  - intros _. eexists; reflexivity.
Qed.



(** C7: [ListSummary.from_doc] gives the zero-value summary for an absent
    document; for a present one, the summary it returns has the length of
    the items field as its count when the field is present and list-like
    (it has a length) and zero otherwise, zero in particular when the
    field is missing; and it does return a summary for every document
    whose name is missing or a string. *)
Theorem summary_item_count :
  ListSummary.from_doc VNone = Ok zero_summary /\
  (forall kv r, ListSummary.from_doc (VDict kv) = Ok r ->
     ListSummary.item_count r = expected_item_count kv) /\
  (forall kv r l, dict_get "items" kv = Some (VList l) ->
     ListSummary.from_doc (VDict kv) = Ok r ->
     ListSummary.item_count r = Z.of_nat (List.length l)) /\
  (forall kv r, dict_get "items" kv = None ->
     ListSummary.from_doc (VDict kv) = Ok r ->
     ListSummary.item_count r = 0%Z) /\
  (forall kv, str_field_ok "name" kv = true ->
     returns (ListSummary.from_doc (VDict kv))).
Proof.
  assert (Hcount : forall kv r, ListSummary.from_doc (VDict kv) = Ok r ->
            ListSummary.item_count r = expected_item_count kv).
  { intros kv r. destruct (truthy_or_falsy_dict kv) as [-> | Ht].
    - intros H. injection H as <-. reflexivity.
    - rewrite (summary_of_dict kv Ht).
      destruct (validate_str _); cbn [bind]; [|discriminate].
      intros H. injection H as <-. reflexivity. }
  split; [reflexivity|]. split; [exact Hcount|].
  split; [|split].
  - intros kv r l Hi H. rewrite (Hcount kv r H).
    unfold expected_item_count. rewrite Hi. reflexivity.
  - intros kv r Hi H. rewrite (Hcount kv r H).
    unfold expected_item_count. rewrite Hi. reflexivity.
  - apply summary_returns.
Qed.

Lemma list_of_truthy_not_none (doc : pyval) :
  truthy doc = true -> ToDoList.from_doc doc <> Ok None.
Proof.
  intros Ht. unfold ToDoList.from_doc, ToDoList.new. rewrite Ht. cbn [negb].
  repeat match goal with
         | |- (bind ?r _) <> _ => destruct r; cbn [bind]; [|discriminate]
         end.
  discriminate.
Qed.

(** C8, as the code has it: [ToDoList.from_doc] returns the absence signal
    exactly when its input is falsy, which None is and an empty document
    is too; on such input the other two mappers return their zero-value
    model (a model or an exception is all either can produce). *)
Theorem list_absent_iff_falsy :
  forall doc,
    (ToDoList.from_doc doc = Ok None <-> truthy doc = false) /\
    (truthy doc = false ->
       ListSummary.from_doc doc = Ok zero_summary /\
       ToDoListItem.from_doc doc = Ok zero_item).
Proof.
  intros doc. split; [split|].
  - intros H. destruct (truthy doc) eqn:Ht; [|reflexivity].
    exfalso. exact (list_of_truthy_not_none doc Ht H).
  - apply list_of_falsy.
  - intros H. split; [apply summary_of_falsy | apply item_of_falsy]; exact H.
Qed.

(** What the three mappers take for the id, of the models they return. *)
Lemma id_fallback_when_returned :
  (forall kv r,
     truthy (field_or_none "_id" kv) = false ->
     ListSummary.from_doc (VDict kv) = Ok r ->
     ListSummary.id r = id_str_of (field_or_none "id" kv)) /\
  (forall kv r,
     truthy (field_or_none "_id" kv) = false ->
     ToDoList.from_doc (VDict kv) = Ok (Some r) ->
     ToDoList.id r = id_str_of (field_or_none "id" kv)) /\
  (forall kv r v,
     dict_get "id" kv = Some v -> v <> VNone ->
     ToDoListItem.from_doc (VDict kv) = Ok r ->
     ToDoListItem.id r = id_str_of v) /\
  (forall kv r,
     dict_get "id" kv = Some (VStr "") ->
     ToDoListItem.from_doc (VDict kv) = Ok r ->
     ToDoListItem.id r = Some "") /\
  (forall kv r,
     field_or_none "id" kv = VNone ->
     ToDoListItem.from_doc (VDict kv) = Ok r ->
     ToDoListItem.id r = id_str_of (field_or_none "_id" kv)).
Proof.
  assert (Hitem : forall kv r v,
            dict_get "id" kv = Some v -> v <> VNone ->
            ToDoListItem.from_doc (VDict kv) = Ok r ->
            ToDoListItem.id r = id_str_of v).
  { intros kv r v Hv Hn.
    rewrite (item_of_dict kv (dict_get_truthy _ _ _ Hv)).
    unfold field_or_none. rewrite Hv.
    destruct (validate_str _); cbn [bind]; [|discriminate].
    intros H. injection H as <-. cbn [ToDoListItem.id].
    destruct v; try reflexivity. contradiction. }
  split; [|split; [|split; [exact Hitem|split]]].
  - intros kv r Hf. destruct (truthy_or_falsy_dict kv) as [-> | Ht].
    + intros H. injection H as <-. reflexivity.
    + rewrite (summary_of_dict kv Ht), Hf.
      destruct (validate_str _); cbn [bind]; [|discriminate].
      intros H. injection H as <-. reflexivity.
  - intros kv r Hf. destruct (truthy_or_falsy_dict kv) as [-> | Ht].
    + discriminate.
    + rewrite (list_of_dict kv Ht), Hf.
      destruct (py_iter _); cbn [bind]; [|discriminate].
      destruct (validate_str _); cbn [bind]; [|discriminate].
      intros H. injection H as <-. reflexivity.
  - intros kv r Hv H. rewrite (Hitem kv r (VStr "") Hv); [reflexivity|discriminate|exact H].
  - intros kv r Hn. destruct (truthy_or_falsy_dict kv) as [-> | Ht].
    + intros H. injection H as <-. reflexivity.
    + rewrite (item_of_dict kv Ht), Hn.
      destruct (validate_str _); cbn [bind]; [|discriminate].
      intros H. injection H as <-. reflexivity.
Qed.

(** The id each mapper gives a document it returns a model for. *)
Lemma summary_id (kv : pydict) :
  str_field_ok "name" kv = true ->
  exists r,
    ListSummary.from_doc (VDict kv) = Ok r /\
    ListSummary.id r =
      id_str_of (if truthy (field_or_none "_id" kv)
                 then field_or_none "_id" kv else field_or_none "id" kv).
Proof.
  intros Hn. destruct (truthy_or_falsy_dict kv) as [-> | Ht].
  - eexists. split; reflexivity.
  - rewrite (summary_of_dict kv Ht).
    destruct (validate_str_field "name" kv Hn) as [s Hs].
    unfold py_get_default in Hs. destruct (dict_get "name" kv); cbn [bind] in Hs;
      rewrite Hs; eexists; split; reflexivity.
Qed.

Lemma list_id (kv : pydict) :
  kv <> [] -> str_field_ok "name" kv = true -> items_iterable kv = true ->
  exists r,
    ToDoList.from_doc (VDict kv) = Ok (Some r) /\
    ToDoList.id r =
      id_str_of (if truthy (field_or_none "_id" kv)
                 then field_or_none "_id" kv else field_or_none "id" kv).
Proof.
  intros Hne Hn Hi. destruct (truthy_or_falsy_dict kv) as [-> | Ht]; [contradiction|].
  rewrite (list_of_dict kv Ht).
  destruct (iterable_items kv Hi) as [els ->]. cbn [bind].
  destruct (validate_str_field "name" kv Hn) as [s Hs].
  unfold py_get_default in Hs. destruct (dict_get "name" kv); cbn [bind] in Hs;
    rewrite Hs; eexists; split; reflexivity.
Qed.

Lemma item_id (kv : pydict) :
  str_field_ok "label" kv = true ->
  exists r,
    ToDoListItem.from_doc (VDict kv) = Ok r /\
    ToDoListItem.id r =
      id_str_of (if is_none (field_or_none "id" kv)
                 then field_or_none "_id" kv else field_or_none "id" kv).
Proof.
  intros Hn. destruct (truthy_or_falsy_dict kv) as [-> | Ht].
  - eexists. split; reflexivity.
  - rewrite (item_of_dict kv Ht).
    destruct (validate_str_field "label" kv Hn) as [s Hs].
    unfold py_get_default in Hs. destruct (dict_get "label" kv); cbn [bind] in Hs;
      rewrite Hs; eexists; split; reflexivity.
Qed.

(** C10: in [ListSummary.from_doc] and [ToDoList.from_doc] the choice
    between the primary key and the id field is made by the truth value of
    the primary key: a summary is returned for every document whose name is
    missing or a string, and a list for every such non-empty document whose
    items can be looped over, with the text of the primary key as its id
    when that key is truthy and the text of the id field when the key is
    falsy (the empty string, 0) or missing.  In [ToDoListItem.from_doc] the
    choice is made by [is not None]: an item is returned for every document
    whose label is missing or a string, with the text of its id field unless
    that field is None or missing, so an empty-string id is kept, and with
    the text of the primary key otherwise. *)
Theorem id_fallback :
  (forall kv r,
     truthy (field_or_none "_id" kv) = false ->
     ListSummary.from_doc (VDict kv) = Ok r ->
     ListSummary.id r = id_str_of (field_or_none "id" kv)) /\
  (forall kv r,
     truthy (field_or_none "_id" kv) = false ->
     ToDoList.from_doc (VDict kv) = Ok (Some r) ->
     ToDoList.id r = id_str_of (field_or_none "id" kv)) /\
  (forall kv r v,
     dict_get "id" kv = Some v -> v <> VNone ->
     ToDoListItem.from_doc (VDict kv) = Ok r ->
     ToDoListItem.id r = id_str_of v) /\
  (forall kv r,
     dict_get "id" kv = Some (VStr "") ->
     ToDoListItem.from_doc (VDict kv) = Ok r ->
     ToDoListItem.id r = Some "") /\
  (forall kv r,
     field_or_none "id" kv = VNone ->
     ToDoListItem.from_doc (VDict kv) = Ok r ->
     ToDoListItem.id r = id_str_of (field_or_none "_id" kv)) /\
  (forall kv,
     str_field_ok "name" kv = true ->
     truthy (field_or_none "_id" kv) = false ->
     exists r, ListSummary.from_doc (VDict kv) = Ok r /\
               ListSummary.id r = id_str_of (field_or_none "id" kv)) /\
  (forall kv,
     str_field_ok "name" kv = true ->
     truthy (field_or_none "_id" kv) = true ->
     exists r, ListSummary.from_doc (VDict kv) = Ok r /\
               ListSummary.id r = id_str_of (field_or_none "_id" kv)) /\
  (forall kv,
     kv <> [] -> str_field_ok "name" kv = true -> items_iterable kv = true ->
     truthy (field_or_none "_id" kv) = false ->
     exists r, ToDoList.from_doc (VDict kv) = Ok (Some r) /\
               ToDoList.id r = id_str_of (field_or_none "id" kv)) /\
  (forall kv,
     str_field_ok "name" kv = true -> items_iterable kv = true ->
     truthy (field_or_none "_id" kv) = true ->
     exists r, ToDoList.from_doc (VDict kv) = Ok (Some r) /\
               ToDoList.id r = id_str_of (field_or_none "_id" kv)) /\
  (forall kv,
     str_field_ok "label" kv = true ->
     is_none (field_or_none "id" kv) = false ->
     exists r, ToDoListItem.from_doc (VDict kv) = Ok r /\
               ToDoListItem.id r = id_str_of (field_or_none "id" kv)) /\
  (forall kv,
     str_field_ok "label" kv = true ->
     is_none (field_or_none "id" kv) = true ->
     exists r, ToDoListItem.from_doc (VDict kv) = Ok r /\
               ToDoListItem.id r = id_str_of (field_or_none "_id" kv)).
Proof.
  pose proof id_fallback_when_returned as (H1 & H2 & H3 & H4 & H5).
  split; [exact H1|]. split; [exact H2|]. split; [exact H3|].
  split; [exact H4|]. split; [exact H5|].
  split; [|split; [|split; [|split; [|split]]]].
  - intros kv Hn Hf. destruct (summary_id kv Hn) as (r & Hr & Hid).
    exists r. rewrite Hf in Hid. auto.
  - intros kv Hn Ht. destruct (summary_id kv Hn) as (r & Hr & Hid).
    exists r. rewrite Ht in Hid. auto.
  - intros kv Hne Hn Hi Hf. destruct (list_id kv Hne Hn Hi) as (r & Hr & Hid).
    exists r. rewrite Hf in Hid. auto.
  - intros kv Hn Hi Ht.
    assert (Hne : kv <> []) by (intros ->; discriminate Ht).
    destruct (list_id kv Hne Hn Hi) as (r & Hr & Hid).
    exists r. rewrite Ht in Hid. auto.
  - intros kv Hn Hf. destruct (item_id kv Hn) as (r & Hr & Hid).
    exists r. rewrite Hf in Hid. auto.
  - intros kv Hn Ht. destruct (item_id kv Hn) as (r & Hr & Hid).
    exists r. rewrite Ht in Hid. auto.
Qed.
End MapperClaims.

(** ** Identity resolution *)

Section Identity.
Context {rt : PyRuntime}.

Lemma is_valid_new (id : identity) :
  ObjectId.is_valid id =
    match ObjectId.new id with
    | Ok _ => true
    | Raise _ => false
    end.
Proof.
  destruct id as [s | b]; [|reflexivity].
  destruct s; reflexivity.
Qed.

(** The key [create_item] puts in its filter. *)
Lemma create_item_key (id : identity) :
  (key <- (if negb (isinstance_str id) || ObjectId.is_valid id
           then o <- ObjectId.new id ;; Ok (VObjectId o)
           else Ok (id_value id)) ;;
   Ok [("_id", key)]) = Ok (resolve_identity id).
Proof.
  unfold resolve_identity. rewrite is_valid_new.
  destruct id as [s | b]; cbn [isinstance_str negb orb].
  - destruct (ObjectId.new (IdStr s)); reflexivity.
  - reflexivity.
Qed.

(** The filter [set_checked_state] starts from. *)
Lemma set_checked_state_key (id : identity) :
  (if ObjectId.is_valid (IdStr (identity_str id))
   then o <- ObjectId.new id ;; Ok [("_id", VObjectId o)]
   else Ok [("_id", id_value id)]) = Ok (resolve_identity id).
Proof.
  unfold resolve_identity. rewrite is_valid_new.
  destruct id as [s | b]; cbn [identity_str].
  - destruct (ObjectId.new (IdStr s)); reflexivity.
  - destruct (ObjectId.new (IdStr (hexlify b))); reflexivity.
Qed.

(** The filter [delete_item] builds under its [try]. *)
Lemma delete_item_key (id : identity) :
  try_except (o <- ObjectId.new id ;; Ok [("_id", VObjectId o)])
             [("_id", id_value id)] = resolve_identity id.
Proof. unfold resolve_identity. destruct (ObjectId.new id); reflexivity. Qed.

Lemma resolve_identity_shape (id : identity) :
  exists q, resolve_identity id = [("_id", q)] /\ scalar_key q = true.
Proof.
  unfold resolve_identity.
  destruct (ObjectId.new id); [|destruct id]; eexists; split; reflexivity.
Qed.

Lemma with_item_condition (flt : pydict) (q v : pyval) :
  flt = [("_id", q)] ->
  dict_set "items.id" v flt = (flt ++ [("items.id", v)])%list.
Proof. intros ->. reflexivity. Qed.

(** [if result: return ToDoList.from_doc(result)] and [return None]. *)
Lemma mapped_result (d : option pydict) :
  (if truthy (py_of_doc d)
   then ToDoList.from_doc (py_of_doc d) else Ok None) = Resolved.mapped d.
Proof.
  destruct d as [kv|]; cbn [py_of_doc Resolved.mapped]; [|reflexivity].
  destruct (truthy (VDict kv)) eqn:Ht; [reflexivity|].
  symmetry. apply list_of_falsy. exact Ht.
Qed.

Lemma after_update (flt : pydict) (upd : update) (c : collection) :
  (result <~ call_find_one_and_update flt upd ;;
   if truthy result then lift (ToDoList.from_doc result) else ret None) c
  = Resolved.updated flt upd c.
Proof.
  unfold dal_bind, call_find_one_and_update, Resolved.updated, lift, ret.
  destruct (find_one_and_update flt upd c) as [[d | e] c']; cbn [bind]; [|reflexivity].
  rewrite <- mapped_result. destruct (truthy (py_of_doc d)); reflexivity.
Qed.

Lemma get_todo_list_resolved (id : identity) (c : collection) :
  ToDoDAL.get_todo_list id c = Resolved.get_todo_list id c.
Proof.
  unfold ToDoDAL.get_todo_list, Resolved.get_todo_list, resolve_identity.
  unfold dal_bind, dal_try, lift, ret, call_find_one.
  destruct (ObjectId.new id) as [o | e];
    rewrite <- mapped_result;
    match goal with
    | |- context [truthy ?d] => destruct (truthy d); reflexivity
    end.
Qed.

Lemma delete_todo_list_resolved (id : identity) (c : collection) :
  ToDoDAL.delete_todo_list id c = Resolved.delete_todo_list id c.
Proof.
  unfold ToDoDAL.delete_todo_list, Resolved.delete_todo_list, resolve_identity.
  unfold dal_bind, dal_try, lift, ret, call_delete_one.
  destruct (ObjectId.new id) as [o | e];
    match goal with
    | |- context [delete_one ?f c] => destruct (delete_one f c); reflexivity
    end.
Qed.

Lemma create_item_resolved (u : N) (id : identity) (label : string) (c : collection) :
  ToDoDAL.create_item u id label c = Resolved.create_item u id label c.
Proof.
  unfold ToDoDAL.create_item, Resolved.create_item.
  pose proof (create_item_key id) as Hk.
  unfold dal_bind at 1. unfold lift at 1.
  destruct (if negb (isinstance_str id) || ObjectId.is_valid id
            then o <- ObjectId.new id;; Ok (VObjectId o)
            else Ok (id_value id)) as [key | e]; cbn [bind] in Hk; [|discriminate].
  injection Hk as <-. apply after_update.
Qed.

Lemma set_checked_state_resolved (id : identity) (item_id : string) (b : bool)
    (c : collection) :
  ToDoDAL.set_checked_state id item_id b c = Resolved.set_checked_state id item_id b c.
Proof.
  unfold ToDoDAL.set_checked_state, Resolved.set_checked_state.
  unfold dal_bind at 1. unfold lift at 1.
  rewrite set_checked_state_key.
  destruct (resolve_identity_shape id) as (q & Hq & _).
  rewrite (with_item_condition _ q _ Hq). apply after_update.
Qed.

Lemma delete_item_resolved (id : identity) (item_id : string) (c : collection) :
  ToDoDAL.delete_item id item_id c = Resolved.delete_item id item_id c.
Proof.
  unfold ToDoDAL.delete_item, Resolved.delete_item.
  rewrite delete_item_key. apply after_update.
Qed.

End Identity.

(** ** The collection *)

Lemma bytes_eqb_eq (a b : list Byte.byte) : bytes_eqb a b = true <-> a = b.
Proof.
  revert b. induction a as [|x a IH]; intros [|y b]; cbn; try (split; congruence).
  rewrite andb_true_iff, IH. split.
  - intros [H ->]. apply Byte.byte_dec_bl in H. congruence.
  - intros H. injection H as -> ->. split; [apply Byte.byte_dec_lb|]; reflexivity.
Qed.

Lemma scalar_eqb_eq (x q : pyval) :
  scalar_key q = true -> (pyval_eqb x q = true <-> x = q).
Proof.
  destruct q; try discriminate; intros _; destruct x; cbn;
    try (split; [discriminate | congruence]).
  - rewrite String.eqb_eq. split; congruence.
  - rewrite bytes_eqb_eq. split; congruence.
Qed.

Lemma scalar_value_matches (x q : pyval) :
  scalar_key x = true -> value_matches q x = pyval_eqb x q.
Proof.
  unfold value_matches. destruct x; try discriminate; intros _; apply orb_false_r.
Qed.

(** A query on the primary key reads the [_id] field. *)
Lemma query_primary_key (q : pyval) (d : pydict) :
  query_matches [("_id", q)] (VDict d) =
    match dict_get "_id" d with
    | Some x => value_matches q x
    | None => false
    end.
Proof.
  unfold query_matches, cond_matches. cbn [forallb fst snd].
  change (split_dots "_id") with ["_id"]. cbn [path_values].
  destruct (dict_get "_id" d); cbn [existsb]; rewrite andb_true_r;
    [apply orb_false_r | reflexivity].
Qed.

Lemma list_doc_fields (d : pydict) :
  list_doc d = true ->
  exists k n l,
    dict_get "_id" d = Some k /\ scalar_key k = true /\
    dict_get "name" d = Some (VStr n) /\
    dict_get "items" d = Some (VList l) /\ forallb item_doc l = true.
Proof.
  unfold list_doc.
  destruct (dict_get "_id" d) as [k|]; [|discriminate].
  destruct (dict_get "name" d) as [[]|]; try discriminate.
  destruct (dict_get "items" d) as [[]|]; try discriminate.
  rewrite andb_true_iff. intros [Hk Hl]. eauto 10.
Qed.

(** On a stored list, a query on a scalar primary key is equality of keys. *)
Lemma query_key_iff (q : pyval) (d : pydict) :
  list_doc d = true -> scalar_key q = true ->
  (query_matches [("_id", q)] (VDict d) = true <-> field_or_none "_id" d = q).
Proof.
  intros Hd Hq. destruct (list_doc_fields d Hd) as (k & n & l & Hk & Hs & _).
  rewrite query_primary_key. unfold field_or_none. rewrite Hk.
  rewrite (scalar_value_matches _ _ Hs). apply scalar_eqb_eq. exact Hq.
Qed.

Lemma find_one_none (flt : pydict) (c : collection) :
  find_one flt c = None <->
  Forall (fun d => query_matches flt (VDict d) = false) c.
Proof.
  unfold find_one. induction c as [|d c IH]; cbn [find].
  - split; [constructor | reflexivity].
  - destruct (query_matches flt (VDict d)) eqn:E.
    + split; [discriminate|]. intros H. inversion H; congruence.
    + rewrite IH. split; [intros H; constructor; assumption|].
      intros H. inversion H; assumption.
Qed.

(** The first match splits the collection. *)
Lemma find_one_some (flt : pydict) (c : collection) (d : pydict) :
  find_one flt c = Some d ->
  exists pre post,
    c = (pre ++ d :: post)%list /\
    Forall (fun x => query_matches flt (VDict x) = false) pre /\
    query_matches flt (VDict d) = true.
Proof.
  unfold find_one. induction c as [|x c IH]; cbn [find]; [discriminate|].
  destruct (query_matches flt (VDict x)) eqn:E.
  - intros H. injection H as ->. exists [], c. repeat split; [constructor | assumption].
  - intros H. destruct (IH H) as (pre & post & -> & Hp & Hd).
    exists (x :: pre), post. repeat split; [constructor|]; assumption.
Qed.

Lemma find_one_split (flt : pydict) (pre post : collection) (d : pydict) :
  Forall (fun x => query_matches flt (VDict x) = false) pre ->
  query_matches flt (VDict d) = true ->
  find_one flt (pre ++ d :: post) = Some d.
Proof.
  unfold find_one. intros Hp Hd.
  induction Hp as [|x pre Hx _ IH]; cbn [find app]; [rewrite Hd | rewrite Hx]; auto.
Qed.

Lemma find_one_skip (flt : pydict) (pre post : collection) :
  Forall (fun x => query_matches flt (VDict x) = false) pre ->
  find_one flt (pre ++ post) = find_one flt post.
Proof.
  unfold find_one. intros Hp.
  induction Hp as [|x pre Hx _ IH]; cbn [find app]; [|rewrite Hx]; auto.
Qed.

Lemma update_none (flt : pydict) (upd : update) (c : collection) :
  find_one flt c = None -> find_one_and_update flt upd c = (Ok None, c).
Proof.
  rewrite find_one_none. intros H.
  induction H as [|d c Hd _ IH]; cbn [find_one_and_update]; [reflexivity|].
  rewrite Hd, IH. reflexivity.
Qed.

Lemma update_split (flt : pydict) (upd : update) (pre post : collection) (d : pydict) :
  Forall (fun x => query_matches flt (VDict x) = false) pre ->
  query_matches flt (VDict d) = true ->
  find_one_and_update flt upd (pre ++ d :: post) =
    match apply_update flt upd d with
    | Ok d' => (Ok (Some d'), pre ++ d' :: post)
    | Raise e => (Raise e, pre ++ d :: post)
    end%list.
Proof.
  intros Hp Hd.
  induction Hp as [|x pre Hx _ IH]; cbn [find_one_and_update app].
  - rewrite Hd. destruct (apply_update flt upd d); reflexivity.
  - rewrite Hx, IH. destruct (apply_update flt upd d); reflexivity.
Qed.

Lemma delete_none (flt : pydict) (c : collection) :
  find_one flt c = None -> delete_one flt c = (0, c).
Proof.
  rewrite find_one_none. intros H.
  induction H as [|d c Hd _ IH]; cbn [delete_one]; [reflexivity|].
  rewrite Hd, IH. reflexivity.
Qed.

Lemma delete_split (flt : pydict) (pre post : collection) (d : pydict) :
  Forall (fun x => query_matches flt (VDict x) = false) pre ->
  query_matches flt (VDict d) = true ->
  delete_one flt (pre ++ d :: post) = (1, (pre ++ post)%list).
Proof.
  intros Hp Hd.
  induction Hp as [|x pre Hx _ IH]; cbn [delete_one app].
  - rewrite Hd. reflexivity.
  - rewrite Hx, IH. reflexivity.
Qed.

(** ** Dictionaries *)

Lemma dict_get_set_same (k : string) (v : pyval) (kv : pydict) :
  dict_get k (dict_set k v kv) = Some v.
Proof.
  induction kv as [|[k' v'] kv IH]; cbn [dict_set dict_get].
  - rewrite String.eqb_refl. reflexivity.
  - destruct (String.eqb k k') eqn:E; cbn [dict_get]; rewrite E; auto.
Qed.

Lemma dict_get_set_other (k k' : string) (v : pyval) (kv : pydict) :
  String.eqb k' k = false -> dict_get k' (dict_set k v kv) = dict_get k' kv.
Proof.
  intros Hk. induction kv as [|[k0 v0] kv IH]; cbn [dict_set dict_get].
  - rewrite Hk. reflexivity.
  - destruct (String.eqb k k0) eqn:E; cbn [dict_get].
    + apply String.eqb_eq in E. subst k0. rewrite Hk. reflexivity.
    + rewrite IH. reflexivity.
Qed.

Lemma dict_set_unchanged (k : string) (v : pyval) (kv : pydict) :
  dict_get k kv = Some v -> dict_set k v kv = kv.
Proof.
  induction kv as [|[k' v'] kv IH]; cbn [dict_set dict_get]; [discriminate|].
  destruct (String.eqb k k').
  - intros H. injection H as ->. reflexivity.
  - intros H. rewrite (IH H). reflexivity.
Qed.

(** ** Stored lists as they are read *)

Section StoredLists.
Context {rt : PyRuntime}.

Lemma item_doc_view (e : pyval) :
  item_doc e = true -> ToDoListItem.from_doc e = Ok (item_view e).
Proof.
  destruct e as [| | | | |  |kv| ]; try discriminate.
  unfold item_doc, item_view.
  destruct (dict_get "id" kv) as [[| | |i| | | |]|] eqn:Hi; try discriminate.
  destruct (dict_get "label" kv) as [[| | |l| | | |]|] eqn:Hl; try discriminate.
  destruct (dict_get "checked" kv) as [[|b| | | | | |]|] eqn:Hc; try discriminate.
  intros _. rewrite (item_of_dict kv (dict_get_truthy _ _ _ Hi)).
  unfold field_or_none. rewrite Hi, Hl, Hc. reflexivity.
Qed.

Lemma map_items_view (l : list pyval) :
  forallb item_doc l = true -> ToDoList.map_items l = map item_view l.
Proof.
  induction l as [|e l IH]; cbn [forallb ToDoList.map_items map]; [reflexivity|].
  rewrite andb_true_iff. intros [He Hl].
  rewrite (item_doc_view e He), (IH Hl). reflexivity.
Qed.

Lemma list_doc_view (d : pydict) :
  list_doc d = true -> ToDoList.from_doc (VDict d) = Ok (Some (list_view d)).
Proof.
  intros Hd. destruct (list_doc_fields d Hd) as (k & n & l & Hk & Hs & Hn & Hi & Hl).
  rewrite (list_of_dict d (dict_get_truthy _ _ _ Hk)).
  unfold list_view. rewrite Hn, Hi.
  destruct (truthy (VList l)) eqn:Ht; cbn [py_iter bind validate_str].
  - rewrite (map_items_view l Hl). reflexivity.
  - destruct l; [reflexivity | discriminate].
Qed.

Lemma mapped_list_doc (d : pydict) :
  list_doc d = true -> Resolved.mapped (Some d) = Ok (Some (list_view d)).
Proof. apply list_doc_view. Qed.

(** Replacing the items of a stored list. *)
Lemma set_items_doc (d : pydict) (l' : list pyval) :
  list_doc d = true -> forallb item_doc l' = true ->
  list_doc (dict_set "items" (VList l') d) = true /\
  field_or_none "_id" (dict_set "items" (VList l') d) = field_or_none "_id" d /\
  list_view (dict_set "items" (VList l') d) =
    with_items (list_view d) (map item_view l').
Proof.
  intros Hd Hl'. destruct (list_doc_fields d Hd) as (k & n & l & Hk & Hs & Hn & Hi & Hl).
  unfold list_doc, list_view, field_or_none, with_items.
  rewrite dict_get_set_same.
  rewrite !(dict_get_set_other "items" "_id") by reflexivity.
  rewrite !(dict_get_set_other "items" "name") by reflexivity.
  rewrite !(dict_get_set_other "items" "id") by reflexivity.
  rewrite Hk, Hn, Hs, Hl'. cbn [ToDoList.id ToDoList.name]. auto.
Qed.

Lemma same_key_same_match (q : pyval) (d d' : pydict) :
  field_or_none "_id" d' = field_or_none "_id" d ->
  list_doc d = true -> list_doc d' = true ->
  query_matches [("_id", q)] (VDict d') = query_matches [("_id", q)] (VDict d).
Proof.
  intros Hk Hd Hd'.
  destruct (list_doc_fields d Hd) as (k & _ & _ & Hg & _).
  destruct (list_doc_fields d' Hd') as (k' & _ & _ & Hg' & _).
  rewrite !query_primary_key. unfold field_or_none in Hk.
  rewrite Hg, Hg' in *. subst k'. reflexivity.
Qed.

(** The condition [{"id": i}] on an item document. *)
Lemma item_condition (i : string) (e : pyval) :
  item_doc e = true ->
  is_dict e && cond_matches ["id"] (VStr i) e = has_id i (item_view e).
Proof.
  destruct e as [| | | | |  |kv| ]; try discriminate.
  unfold item_doc, item_view, has_id, cond_matches. cbn [is_dict andb path_values].
  destruct (dict_get "id" kv) as [[| | |j| | | |]|]; try discriminate.
  destruct (dict_get "label" kv) as [[| | |l| | | |]|]; try discriminate.
  destruct (dict_get "checked" kv) as [[|b| | | | | |]|]; try discriminate.
  intros _. unfold value_matches. cbn [existsb pyval_eqb ToDoListItem.id].
  rewrite !orb_false_r. reflexivity.
Qed.

Lemma item_query (i : string) (e : pyval) :
  item_doc e = true ->
  is_dict e && query_matches [("id", VStr i)] e = has_id i (item_view e).
Proof.
  intros He. rewrite <- (item_condition i e He).
  unfold query_matches. cbn [forallb fst snd].
  change (split_dots "id") with ["id"]. rewrite andb_true_r. reflexivity.
Qed.

Lemma item_checked_view (b : bool) (e : pyval) :
  item_doc e = true ->
  item_doc (set_field "checked" (VBool b) e) = true /\
  item_view (set_field "checked" (VBool b) e) = with_checked (item_view e) b.
Proof.
  destruct e as [| | | | |  |kv| ]; try discriminate.
  unfold item_doc, item_view, with_checked. cbn [set_field].
  rewrite dict_get_set_same.
  rewrite !(dict_get_set_other "checked" "id") by reflexivity.
  rewrite !(dict_get_set_other "checked" "label") by reflexivity.
  destruct (dict_get "id" kv) as [[| | |j| | | |]|]; try discriminate.
  destruct (dict_get "label" kv) as [[| | |l| | | |]|]; try discriminate.
  destruct (dict_get "checked" kv) as [[|b'| | | | | |]|]; try discriminate.
  auto.
Qed.

(** The elements an item condition selects, on the stored side and on the
    side of the read model. *)
Lemma pull_view (i : string) (l : list pyval) :
  forallb item_doc l = true ->
  let kept := filter (fun e => negb (is_dict e && query_matches [("id", VStr i)] e)) l in
  forallb item_doc kept = true /\
  map item_view kept = filter (fun it => negb (has_id i it)) (map item_view l).
Proof.
  induction l as [|e l IH]; cbn [forallb filter map]; [auto|].
  rewrite andb_true_iff. intros [He Hl]. destruct (IH Hl) as [IH1 IH2].
  rewrite (item_query i e He).
  destruct (has_id i (item_view e)); cbn [negb forallb map].
  - auto.
  - rewrite He, IH2. auto.
Qed.

Lemma set_first_view (i : string) (b : bool) (l : list pyval) :
  forallb item_doc l = true ->
  match set_first (fun e => is_dict e && cond_matches ["id"] (VStr i) e)
                  (set_field "checked" (VBool b)) l with
  | Some l' =>
      existsb (has_id i) (map item_view l) = true /\
      forallb item_doc l' = true /\
      map item_view l' = check_first i b (map item_view l)
  | None => existsb (has_id i) (map item_view l) = false
  end.
Proof.
  induction l as [|e l IH]; cbn [forallb set_first map existsb check_first]; [auto|].
  rewrite andb_true_iff. intros [He Hl]. specialize (IH Hl).
  rewrite (item_condition i e He).
  destruct (has_id i (item_view e)); cbn [orb].
  - destruct (item_checked_view b e He) as [H1 H2].
    cbn [forallb map]. rewrite H1, H2, Hl. auto.
  - destruct (set_first _ _ l) as [l'|]; cbn [option_map]; [|exact IH].
    destruct IH as (H1 & H2 & H3). cbn [forallb map]. rewrite He, H2, H3. auto.
Qed.

(** The query condition on the items of a stored list. *)
Lemma items_condition (i : string) (d : pydict) :
  list_doc d = true ->
  cond_matches ["items"; "id"] (VStr i) (VDict d) =
    existsb (has_id i) (ToDoList.items (list_view d)).
Proof.
  intros Hd. destruct (list_doc_fields d Hd) as (k & n & l & _ & _ & _ & Hi & Hl).
  unfold cond_matches, list_view. cbn [path_values ToDoList.items]. rewrite Hi.
  cbn [path_values]. clear Hi. induction l as [|e l IH]; [reflexivity|].
  cbn [forallb] in Hl. apply andb_true_iff in Hl as [He Hl].
  cbn [flat_map map existsb]. rewrite existsb_app, (IH Hl).
  rewrite <- (item_condition i e He). f_equal.
  destruct e; try discriminate. reflexivity.
Qed.
End StoredLists.

(** ** The operations on a collection of stored lists *)

Lemma store_ok_split (pre post : collection) (d : pydict) :
  store_ok (pre ++ d :: post) ->
  list_doc d = true /\
  Forall (fun x => list_doc x = true) pre /\
  Forall (fun x => list_doc x = true) post /\
  ~ In (field_or_none "_id" d) (map (field_or_none "_id") (pre ++ post)).
Proof.
  intros [Hall Hnd]. apply Forall_app in Hall as [Hpre Hrest].
  inversion Hrest as [|? ? Hd Hpost]; subst.
  repeat split; try assumption.
  rewrite map_app in *. cbn [map] in Hnd. apply NoDup_remove_2 in Hnd. exact Hnd.
Qed.

Lemma store_ok_replace (pre post : collection) (d d' : pydict) :
  store_ok (pre ++ d :: post) ->
  list_doc d' = true -> field_or_none "_id" d' = field_or_none "_id" d ->
  store_ok (pre ++ d' :: post).
Proof.
  intros [Hall Hnd] Hd' Hk. split.
  - apply Forall_app in Hall as [Hpre Hrest]. inversion Hrest; subst.
    apply Forall_app. split; [assumption | constructor; assumption].
  - rewrite map_app in *. cbn [map] in *. rewrite Hk. exact Hnd.
Qed.

Lemma store_ok_remove (pre post : collection) (d : pydict) :
  store_ok (pre ++ d :: post) -> store_ok (pre ++ post).
Proof.
  intros [Hall Hnd]. split.
  - apply Forall_app in Hall as [Hpre Hrest]. inversion Hrest; subst.
    apply Forall_app. split; assumption.
  - rewrite map_app in *. cbn [map] in Hnd. apply NoDup_remove_1 in Hnd. exact Hnd.
Qed.

(** One primary key, one document. *)
Lemma unique_match (q : pyval) (pre post : collection) (d : pydict) :
  store_ok (pre ++ d :: post) -> scalar_key q = true ->
  query_matches [("_id", q)] (VDict d) = true ->
  Forall (fun x => query_matches [("_id", q)] (VDict x) = false) (pre ++ post).
Proof.
  intros Hok Hq Hd.
  destruct (store_ok_split _ _ _ Hok) as (Hld & Hpre & Hpost & Hnin).
  apply (query_key_iff q d Hld Hq) in Hd.
  assert (Hall : Forall (fun x => list_doc x = true) (pre ++ post))
    by (apply Forall_app; split; assumption).
  rewrite Forall_forall in *. intros x Hx.
  destruct (query_matches [("_id", q)] (VDict x)) eqn:E; [|reflexivity].
  apply (query_key_iff q x (Hall x Hx) Hq) in E.
  exfalso. apply Hnin. rewrite Hd, <- E. apply in_map. exact Hx.
Qed.

Lemma query_app (f g : pydict) (v : pyval) :
  query_matches (f ++ g) v = query_matches f v && query_matches g v.
Proof. unfold query_matches. apply forallb_app. Qed.

Lemma items_query (i : string) (v : pyval) :
  query_matches [("items.id", VStr i)] v = cond_matches ["items"; "id"] (VStr i) v.
Proof.
  unfold query_matches. cbn [forallb fst snd].
  change (split_dots "items.id") with ["items"; "id"]. apply andb_true_r.
Qed.

Lemma forall_no_match_app (f g : pydict) (c : collection) :
  Forall (fun x => query_matches f (VDict x) = false) c ->
  Forall (fun x => query_matches (f ++ g) (VDict x) = false) c.
Proof.
  intros H. eapply Forall_impl; [|exact H].
  intros x Hx. cbn beta in *. rewrite query_app, Hx. reflexivity.
Qed.

Lemma array_cond_items (q : pyval) (i : string) :
  array_cond ([("_id", q)] ++ [("items.id", VStr i)]) "items" = Some (["id"], VStr i).
Proof. reflexivity. Qed.

Lemma has_id_in (i : string) (items : list ToDoListItem.t) :
  existsb (has_id i) items = true <-> In (Some i) (map ToDoListItem.id items).
Proof.
  rewrite existsb_exists, in_map_iff. unfold has_id.
  split; intros (it & H1 & H2); exists it.
  - destruct (ToDoListItem.id it); [|discriminate].
    apply String.eqb_eq in H2. subst. auto.
  - rewrite H1, String.eqb_refl. auto.
Qed.

Lemma filter_none (i : string) (items : list ToDoListItem.t) :
  existsb (has_id i) items = false ->
  filter (fun it => negb (has_id i it)) items = items.
Proof.
  induction items as [|it items IH]; cbn [existsb filter]; [reflexivity|].
  rewrite orb_false_iff. intros [H1 H2]. rewrite H1, (IH H2). reflexivity.
Qed.

Lemma check_first_fresh (i : string) (b : bool) (items : list ToDoListItem.t)
    (it : ToDoListItem.t) :
  existsb (has_id i) items = false -> has_id i it = true ->
  check_first i b (items ++ [it]) = items ++ [with_checked it b].
Proof.
  intros Hf Hi. induction items as [|x items IH]; cbn [existsb app check_first] in *.
  - rewrite Hi. reflexivity.
  - apply orb_false_iff in Hf as [H1 H2]. rewrite H1, (IH H2). reflexivity.
Qed.

(** The checked flag after [check_first]: the first item with the id has
    it, the items before and after are as they were. *)
Lemma check_first_spec (i : string) (b : bool) (items : list ToDoListItem.t) :
  existsb (has_id i) items = true ->
  exists pre it post,
    items = pre ++ it :: post /\
    existsb (has_id i) pre = false /\
    ToDoListItem.id it = Some i /\
    check_first i b items = pre ++ with_checked it b :: post.
Proof.
  induction items as [|x items IH]; cbn [existsb check_first]; [discriminate|].
  destruct (has_id i x) eqn:E; cbn [orb].
  - intros _. exists [], x, items. repeat split.
    unfold has_id in E. destruct (ToDoListItem.id x); [|discriminate].
    apply String.eqb_eq in E. congruence.
  - intros H. destruct (IH H) as (pre & it & post & -> & Hp & Hi & Hc).
    exists (x :: pre), it, post. cbn [existsb app]. rewrite E, Hp, Hc. auto.
Qed.

Lemma with_items_same (l : ToDoList.t) : with_items l (ToDoList.items l) = l.
Proof. destruct l. reflexivity. Qed.

Section Operations.
Context {rt : PyRuntime}.

(** What a resolved identity finds in a collection of stored lists. *)
Lemma resolved_found (id : identity) (c : collection) (d : pydict) :
  store_ok c -> find_one (resolve_identity id) c = Some d ->
  exists q pre post,
    resolve_identity id = [("_id", q)] /\ scalar_key q = true /\
    c = pre ++ d :: post /\ list_doc d = true /\
    query_matches [("_id", q)] (VDict d) = true /\
    Forall (fun x => query_matches [("_id", q)] (VDict x) = false) pre /\
    Forall (fun x => query_matches [("_id", q)] (VDict x) = false) post.
Proof.
  intros Hok Hf. destruct (resolve_identity_shape id) as (q & Hq & Hs).
  rewrite Hq in Hf. destruct (find_one_some _ _ _ Hf) as (pre & post & -> & Hpre & Hd).
  pose proof (unique_match q pre post d Hok Hs Hd) as Hu.
  apply Forall_app in Hu as [_ Hpost].
  destruct (store_ok_split _ _ _ Hok) as (Hld & _).
  exists q, pre, post. auto 10.
Qed.

Lemma get_found (id : identity) (c : collection) (d : pydict) :
  store_ok c -> find_one (resolve_identity id) c = Some d ->
  ToDoDAL.get_todo_list id c = (Ok (Some (list_view d)), c).
Proof.
  intros Hok Hf. rewrite get_todo_list_resolved. unfold Resolved.get_todo_list.
  destruct (resolved_found id c d Hok Hf) as (q & pre & post & _ & _ & _ & Hld & _).
  rewrite Hf, (mapped_list_doc d Hld). reflexivity.
Qed.

Lemma get_not_found (id : identity) (c : collection) :
  find_one (resolve_identity id) c = None ->
  ToDoDAL.get_todo_list id c = (Ok None, c).
Proof.
  intros Hf. rewrite get_todo_list_resolved. unfold Resolved.get_todo_list.
  rewrite Hf. reflexivity.
Qed.

(** An update that replaces the items of the document found. *)
Lemma updated_items (flt : pydict) (upd : update) (q : pyval)
    (pre post : collection) (d : pydict) (l' : list pyval) :
  store_ok (pre ++ d :: post) ->
  Forall (fun x => query_matches [("_id", q)] (VDict x) = false) pre ->
  query_matches [("_id", q)] (VDict d) = true ->
  Forall (fun x => query_matches flt (VDict x) = false) pre ->
  query_matches flt (VDict d) = true ->
  apply_update flt upd d = Ok (dict_set "items" (VList l') d) ->
  forallb item_doc l' = true ->
  let d' := dict_set "items" (VList l') d in
  let c' := pre ++ d' :: post in
  Resolved.updated flt upd (pre ++ d :: post) =
    (Ok (Some (with_items (list_view d) (map item_view l'))), c') /\
  store_ok c' /\
  find_one [("_id", q)] c' = Some d' /\
  list_view d' = with_items (list_view d) (map item_view l').
Proof.
  intros Hok Hpq Hdq Hpre Hd Hupd Hl' d' c'.
  destruct (store_ok_split _ _ _ Hok) as (Hld & _).
  destruct (set_items_doc d l' Hld Hl') as (Hld' & Hk & Hv).
  fold d' in Hld', Hk, Hv, Hupd.
  repeat split.
  - unfold Resolved.updated. rewrite (update_split flt upd pre post d Hpre Hd), Hupd.
    cbn [bind]. rewrite (mapped_list_doc d' Hld'), Hv. reflexivity.
  - destruct (store_ok_replace pre post d d' Hok Hld' Hk) as [H _]. exact H.
  - destruct (store_ok_replace pre post d d' Hok Hld' Hk) as [_ H]. exact H.
  - apply find_one_split; [exact Hpq|].
    rewrite (same_key_same_match q d d' Hk Hld Hld'). exact Hdq.
  - exact Hv.
Qed.

Lemma create_item_not_found (u : N) (id : identity) (label : string) (c : collection) :
  find_one (resolve_identity id) c = None ->
  ToDoDAL.create_item u id label c = (Ok None, c).
Proof.
  intros Hf. rewrite create_item_resolved.
  unfold Resolved.create_item, Resolved.updated.
  rewrite (update_none _ _ _ Hf). reflexivity.
Qed.

Lemma create_item_found (u : N) (id : identity) (label : string)
    (c : collection) (d : pydict) :
  store_ok c -> find_one (resolve_identity id) c = Some d ->
  exists c' d',
    ToDoDAL.create_item u id label c =
      (Ok (Some (with_items (list_view d)
                   (ToDoList.items (list_view d) ++ [new_item u label]))), c') /\
    store_ok c' /\
    find_one (resolve_identity id) c' = Some d' /\
    list_view d' = with_items (list_view d)
                     (ToDoList.items (list_view d) ++ [new_item u label]).
Proof.
  intros Hok Hf. rewrite create_item_resolved. unfold Resolved.create_item.
  destruct (resolved_found id c d Hok Hf)
    as (q & pre & post & Hq & Hs & -> & Hld & Hd & Hpre & Hpost).
  destruct (list_doc_fields d Hld) as (k & n & l & _ & _ & _ & Hi & Hl).
  rewrite Hq.
  set (e := VDict [("id", VStr (uuid_hex u)); ("label", VStr label);
                   ("checked", VBool false)]).
  assert (Hl' : forallb item_doc (l ++ [e]) = true).
  { rewrite forallb_app, Hl. reflexivity. }
  assert (Hupd : apply_update [("_id", q)] (Push "items" e) d =
                 Ok (dict_set "items" (VList (l ++ [e])) d)).
  { cbn [apply_update]. rewrite Hi. reflexivity. }
  destruct (updated_items _ _ q pre post d (l ++ [e]) Hok Hpre Hd Hpre Hd Hupd Hl')
    as (H1 & H2 & H3 & H4).
  assert (Hview : map item_view (l ++ [e]) =
                  ToDoList.items (list_view d) ++ [new_item u label]).
  { rewrite map_app. unfold list_view. rewrite Hi. reflexivity. }
  rewrite Hview in *. eauto 10.
Qed.

Lemma set_checked_state_not_found (id : identity) (i : string) (b : bool)
    (c : collection) :
  find_one (resolve_identity id) c = None ->
  ToDoDAL.set_checked_state id i b c = (Ok None, c).
Proof.
  intros Hf. rewrite set_checked_state_resolved.
  unfold Resolved.set_checked_state, Resolved.updated.
  rewrite update_none; [reflexivity|].
  apply find_one_none. apply forall_no_match_app. apply find_one_none. exact Hf.
Qed.

Lemma set_checked_state_no_item (id : identity) (i : string) (b : bool)
    (c : collection) (d : pydict) :
  store_ok c -> find_one (resolve_identity id) c = Some d ->
  existsb (has_id i) (ToDoList.items (list_view d)) = false ->
  ToDoDAL.set_checked_state id i b c = (Ok None, c).
Proof.
  intros Hok Hf Hno. rewrite set_checked_state_resolved.
  unfold Resolved.set_checked_state, Resolved.updated.
  destruct (resolved_found id c d Hok Hf)
    as (q & pre & post & Hq & Hs & -> & Hld & Hd & Hpre & Hpost).
  rewrite Hq. rewrite update_none; [reflexivity|].
  apply find_one_none. apply Forall_app. split; [|constructor].
  - apply forall_no_match_app. exact Hpre.
  - rewrite query_app, items_query, (items_condition i d Hld), Hno.
    apply andb_false_r.
  - apply forall_no_match_app. exact Hpost.
Qed.

Lemma set_checked_state_found (id : identity) (i : string) (b : bool)
    (c : collection) (d : pydict) :
  store_ok c -> find_one (resolve_identity id) c = Some d ->
  existsb (has_id i) (ToDoList.items (list_view d)) = true ->
  exists c' d',
    ToDoDAL.set_checked_state id i b c =
      (Ok (Some (with_items (list_view d)
                   (check_first i b (ToDoList.items (list_view d))))), c') /\
    store_ok c' /\
    find_one (resolve_identity id) c' = Some d' /\
    list_view d' = with_items (list_view d)
                     (check_first i b (ToDoList.items (list_view d))).
Proof.
  intros Hok Hf Hyes. rewrite set_checked_state_resolved.
  unfold Resolved.set_checked_state.
  destruct (resolved_found id c d Hok Hf)
    as (q & pre & post & Hq & Hs & -> & Hld & Hd & Hpre & Hpost).
  destruct (list_doc_fields d Hld) as (k & n & l & _ & _ & _ & Hi & Hl).
  rewrite Hq.
  assert (Hitems : ToDoList.items (list_view d) = map item_view l).
  { unfold list_view. rewrite Hi. reflexivity. }
  pose proof (set_first_view i b l Hl) as Hsf. rewrite <- Hitems in Hsf.
  destruct (set_first _ _ l) as [l'|] eqn:Esf; [|congruence].
  destruct Hsf as (_ & Hl' & Hview).
  assert (Hupd : apply_update ([("_id", q)] ++ [("items.id", VStr i)])
                   (SetPositional "items" "checked" (VBool b)) d =
                 Ok (dict_set "items" (VList l') d)).
  { cbn [apply_update]. rewrite array_cond_items, Hi, Esf. reflexivity. }
  assert (Hd2 : query_matches ([("_id", q)] ++ [("items.id", VStr i)]) (VDict d) = true).
  { rewrite query_app, items_query, (items_condition i d Hld), Hd, Hyes. reflexivity. }
  destruct (updated_items _ _ q pre post d l' Hok Hpre Hd
              (forall_no_match_app _ _ _ Hpre) Hd2 Hupd Hl') as (H1 & H2 & H3 & H4).
  rewrite Hview in *. eauto 10.
Qed.

Lemma delete_item_not_found (id : identity) (i : string) (c : collection) :
  find_one (resolve_identity id) c = None ->
  ToDoDAL.delete_item id i c = (Ok None, c).
Proof.
  intros Hf. rewrite delete_item_resolved.
  unfold Resolved.delete_item, Resolved.updated.
  rewrite (update_none _ _ _ Hf). reflexivity.
Qed.

Lemma delete_item_found (id : identity) (i : string) (c : collection) (d : pydict) :
  store_ok c -> find_one (resolve_identity id) c = Some d ->
  exists c' d',
    ToDoDAL.delete_item id i c =
      (Ok (Some (with_items (list_view d)
                   (filter (fun it => negb (has_id i it))
                           (ToDoList.items (list_view d))))), c') /\
    store_ok c' /\
    find_one (resolve_identity id) c' = Some d' /\
    (existsb (has_id i) (ToDoList.items (list_view d)) = false -> c' = c).
Proof.
  intros Hok Hf. rewrite delete_item_resolved. unfold Resolved.delete_item.
  destruct (resolved_found id c d Hok Hf)
    as (q & pre & post & Hq & Hs & -> & Hld & Hd & Hpre & Hpost).
  destruct (list_doc_fields d Hld) as (k & n & l & _ & _ & _ & Hi & Hl).
  rewrite Hq.
  assert (Hitems : ToDoList.items (list_view d) = map item_view l).
  { unfold list_view. rewrite Hi. reflexivity. }
  destruct (pull_view i l Hl) as [Hk Hview]. cbn zeta in Hk, Hview.
  set (kept := filter (fun e => negb (is_dict e && query_matches [("id", VStr i)] e)) l)
    in *.
  assert (Hupd : apply_update [("_id", q)] (Pull "items" [("id", VStr i)]) d =
                 Ok (dict_set "items" (VList kept) d)).
  { cbn [apply_update]. rewrite Hi. reflexivity. }
  destruct (updated_items _ _ q pre post d kept Hok Hpre Hd Hpre Hd Hupd Hk)
    as (H1 & H2 & H3 & H4).
  rewrite Hview, <- Hitems in H1.
  exists (pre ++ dict_set "items" (VList kept) d :: post),
         (dict_set "items" (VList kept) d).
  split; [exact H1|]. split; [exact H2|]. split; [exact H3|].
  intros Hno. rewrite Hitems in Hno.
  assert (kept = l) as ->.
  { subst kept. clear -Hl Hno. induction l as [|e l IH]; [reflexivity|].
    cbn [forallb map existsb filter] in *.
    apply andb_true_iff in Hl as [He Hl]. apply orb_false_iff in Hno as [H1 H2].
    rewrite (item_query i e He), H1. cbn [negb]. rewrite (IH Hl H2). reflexivity. }
  rewrite (dict_set_unchanged _ _ _ Hi). reflexivity.
Qed.

(** A list that an operation returned was found, and is never the absence
    signal: the document found has a primary key. *)
Lemma matched_not_empty (q : pyval) (d : pydict) :
  query_matches [("_id", q)] (VDict d) = true -> exists v, dict_get "_id" d = Some v.
Proof.
  rewrite query_primary_key. destruct (dict_get "_id" d); [eauto | discriminate].
Qed.
End Operations.

(** ** The item ids *)

Lemma hex_value_digit (n : N) : (n < 16)%N -> hex_value (hex_digit n) = Some n.
Proof.
  intros H. rewrite <- (Nnat.N2Nat.id n).
  assert (Hk : (N.to_nat n < 16)%nat) by lia.
  revert Hk. generalize (N.to_nat n) as k. intros k Hk.
  do 16 (destruct k as [|k]; [reflexivity|]). lia.
Qed.

Lemma hex_digit_inj (n m : N) :
  (n < 16)%N -> (m < 16)%N -> hex_digit n = hex_digit m -> n = m.
Proof.
  intros Hn Hm H. apply (f_equal hex_value) in H.
  rewrite (hex_value_digit n Hn), (hex_value_digit m Hm) in H. congruence.
Qed.

Lemma hex_fixed_inj (w : nat) (n m : N) :
  hex_fixed w n = hex_fixed w m ->
  (n mod 16 ^ N.of_nat w = m mod 16 ^ N.of_nat w)%N.
Proof.
  induction w as [|w IH]; intros H.
  - cbn [N.of_nat]. rewrite N.pow_0_r, !N.mod_1_r. reflexivity.
  - cbn [hex_fixed] in H. injection H as Hd Ht.
    apply hex_digit_inj in Hd; try (apply N.mod_lt; discriminate).
    specialize (IH Ht).
    rewrite Nnat.Nat2N.inj_succ, N.pow_succ_r', (N.mul_comm 16).
    rewrite !N.Div0.mod_mul_r. rewrite IH, Hd. reflexivity.
Qed.

Lemma uuid_hex_inj (u v : N) :
  (u < 2 ^ 128)%N -> (v < 2 ^ 128)%N -> uuid_hex u = uuid_hex v -> u = v.
Proof.
  intros Hu Hv H. apply hex_fixed_inj in H.
  change (16 ^ N.of_nat 32)%N with (2 ^ 128)%N in H.
  rewrite !N.mod_small in H by assumption. exact H.
Qed.

Lemma sample_store_ok : store_ok sample_store.
Proof.
  split.
  - constructor; [reflexivity | constructor].
  - constructor; [intros [] | constructor].
Qed.

Section DalClaims.
Context {rt : PyRuntime}.

Lemma get_some_found (id : identity) (c : collection) (L : ToDoList.t) :
  store_ok c -> ToDoDAL.get_todo_list id c = (Ok (Some L), c) ->
  exists d, find_one (resolve_identity id) c = Some d /\ L = list_view d.
Proof.
  intros Hok H. destruct (find_one (resolve_identity id) c) as [d|] eqn:Hf.
  - rewrite (get_found id c d Hok Hf) in H. exists d. split; congruence.
  - rewrite (get_not_found id c Hf) in H. discriminate.
Qed.

Lemma dict_set_not_nil (k : string) (v : pyval) (kv : pydict) : dict_set k v kv <> [].
Proof. destruct kv as [|[k' v'] kv]; cbn [dict_set]; [|destruct (String.eqb k k')]; discriminate. Qed.

Lemma apply_update_not_nil (flt : pydict) (upd : update) (d d' : pydict) :
  d <> [] -> apply_update flt upd d = Ok d' -> d' <> [].
Proof.
  intros Hd. destruct upd as [f v | a f v | f cond]; cbn [apply_update].
  - destruct (dict_get f d) as [[]|]; try discriminate;
      intros H; injection H as <-; apply dict_set_not_nil.
  - destruct (array_cond flt a) as [[sub q]|]; [|discriminate].
    destruct (dict_get a d) as [[]|]; try discriminate.
    destruct (set_first _ _ _); [|discriminate].
    intros H; injection H as <-; apply dict_set_not_nil.
  - destruct (dict_get f d) as [[]|]; try discriminate;
      intros H; injection H as <-; [apply dict_set_not_nil | exact Hd].
Qed.

(** An update answers with the absence signal only when no document
    matches its filter. *)
Lemma updated_none (flt : pydict) (upd : update) (c c' : collection) :
  (forall d, query_matches flt (VDict d) = true -> d <> []) ->
  Resolved.updated flt upd c = (Ok None, c') -> find_one flt c = None.
Proof.
  intros Hne H. destruct (find_one flt c) as [d|] eqn:Hf; [exfalso | reflexivity].
  destruct (find_one_some _ _ _ Hf) as (pre & post & -> & Hpre & Hd).
  unfold Resolved.updated in H. rewrite (update_split flt upd pre post d Hpre Hd) in H.
  destruct (apply_update flt upd d) as [d'|e] eqn:Hu; cbn [bind] in H; [|discriminate].
  injection H as H _.
  apply (list_of_truthy_not_none (VDict d')); [|exact H].
  pose proof (apply_update_not_nil _ _ _ _ (Hne d Hd) Hu).
  destruct d'; [contradiction | reflexivity].
Qed.

Lemma resolved_match_not_nil (id : identity) (d : pydict) :
  query_matches (resolve_identity id) (VDict d) = true -> d <> [].
Proof.
  destruct (resolve_identity_shape id) as (q & -> & _). intros H.
  destruct (matched_not_empty q d H) as [v Hv]. intros ->. discriminate.
Qed.

(** C3: when the identity resolves to a stored list, [create_item] returns
    the list as it is after the update: the items it had, unchanged and in
    their order, then one new item with the given label, unchecked, whose
    id is the hex of the UUID drawn in the call; a get that follows
    returns the same list.  When the identity resolves to no document it
    returns None and the collection is as it was. *)
Theorem create_item_appends :
  forall (u : N) (id : identity) (label : string) (c : collection),
    (find_one (resolve_identity id) c = None ->
       ToDoDAL.create_item u id label c = (Ok None, c)) /\
    (store_ok c ->
     forall d, find_one (resolve_identity id) c = Some d ->
       exists L c',
         ToDoDAL.get_todo_list id c = (Ok (Some L), c) /\
         ToDoDAL.create_item u id label c =
           (Ok (Some (with_items L
                        (ToDoList.items L ++
                         [ToDoListItem.mk (Some (uuid_hex u)) label false]))), c') /\
         ToDoDAL.get_todo_list id c' =
           (Ok (Some (with_items L
                        (ToDoList.items L ++
                         [ToDoListItem.mk (Some (uuid_hex u)) label false]))), c') /\
         store_ok c').
Proof.
  intros u id label c. split; [apply create_item_not_found|].
  intros Hok d Hf.
  destruct (create_item_found u id label c d Hok Hf) as (c' & d' & H1 & H2 & H3 & H4).
  exists (list_view d), c'. repeat split.
  - apply get_found; assumption.
  - exact H1.
  - rewrite (get_found id c' d' H2 H3), H4. reflexivity.
  - apply H2.
  - apply H2.
Qed.

(** C4: [delete_item] returns None only when the list identity resolves to
    no stored document, and does so then; on an existing list, an item
    identity that no item of the list has leaves the list and the
    collection as they are, and the list is returned. *)
Theorem delete_item_not_found_only_for_list :
  forall (id : identity) (i : string) (c : collection),
    (forall c', ToDoDAL.delete_item id i c = (Ok None, c') ->
       find_one (resolve_identity id) c = None) /\
    (find_one (resolve_identity id) c = None ->
       ToDoDAL.delete_item id i c = (Ok None, c)) /\
    (store_ok c ->
     forall L, ToDoDAL.get_todo_list id c = (Ok (Some L), c) ->
       ~ In (Some i) (item_ids L) ->
       ToDoDAL.delete_item id i c = (Ok (Some L), c)).
Proof.
  intros id i c. split; [|split].
  - intros c'. rewrite delete_item_resolved. unfold Resolved.delete_item.
    apply updated_none. apply resolved_match_not_nil.
  - apply delete_item_not_found.
  - intros Hok L Hget Hno.
    destruct (get_some_found id c L Hok Hget) as (d & Hf & ->).
    assert (Hex : existsb (has_id i) (ToDoList.items (list_view d)) = false).
    { destruct (existsb _ _) eqn:E; [|reflexivity].
      exfalso. apply Hno. apply has_id_in. exact E. }
    destruct (delete_item_found id i c d Hok Hf) as (c' & d' & H1 & _ & _ & H4).
    rewrite H1, (H4 Hex), (filter_none i _ Hex), with_items_same. reflexivity.
Qed.

(** C5: on a collection of stored lists, [set_checked_state] returns None
    exactly when the list identity resolves to no document or the list it
    resolves to has no item with the item identity; otherwise it returns
    the list after the update, in which the first item with that identity
    has the given checked flag and all else is as before, and a get that
    follows returns the same list.  So an item toggled by the id that
    [create_item] gave it is found, and shows in the next get. *)
Theorem set_checked_state_found_iff :
  forall (id : identity) (i : string) (b : bool) (c : collection),
    store_ok c ->
    (fst (ToDoDAL.set_checked_state id i b c) = Ok None <->
       find_one (resolve_identity id) c = None \/
       exists L, ToDoDAL.get_todo_list id c = (Ok (Some L), c) /\
                 ~ In (Some i) (item_ids L)) /\
    (forall L, ToDoDAL.get_todo_list id c = (Ok (Some L), c) ->
       In (Some i) (item_ids L) ->
       exists c' pre it post,
         ToDoList.items L = pre ++ it :: post /\
         ~ In (Some i) (map ToDoListItem.id pre) /\
         ToDoListItem.id it = Some i /\
         ToDoDAL.set_checked_state id i b c =
           (Ok (Some (with_items L (pre ++ with_checked it b :: post))), c') /\
         ToDoDAL.get_todo_list id c' =
           (Ok (Some (with_items L (pre ++ with_checked it b :: post))), c') /\
         store_ok c') /\
    (forall u label L L1 c1,
       ToDoDAL.get_todo_list id c = (Ok (Some L), c) ->
       ToDoDAL.create_item u id label c = (Ok (Some L1), c1) ->
       exists L2 c2,
         ToDoDAL.set_checked_state id (uuid_hex u) b c1 = (Ok (Some L2), c2) /\
         ToDoDAL.get_todo_list id c2 = (Ok (Some L2), c2) /\
         (exists it, In it (ToDoList.items L2) /\
                     ToDoListItem.id it = Some (uuid_hex u) /\
                     ToDoListItem.checked it = b) /\
         (~ In (Some (uuid_hex u)) (item_ids L) ->
          ToDoList.items L2 =
            ToDoList.items L ++ [ToDoListItem.mk (Some (uuid_hex u)) label b])).
Proof.
  intros id i b c Hok. split; [split|split].
  - intros Hnone. destruct (find_one (resolve_identity id) c) as [d|] eqn:Hf; [|auto].
    right. exists (list_view d). split; [apply get_found; assumption|].
    intros Hin. apply has_id_in in Hin.
    destruct (set_checked_state_found id i b c d Hok Hf Hin) as (c' & d' & H1 & _).
    rewrite H1 in Hnone. discriminate.
  - intros [Hf | (L & Hget & Hno)].
    + rewrite (set_checked_state_not_found id i b c Hf). reflexivity.
    + destruct (get_some_found id c L Hok Hget) as (d & Hf & ->).
      rewrite (set_checked_state_no_item id i b c d Hok Hf); [reflexivity|].
      destruct (existsb _ _) eqn:E; [|reflexivity].
      exfalso. apply Hno. apply has_id_in. exact E.
  - intros L Hget Hin.
    destruct (get_some_found id c L Hok Hget) as (d & Hf & ->).
    apply has_id_in in Hin.
    destruct (set_checked_state_found id i b c d Hok Hf Hin)
      as (c' & d' & H1 & H2 & H3 & H4).
    destruct (check_first_spec i b _ Hin) as (pre & it & post & Hsplit & Hpre & Hid & Hc).
    exists c', pre, it, post. rewrite Hc in *.
    repeat split; try assumption.
    + intros Hbad. apply has_id_in in Hbad. congruence.
    + rewrite (get_found id c' d' H2 H3), H4. reflexivity.
    + apply H2.
    + apply H2.
  - intros u label L L1 c1 Hget Hcreate.
    destruct (get_some_found id c L Hok Hget) as (d & Hf & ->).
    destruct (create_item_found u id label c d Hok Hf) as (c1' & d1 & H1 & H2 & H3 & H4).
    rewrite H1 in Hcreate. injection Hcreate as <- <-.
    set (j := uuid_hex u) in *.
    assert (Hnew : has_id j (new_item u label) = true).
    { unfold has_id, new_item. cbn [ToDoListItem.id]. apply String.eqb_refl. }
    assert (Hin : existsb (has_id j) (ToDoList.items (list_view d1)) = true).
    { rewrite H4. cbn [with_items ToDoList.items]. rewrite existsb_app.
      cbn [existsb]. rewrite Hnew. rewrite orb_true_r. reflexivity. }
    destruct (set_checked_state_found id j b c1' d1 H2 H3 Hin)
      as (c2 & d2 & G1 & G2 & G3 & G4).
    eexists _, c2. split; [exact G1|]. split; [|split].
    + rewrite (get_found id c2 d2 G2 G3), G4. reflexivity.
    + destruct (check_first_spec j b _ Hin) as (pre & it & post & _ & _ & Hid & Hc).
      exists (with_checked it b). cbn [with_items ToDoList.items]. rewrite Hc.
      split; [apply in_or_app; right; left; reflexivity|]. split; [exact Hid | reflexivity].
    + intros Hfresh.
      assert (Hno : existsb (has_id j) (ToDoList.items (list_view d)) = false).
      { destruct (existsb (has_id j) (ToDoList.items (list_view d))) eqn:E;
          [|reflexivity].
        exfalso. apply Hfresh. apply has_id_in. exact E. }
      cbn [with_items ToDoList.items]. rewrite H4.
      cbn [with_items ToDoList.items].
      rewrite (check_first_fresh j b _ (new_item u label) Hno Hnew). reflexivity.
Qed.

(** C6: [delete_todo_list] returns true when the identity resolves to a
    document, and that one document is then removed; it returns false,
    raising nothing and changing nothing, when no document matches.
    Deleting an existing list a second time therefore returns false. *)
Theorem delete_todo_list_once :
  forall (id : identity) (c : collection),
    (forall d, find_one (resolve_identity id) c = Some d ->
       exists pre post,
         c = pre ++ d :: post /\
         ToDoDAL.delete_todo_list id c = (Ok true, pre ++ post)) /\
    (find_one (resolve_identity id) c = None ->
       ToDoDAL.delete_todo_list id c = (Ok false, c)) /\
    (store_ok c ->
     forall c', ToDoDAL.delete_todo_list id c = (Ok true, c') ->
       ToDoDAL.delete_todo_list id c' = (Ok false, c') /\ store_ok c').
Proof.
  intros id c.
  assert (Hnone : forall c0, find_one (resolve_identity id) c0 = None ->
            ToDoDAL.delete_todo_list id c0 = (Ok false, c0)).
  { intros c0 Hf. rewrite delete_todo_list_resolved. unfold Resolved.delete_todo_list.
    rewrite (delete_none _ _ Hf). reflexivity. }
  split; [|split; [apply Hnone|]].
  - intros d Hf. destruct (find_one_some _ _ _ Hf) as (pre & post & -> & Hpre & Hd).
    exists pre, post. split; [reflexivity|].
    rewrite delete_todo_list_resolved. unfold Resolved.delete_todo_list.
    rewrite (delete_split _ pre post d Hpre Hd). reflexivity.
  - intros Hok c' Hdel.
    destruct (find_one (resolve_identity id) c) as [d|] eqn:Hf.
    + destruct (resolved_found id c d Hok Hf)
        as (q & pre & post & Hq & Hs & -> & Hld & Hd & Hpre & Hpost).
      rewrite delete_todo_list_resolved in Hdel. unfold Resolved.delete_todo_list in Hdel.
      rewrite Hq, (delete_split _ pre post d Hpre Hd) in Hdel.
      injection Hdel as <-. split; [|exact (store_ok_remove pre post d Hok)].
      apply Hnone. rewrite Hq. apply find_one_none. apply Forall_app. auto.
    + rewrite (Hnone c Hf) in Hdel. discriminate.
Qed.

(** X21: the id [create_item] gives an item is the hex text of the UUID
    drawn in the call and nothing else: no check is made against the list,
    so the ids of two calls differ exactly when the two UUIDs do, and ids
    that were unique in the list stay unique when the UUIDs drawn are new
    to it and distinct. *)
Theorem item_ids_distinct_as_uuids :
  forall (u1 u2 : N) (id : identity) (label1 label2 : string)
         (c : collection) (L : ToDoList.t),
    (u1 < 2 ^ 128)%N -> (u2 < 2 ^ 128)%N ->
    store_ok c ->
    ToDoDAL.get_todo_list id c = (Ok (Some L), c) ->
    exists c1 c2,
      ToDoDAL.create_item u1 id label1 c =
        (Ok (Some (with_items L (ToDoList.items L ++ [new_item u1 label1]))), c1) /\
      ToDoDAL.create_item u2 id label2 c1 =
        (Ok (Some (with_items L
                     (ToDoList.items L ++
                      [new_item u1 label1; new_item u2 label2]))), c2) /\
      (ToDoListItem.id (new_item u1 label1) <> ToDoListItem.id (new_item u2 label2)
         <-> u1 <> u2) /\
      (NoDup (item_ids L) ->
       ~ In (Some (uuid_hex u1)) (item_ids L) ->
       ~ In (Some (uuid_hex u2)) (item_ids L) ->
       u1 <> u2 ->
       NoDup (map ToDoListItem.id
                (ToDoList.items L ++ [new_item u1 label1; new_item u2 label2]))).
Proof.
  intros u1 u2 id label1 label2 c L Hu1 Hu2 Hok Hget.
  destruct (get_some_found id c L Hok Hget) as (d & Hf & ->).
  destruct (create_item_found u1 id label1 c d Hok Hf) as (c1 & d1 & H1 & H2 & H3 & H4).
  destruct (create_item_found u2 id label2 c1 d1 H2 H3) as (c2 & d2 & G1 & _).
  assert (Hiff : uuid_hex u1 <> uuid_hex u2 <-> u1 <> u2).
  { split; intros H E; apply H; [congruence | exact (uuid_hex_inj u1 u2 Hu1 Hu2 E)]. }
  exists c1, c2. split; [exact H1|]. split; [|split].
  - rewrite G1, H4. cbn [with_items ToDoList.items ToDoList.id ToDoList.name].
    rewrite <- app_assoc. reflexivity.
  - unfold new_item. cbn [ToDoListItem.id]. rewrite <- Hiff.
    split; intros H E; apply H; congruence.
  - intros Hnd Hn1 Hn2 Hne. unfold item_ids in *. rewrite map_app.
    cbn [map new_item ToDoListItem.id].
    apply NoDup_app; [exact Hnd | | ].
    + constructor; [|constructor; [intros []|constructor]].
      intros [E | []]. apply Hiff in Hne. congruence.
    + intros x Hx [<- | [<- | []]]; contradiction.
Qed.
End DalClaims.

(** * Further properties of the data-access layer *)

(** ** The text of an ObjectId *)

Lemma fromhex_byte (x : Byte.byte) (rest : string) :
  bytes_fromhex
    (String (hex_digit (N.div (Byte.to_N x) 16))
       (String (hex_digit (N.modulo (Byte.to_N x) 16)) rest)) =
  match bytes_fromhex rest with
  | Some tail => Some (x :: tail)
  | None => None
  end.
Proof. destruct x; reflexivity. Qed.

Lemma fromhex_hexlify (b : list Byte.byte) : bytes_fromhex (hexlify b) = Some b.
Proof.
  induction b as [|x b IH]; [reflexivity|].
  cbn [hexlify]. rewrite fromhex_byte, IH. reflexivity.
Qed.

Lemma length_hexlify (b : list Byte.byte) :
  String.length (hexlify b) = 2 * List.length b.
Proof.
  induction b as [|x b IH]; [reflexivity|].
  cbn [hexlify String.length List.length]. rewrite IH. lia.
Qed.

Lemma object_id_of_text (b : list Byte.byte) :
  List.length b = 12 -> ObjectId.new (IdStr (hexlify b)) = Ok b.
Proof.
  intros H. unfold ObjectId.new.
  rewrite length_hexlify, H, fromhex_hexlify. reflexivity.
Qed.

Lemma resolve_text (b : list Byte.byte) :
  List.length b = 12 -> resolve_identity (IdStr (hexlify b)) = [("_id", VObjectId b)].
Proof. intros H. unfold resolve_identity. rewrite (object_id_of_text b H). reflexivity. Qed.

(** ** Finding a stored list by its key *)

Lemma no_key_no_match (q : pyval) (c : collection) :
  Forall (fun d => list_doc d = true) c -> scalar_key q = true ->
  ~ In q (map (field_or_none "_id") c) ->
  Forall (fun d => query_matches [("_id", q)] (VDict d) = false) c.
Proof.
  intros Hall Hq Hnin. rewrite Forall_forall in *. intros d Hd.
  destruct (query_matches [("_id", q)] (VDict d)) eqn:E; [|reflexivity].
  apply (query_key_iff q d (Hall d Hd) Hq) in E.
  exfalso. apply Hnin. rewrite <- E. apply in_map. exact Hd.
Qed.

Lemma find_by_key (q : pyval) (c : collection) (d : pydict) :
  store_ok c -> In d c -> field_or_none "_id" d = q ->
  find_one [("_id", q)] c = Some d.
Proof.
  intros Hok Hin Hk. destruct (in_split _ _ Hin) as (pre & post & ->).
  destruct (store_ok_split _ _ _ Hok) as (Hld & _).
  destruct (list_doc_fields d Hld) as (k & _ & _ & Hg & Hs & _).
  assert (Hq : scalar_key q = true).
  { unfold field_or_none in Hk. rewrite Hg in Hk. subst. exact Hs. }
  assert (Hd : query_matches [("_id", q)] (VDict d) = true)
    by (apply (query_key_iff q d Hld Hq); exact Hk).
  pose proof (unique_match q pre post d Hok Hq Hd) as Hu.
  apply Forall_app in Hu as [Hpre _].
  apply find_one_split; assumption.
Qed.

Lemma find_one_app_some (flt : pydict) (c c' : collection) (d : pydict) :
  find_one flt c = Some d -> find_one flt (c ++ c') = Some d.
Proof.
  intros H. destruct (find_one_some _ _ _ H) as (pre & post & -> & Hpre & Hd).
  rewrite <- app_assoc. cbn [app]. apply find_one_split; assumption.
Qed.

Lemma find_one_in (flt : pydict) (c : collection) (d : pydict) :
  find_one flt c = Some d -> In d c.
Proof.
  intros H. destruct (find_one_some _ _ _ H) as (pre & post & -> & _).
  apply in_or_app. right. left. reflexivity.
Qed.

Section CreateList.
Context {rt : PyRuntime}.

Lemma create_todo_list_runs (oid : ObjectId.t) (name : string) (c : collection) :
  ToDoDAL.create_todo_list oid name c =
    (Ok (hexlify oid),
     c ++ [[("_id", VObjectId oid); ("name", VStr name); ("items", VList [])]]).
Proof. reflexivity. Qed.

Lemma store_ok_add (c : collection) (d : pydict) :
  store_ok c -> list_doc d = true ->
  ~ In (field_or_none "_id" d) (map (field_or_none "_id") c) ->
  store_ok (c ++ [d]).
Proof.
  intros [Hall Hnd] Hd Hnin. split.
  - apply Forall_app. split; [exact Hall | constructor; [exact Hd | constructor]].
  - rewrite map_app. cbn [map]. apply NoDup_app; [exact Hnd | |].
    + constructor; [intros [] | constructor].
    + intros x Hx [<- | []]. contradiction.
Qed.


(** X1: the identity [create_todo_list] returns addresses the list it
    created: on a collection of stored lists, with a 12-byte primary key
    that no stored list has, a get by the returned string gives the new list
    under that id, with the given name and no items; the lists that were
    there are read as before. *)
Theorem create_todo_list_then_get :
  forall (oid : ObjectId.t) (name : string) (c : collection),
    List.length oid = 12 ->
    store_ok c ->
    ~ In (VObjectId oid) (map (field_or_none "_id") c) ->
    exists list_id c',
      ToDoDAL.create_todo_list oid name c = (Ok list_id, c') /\
      list_id = hexlify oid /\
      store_ok c' /\
      ToDoDAL.get_todo_list (IdStr list_id) c' =
        (Ok (Some (ToDoList.mk (Some list_id) name [])), c') /\
      (forall id d, find_one (resolve_identity id) c = Some d ->
         fst (ToDoDAL.get_todo_list id c') = fst (ToDoDAL.get_todo_list id c)).
Proof.
  intros oid name c Hlen Hok Hfresh.
  set (d := [("_id", VObjectId oid); ("name", VStr name); ("items", VList [])]).
  assert (Hok' : store_ok (c ++ [d])) by (apply store_ok_add; [exact Hok | reflexivity | exact Hfresh]).
  exists (hexlify oid), (c ++ [d]). split; [apply create_todo_list_runs|].
  split; [reflexivity|]. split; [exact Hok'|]. split.
  - rewrite (get_found (IdStr (hexlify oid)) (c ++ [d]) d Hok'); [reflexivity|].
    rewrite (resolve_text oid Hlen). apply find_one_split.
    + apply no_key_no_match; [apply Hok | reflexivity | exact Hfresh].
    + apply (query_key_iff (VObjectId oid) d); reflexivity.
  - intros id x Hf.
    rewrite (get_found id c x Hok Hf).
    rewrite (get_found id (c ++ [d]) x Hok' (find_one_app_some _ _ _ _ Hf)).
    reflexivity.
Qed.
End CreateList.

(** ** What an update changes in the collection *)

Lemma apply_update_keeps_key (flt : pydict) (upd : update) (d d' : pydict) :
  String.eqb "_id" (update_field upd) = false ->
  apply_update flt upd d = Ok d' -> dict_get "_id" d' = dict_get "_id" d.
Proof.
  intros Hf. destruct upd as [f v | a f v | f cond]; cbn [apply_update update_field] in *.
  - destruct (dict_get f d) as [[]|]; try discriminate;
      intros H; injection H as <-; apply dict_get_set_other; exact Hf.
  - destruct (array_cond flt a) as [[sub q]|]; [|discriminate].
    destruct (dict_get a d) as [[]|]; try discriminate.
    destruct (set_first _ _ _); [|discriminate].
    intros H; injection H as <-; apply dict_get_set_other; exact Hf.
  - destruct (dict_get f d) as [[]|]; try discriminate;
      intros H; injection H as <-; [apply dict_get_set_other; exact Hf | reflexivity].
Qed.

Lemma find_one_replace (flt : pydict) (pre post : collection) (d d' : pydict) :
  query_matches flt (VDict d) = false -> query_matches flt (VDict d') = false ->
  find_one flt (pre ++ d' :: post) = find_one flt (pre ++ d :: post).
Proof.
  intros Hd Hd'. unfold find_one.
  induction pre as [|x pre IH]; cbn [app find].
  - rewrite Hd, Hd'. reflexivity.
  - rewrite IH. reflexivity.
Qed.

Lemma find_one_remove (flt : pydict) (pre post : collection) (d : pydict) :
  query_matches flt (VDict d) = false ->
  find_one flt (pre ++ post) = find_one flt (pre ++ d :: post).
Proof.
  intros Hd. unfold find_one.
  induction pre as [|x pre IH]; cbn [app find].
  - rewrite Hd. reflexivity.
  - rewrite IH. reflexivity.
Qed.

(** A document found under one scalar key is not found under another. *)
Lemma other_key_no_match (q q2 : pyval) (d : pydict) :
  list_doc d = true -> scalar_key q = true -> scalar_key q2 = true -> q2 <> q ->
  query_matches [("_id", q)] (VDict d) = true ->
  query_matches [("_id", q2)] (VDict d) = false.
Proof.
  intros Hld Hq Hq2 Hne Hd.
  apply (query_key_iff q d Hld Hq) in Hd.
  destruct (query_matches [("_id", q2)] (VDict d)) eqn:E; [|reflexivity].
  apply (query_key_iff q2 d Hld Hq2) in E. congruence.
Qed.

Section Locality.
Context {rt : PyRuntime}.

Lemma updated_local (flt : pydict) (upd : update) (q q2 : pyval) (c : collection) :
  store_ok c ->
  (forall d, query_matches flt (VDict d) = true ->
             query_matches [("_id", q)] (VDict d) = true) ->
  scalar_key q = true -> scalar_key q2 = true -> q2 <> q ->
  String.eqb "_id" (update_field upd) = false ->
  find_one [("_id", q2)] (snd (Resolved.updated flt upd c)) = find_one [("_id", q2)] c.
Proof.
  intros Hok Himp Hq Hq2 Hne Hf. unfold Resolved.updated.
  destruct (find_one flt c) as [d|] eqn:Hfind.
  - destruct (find_one_some _ _ _ Hfind) as (pre & post & -> & Hpre & Hd).
    rewrite (update_split flt upd pre post d Hpre Hd).
    destruct (apply_update flt upd d) as [d'|e] eqn:Hu; cbn [snd]; [|reflexivity].
    destruct (store_ok_split _ _ _ Hok) as (Hld & _).
    pose proof (other_key_no_match q q2 d Hld Hq Hq2 Hne (Himp d Hd)) as Hno.
    apply find_one_replace; [exact Hno|].
    rewrite query_primary_key in *.
    rewrite (apply_update_keeps_key flt upd d d' Hf Hu). exact Hno.
  - rewrite (update_none _ _ _ Hfind). reflexivity.
Qed.

Lemma resolved_keys_differ (id id2 : identity) :
  resolve_identity id2 <> resolve_identity id ->
  exists q q2,
    resolve_identity id = [("_id", q)] /\ resolve_identity id2 = [("_id", q2)] /\
    scalar_key q = true /\ scalar_key q2 = true /\ q2 <> q.
Proof.
  intros Hne.
  destruct (resolve_identity_shape id) as (q & Hq & Hs).
  destruct (resolve_identity_shape id2) as (q2 & Hq2 & Hs2).
  exists q, q2. repeat split; try assumption. congruence.
Qed.

Lemma get_by_find (id : identity) (c c' : collection) :
  find_one (resolve_identity id) c' = find_one (resolve_identity id) c ->
  fst (ToDoDAL.get_todo_list id c') = fst (ToDoDAL.get_todo_list id c).
Proof.
  intros H. rewrite !get_todo_list_resolved. unfold Resolved.get_todo_list.
  cbn [fst]. rewrite H. reflexivity.
Qed.

(** X2: the operations on one list leave every other list as it is: on a
    collection of stored lists, after [create_item], [set_checked_state],
    [delete_item] or [delete_todo_list] under one identity, a get under an
    identity that resolves to another key returns what it returned before. *)
Theorem operations_are_local :
  forall (id id2 : identity) (c : collection),
    store_ok c ->
    resolve_identity id2 <> resolve_identity id ->
    (forall u label,
       fst (ToDoDAL.get_todo_list id2 (snd (ToDoDAL.create_item u id label c))) =
       fst (ToDoDAL.get_todo_list id2 c)) /\
    (forall i b,
       fst (ToDoDAL.get_todo_list id2 (snd (ToDoDAL.set_checked_state id i b c))) =
       fst (ToDoDAL.get_todo_list id2 c)) /\
    (forall i,
       fst (ToDoDAL.get_todo_list id2 (snd (ToDoDAL.delete_item id i c))) =
       fst (ToDoDAL.get_todo_list id2 c)) /\
    fst (ToDoDAL.get_todo_list id2 (snd (ToDoDAL.delete_todo_list id c))) =
    fst (ToDoDAL.get_todo_list id2 c).
Proof.
  intros id id2 c Hok Hne.
  destruct (resolved_keys_differ id id2 Hne) as (q & q2 & Hq & Hq2 & Hs & Hs2 & Hd).
  repeat split; intros; apply get_by_find; rewrite Hq2.
  - rewrite create_item_resolved. unfold Resolved.create_item. rewrite Hq.
    apply (updated_local _ _ q q2 c Hok); auto.
  - rewrite set_checked_state_resolved. unfold Resolved.set_checked_state. rewrite Hq.
    apply (updated_local _ _ q q2 c Hok); auto.
    intros d Hm. rewrite query_app in Hm. apply andb_true_iff in Hm. apply Hm.
  - rewrite delete_item_resolved. unfold Resolved.delete_item. rewrite Hq.
    apply (updated_local _ _ q q2 c Hok); auto.
  - rewrite delete_todo_list_resolved. unfold Resolved.delete_todo_list. rewrite Hq.
    destruct (find_one [("_id", q)] c) as [d|] eqn:Hfind.
    + destruct (find_one_some _ _ _ Hfind) as (pre & post & -> & Hpre & Hm).
      rewrite (delete_split _ pre post d Hpre Hm). cbn [snd].
      destruct (store_ok_split _ _ _ Hok) as (Hld & _).
      apply find_one_remove. apply (other_key_no_match q q2 d); assumption.
    + rewrite (delete_none _ _ Hfind). reflexivity.
Qed.

(** ** Removing items *)

Lemma delete_item_view (id : identity) (i : string) (c : collection) (d : pydict) :
  store_ok c -> find_one (resolve_identity id) c = Some d ->
  exists c' d',
    ToDoDAL.delete_item id i c =
      (Ok (Some (with_items (list_view d) (without_id i (ToDoList.items (list_view d))))),
       c') /\
    store_ok c' /\
    find_one (resolve_identity id) c' = Some d' /\
    list_view d' =
      with_items (list_view d) (without_id i (ToDoList.items (list_view d))).
Proof.
  intros Hok Hf. rewrite delete_item_resolved. unfold Resolved.delete_item.
  destruct (resolved_found id c d Hok Hf)
    as (q & pre & post & Hq & Hs & -> & Hld & Hd & Hpre & Hpost).
  destruct (list_doc_fields d Hld) as (k & n & l & _ & _ & _ & Hi & Hl).
  rewrite Hq.
  assert (Hitems : ToDoList.items (list_view d) = map item_view l).
  { unfold list_view. rewrite Hi. reflexivity. }
  destruct (pull_view i l Hl) as [Hk Hview]. cbn zeta in Hk, Hview.
  set (kept := filter (fun e => negb (is_dict e && query_matches [("id", VStr i)] e)) l)
    in *.
  assert (Hupd : apply_update [("_id", q)] (Pull "items" [("id", VStr i)]) d =
                 Ok (dict_set "items" (VList kept) d)).
  { cbn [apply_update]. rewrite Hi. reflexivity. }
  destruct (updated_items _ _ q pre post d kept Hok Hpre Hd Hpre Hd Hupd Hk)
    as (H1 & H2 & H3 & H4).
  unfold without_id. rewrite Hview, <- Hitems in H1, H4.
  exists (pre ++ dict_set "items" (VList kept) d :: post),
         (dict_set "items" (VList kept) d).
  auto.
Qed.

Lemma without_id_absent (i : string) (items : list ToDoListItem.t) :
  existsb (has_id i) (without_id i items) = false.
Proof.
  unfold without_id. induction items as [|it items IH]; cbn [filter existsb]; [reflexivity|].
  destruct (has_id i it) eqn:E; cbn [negb existsb]; [exact IH|].
  rewrite E, IH. reflexivity.
Qed.

Lemma without_id_fresh (i : string) (items : list ToDoListItem.t) :
  existsb (has_id i) items = false -> without_id i items = items.
Proof. apply filter_none. Qed.

Lemma not_in_ids (i : string) (items : list ToDoListItem.t) :
  ~ In (Some i) (map ToDoListItem.id items) <-> existsb (has_id i) items = false.
Proof.
  rewrite <- has_id_in. destruct (existsb (has_id i) items); split; congruence.
Qed.

(** X3: on an existing list, [delete_item] removes every item with the
    given id and keeps the others in their order; the list returned is what
    a get then returns, it has no item with that id, and deleting the same
    id again returns the same list and leaves the collection alone. *)
Theorem delete_item_removes :
  forall (id : identity) (i : string) (c : collection) (L : ToDoList.t),
    store_ok c ->
    ToDoDAL.get_todo_list id c = (Ok (Some L), c) ->
    exists c',
      let L' := with_items L (without_id i (ToDoList.items L)) in
      ToDoDAL.delete_item id i c = (Ok (Some L'), c') /\
      store_ok c' /\
      ToDoDAL.get_todo_list id c' = (Ok (Some L'), c') /\
      ~ In (Some i) (item_ids L') /\
      ToDoDAL.delete_item id i c' = (Ok (Some L'), c').
Proof.
  intros id i c L Hok Hget.
  destruct (get_some_found id c L Hok Hget) as (d & Hf & ->).
  destruct (delete_item_view id i c d Hok Hf) as (c' & d' & H1 & H2 & H3 & H4).
  exists c'. cbn zeta. split; [exact H1|]. split; [exact H2|].
  split; [rewrite (get_found id c' d' H2 H3), H4; reflexivity|].
  assert (Hno : existsb (has_id i)
                  (ToDoList.items
                     (with_items (list_view d) (without_id i (ToDoList.items (list_view d)))))
                = false) by apply without_id_absent.
  split; [apply not_in_ids; exact Hno|].
  destruct (delete_item_found id i c' d' H2 H3) as (c2 & d2 & G1 & _ & _ & G4).
  rewrite H4 in G1, G4. rewrite G1, (G4 Hno), (filter_none i _ Hno), with_items_same.
  reflexivity.
Qed.

(** X4: an item that [create_item] added goes away with [delete_item] by
    the id it was given: when that id is new to the list, the list read
    after the two calls is the list read before them. *)
Theorem create_item_then_delete_item :
  forall (u : N) (id : identity) (label : string) (c : collection) (L : ToDoList.t),
    store_ok c ->
    ToDoDAL.get_todo_list id c = (Ok (Some L), c) ->
    ~ In (Some (uuid_hex u)) (item_ids L) ->
    exists c1 c2,
      ToDoDAL.create_item u id label c =
        (Ok (Some (with_items L (ToDoList.items L ++ [new_item u label]))), c1) /\
      ToDoDAL.delete_item id (uuid_hex u) c1 = (Ok (Some L), c2) /\
      ToDoDAL.get_todo_list id c2 = (Ok (Some L), c2).
Proof.
  intros u id label c L Hok Hget Hfresh.
  destruct (get_some_found id c L Hok Hget) as (d & Hf & ->).
  destruct (create_item_found u id label c d Hok Hf) as (c1 & d1 & H1 & H2 & H3 & H4).
  destruct (delete_item_view id (uuid_hex u) c1 d1 H2 H3) as (c2 & d2 & G1 & G2 & G3 & G4).
  assert (Hback : with_items (list_view d1)
                    (without_id (uuid_hex u) (ToDoList.items (list_view d1)))
                  = list_view d).
  { rewrite H4. clear -Hfresh. unfold item_ids in Hfresh.
    destruct (list_view d) as [a n its].
    unfold with_items. cbn [ToDoList.items ToDoList.id ToDoList.name] in *.
    f_equal. unfold without_id. rewrite filter_app.
    fold (without_id (uuid_hex u) its).
    rewrite (without_id_fresh _ _ (proj1 (not_in_ids _ _) Hfresh)).
    cbn [filter new_item has_id ToDoListItem.id]. rewrite String.eqb_refl.
    cbn [negb]. apply app_nil_r. }
  rewrite Hback in G1, G4.
  exists c1, c2. split; [exact H1|]. split; [exact G1|].
  rewrite (get_found id c2 d2 G2 G3), G4. reflexivity.
Qed.
End Locality.

(** ** Checking items *)

Lemma check_first_ids (i : string) (b : bool) (items : list ToDoListItem.t) :
  map ToDoListItem.id (check_first i b items) = map ToDoListItem.id items /\
  map ToDoListItem.label (check_first i b items) = map ToDoListItem.label items.
Proof.
  induction items as [|it items [IH1 IH2]]; cbn [check_first map]; [auto|].
  destruct (has_id i it); cbn [map with_checked ToDoListItem.id ToDoListItem.label].
  - auto.
  - rewrite IH1, IH2. auto.
Qed.

Lemma check_first_twice (i : string) (b1 b2 : bool) (items : list ToDoListItem.t) :
  check_first i b2 (check_first i b1 items) = check_first i b2 items.
Proof.
  induction items as [|it items IH]; cbn [check_first]; [reflexivity|].
  destruct (has_id i it) eqn:E; cbn [check_first].
  - unfold has_id in *. cbn [with_checked ToDoListItem.id]. rewrite E. reflexivity.
  - rewrite E, IH. reflexivity.
Qed.

Section Composition.
Context {rt : PyRuntime}.

(** X5: [set_checked_state] changes nothing but one flag, and the last
    write wins: the list it returns is the list read before with the
    checked flag of the first item of that id replaced, every other item,
    the id and the name as they were; setting the flag of an item twice
    gives the list that the second call alone gives. *)
Theorem set_checked_state_last_write_wins :
  forall (id : identity) (i : string) (b1 b2 : bool) (c : collection) (L : ToDoList.t),
    store_ok c ->
    ToDoDAL.get_todo_list id c = (Ok (Some L), c) ->
    In (Some i) (item_ids L) ->
    exists pre it post c1 c2,
      ToDoList.items L = pre ++ it :: post /\
      ~ In (Some i) (map ToDoListItem.id pre) /\
      ToDoListItem.id it = Some i /\
      ToDoDAL.set_checked_state id i b1 c =
        (Ok (Some (with_items L (pre ++ with_checked it b1 :: post))), c1) /\
      ToDoDAL.set_checked_state id i b2 c1 =
        (Ok (Some (with_items L (pre ++ with_checked it b2 :: post))), c2) /\
      fst (ToDoDAL.set_checked_state id i b2 c) =
        Ok (Some (with_items L (pre ++ with_checked it b2 :: post))).
Proof.
  intros id i b1 b2 c L Hok Hget Hin.
  destruct (get_some_found id c L Hok Hget) as (d & Hf & ->).
  apply has_id_in in Hin.
  destruct (set_checked_state_found id i b1 c d Hok Hf Hin) as (c1 & d1 & H1 & H2 & H3 & H4).
  destruct (set_checked_state_found id i b2 c d Hok Hf Hin) as (c0 & d0 & K1 & _).
  destruct (check_first_ids i b1 (ToDoList.items (list_view d))) as [Hids _].
  assert (Hin1 : existsb (has_id i) (ToDoList.items (list_view d1)) = true).
  { apply has_id_in. rewrite H4. cbn [with_items ToDoList.items]. rewrite Hids.
    apply has_id_in. exact Hin. }
  destruct (set_checked_state_found id i b2 c1 d1 H2 H3 Hin1) as (c2 & d2 & G1 & _).
  assert (Hsame : with_items (list_view d1) (check_first i b2 (ToDoList.items (list_view d1)))
                  = with_items (list_view d)
                      (check_first i b2 (ToDoList.items (list_view d)))).
  { rewrite H4. unfold with_items. cbn [ToDoList.items ToDoList.id ToDoList.name].
    rewrite check_first_twice. reflexivity. }
  rewrite Hsame in G1.
  destruct (check_first_spec i b1 _ Hin) as (pre & it & post & Hsplit & Hpre & Hid & Hc1).
  assert (Hc2 : check_first i b2 (ToDoList.items (list_view d)) =
                pre ++ with_checked it b2 :: post).
  { destruct (check_first_spec i b2 _ Hin) as (pre' & it' & post' & Hsplit' & Hpre' & Hid' & Hc).
    rewrite Hc. clear -Hsplit Hsplit' Hpre Hpre' Hid Hid'.
    rewrite Hsplit in Hsplit'. clear Hsplit.
    revert pre' Hsplit' Hpre'. induction pre as [|x pre IH]; intros [|x' pre'] Hs Hp'.
    - cbn [app] in *. injection Hs as -> ->. reflexivity.
    - cbn [app existsb] in *. injection Hs as <- _.
      apply orb_false_iff in Hp' as [Hx _]. unfold has_id in Hx.
      rewrite Hid, String.eqb_refl in Hx. discriminate.
    - cbn [app existsb] in *. injection Hs as -> _.
      apply orb_false_iff in Hpre as [Hx _]. unfold has_id in Hx.
      rewrite Hid', String.eqb_refl in Hx. discriminate.
    - cbn [app existsb] in *. injection Hs as <- Hs.
      apply orb_false_iff in Hpre as [_ Hpre]. apply orb_false_iff in Hp' as [_ Hp'].
      rewrite (IH Hpre pre' Hs Hp'). reflexivity. }
  rewrite Hc1 in H1. rewrite Hc2 in G1, K1.
  exists pre, it, post, c1, c2.
  split; [exact Hsplit|]. split; [apply not_in_ids; exact Hpre|]. split; [exact Hid|].
  split; [exact H1|]. split; [exact G1|]. rewrite K1. reflexivity.
Qed.

Lemma delete_true_gone (id : identity) (c c' : collection) :
  store_ok c -> ToDoDAL.delete_todo_list id c = (Ok true, c') ->
  find_one (resolve_identity id) c' = None /\ store_ok c'.
Proof.
  intros Hok Hdel. rewrite delete_todo_list_resolved in Hdel.
  unfold Resolved.delete_todo_list in Hdel.
  destruct (find_one (resolve_identity id) c) as [d|] eqn:Hf.
  - destruct (resolved_found id c d Hok Hf)
      as (q & pre & post & Hq & Hs & -> & Hld & Hd & Hpre & Hpost).
    rewrite Hq in *. rewrite (delete_split _ pre post d Hpre Hd) in Hdel.
    injection Hdel as <-. split; [|exact (store_ok_remove pre post d Hok)].
    apply find_one_none. apply Forall_app. auto.
  - rewrite (delete_none _ _ Hf) in Hdel. discriminate.
Qed.

(** X6: a deleted list is gone for every operation: once
    [delete_todo_list] has returned true, get, [create_item],
    [set_checked_state] and [delete_item] under the same identity all
    return None and change nothing. *)
Theorem deleted_list_is_gone :
  forall (id : identity) (c c' : collection),
    store_ok c ->
    ToDoDAL.delete_todo_list id c = (Ok true, c') ->
    ToDoDAL.get_todo_list id c' = (Ok None, c') /\
    (forall u label, ToDoDAL.create_item u id label c' = (Ok None, c')) /\
    (forall i b, ToDoDAL.set_checked_state id i b c' = (Ok None, c')) /\
    (forall i, ToDoDAL.delete_item id i c' = (Ok None, c')).
Proof.
  intros id c c' Hok Hdel. destruct (delete_true_gone id c c' Hok Hdel) as [Hf _].
  repeat split; intros.
  - apply get_not_found; exact Hf.
  - apply create_item_not_found; exact Hf.
  - apply set_checked_state_not_found; exact Hf.
  - apply delete_item_not_found; exact Hf.
Qed.

(** On a store that answers, a list stored under a string key of 24
    hexadecimal characters is not found by that string: the query goes by
    the ObjectId the string decodes to. *)
Lemma literal_key_missed_when_answered :
  forall (s : string) (o : ObjectId.t) (c : collection) (d : pydict),
    store_ok c ->
    In d c -> dict_get "_id" d = Some (VStr s) ->
    ObjectId.new (IdStr s) = Ok o ->
    ~ In (VObjectId o) (map (field_or_none "_id") c) ->
    ToDoDAL.get_todo_list (IdStr s) c = (Ok None, c) /\
    ToDoDAL.delete_todo_list (IdStr s) c = (Ok false, c) /\
    find_one [("_id", VStr s)] c = Some d.
Proof.
  intros s o c d Hok Hin Hkey Hnew Hno.
  assert (Hf : find_one (resolve_identity (IdStr s)) c = None).
  { unfold resolve_identity. rewrite Hnew. apply find_one_none.
    apply no_key_no_match; [apply Hok | reflexivity | exact Hno]. }
  split; [apply get_not_found; exact Hf|]. split.
  - rewrite delete_todo_list_resolved. unfold Resolved.delete_todo_list.
    rewrite (delete_none _ _ Hf). reflexivity.
  - apply find_by_key; [exact Hok | exact Hin|].
    unfold field_or_none. rewrite Hkey. reflexivity.
Qed.

(** X8: the id a list is read with addresses it: for a stored list whose
    key is a 12-byte ObjectId, or a non-empty string that does not decode as
    an ObjectId, the list a get returns carries an id, and a get by that id
    returns the same list. *)
Theorem returned_id_addresses_list :
  forall (c : collection) (d : pydict),
    store_ok c -> In d c ->
    ((exists b, dict_get "_id" d = Some (VObjectId b) /\ List.length b = 12) \/
     (exists s e, dict_get "_id" d = Some (VStr s) /\ s <> "" /\
                  ObjectId.new (IdStr s) = Raise e)) ->
    exists t,
      ToDoList.id (list_view d) = Some t /\
      ToDoDAL.get_todo_list (IdStr t) c = (Ok (Some (list_view d)), c).
Proof.
  intros c d Hok Hin [(b & Hkey & Hlen) | (s & e & Hkey & Hne & Hnew)].
  - exists (hexlify b). split.
    + unfold list_view, field_or_none. rewrite Hkey. reflexivity.
    + apply get_found; [exact Hok|]. rewrite (resolve_text b Hlen).
      apply find_by_key; [exact Hok | exact Hin|].
      unfold field_or_none. rewrite Hkey. reflexivity.
  - exists s. split.
    + unfold list_view, field_or_none. rewrite Hkey. cbn [truthy].
      destruct s; [contradiction | reflexivity].
    + apply get_found; [exact Hok|]. unfold resolve_identity. rewrite Hnew.
      apply find_by_key; [exact Hok | exact Hin|].
      unfold field_or_none. rewrite Hkey. reflexivity.
Qed.

(** ** A failure after the update *)

Lemma create_item_fails_after_update :
  forall (u : N) (id : identity) (label : string) (pre post : collection)
         (d : pydict) (l : list pyval) (v : pyval) (e : exn),
    Forall (fun x => query_matches (resolve_identity id) (VDict x) = false) pre ->
    query_matches (resolve_identity id) (VDict d) = true ->
    dict_get "items" d = Some (VList l) ->
    dict_get "name" d = Some v ->
    validate_str v = Raise e ->
    ToDoDAL.create_item u id label (pre ++ d :: post) =
      (Raise e,
       pre ++ dict_set "items"
                (VList (l ++ [VDict [("id", VStr (uuid_hex u));
                                     ("label", VStr label);
                                     ("checked", VBool false)]])) d :: post).
Proof.
  intros u id label pre post d l v e Hpre Hd Hi Hn Hv.
  rewrite create_item_resolved. unfold Resolved.create_item, Resolved.updated.
  rewrite (update_split _ _ pre post d Hpre Hd). cbn [apply_update]. rewrite Hi.
  cbn [bind Resolved.mapped]. f_equal.
  set (d' := dict_set "items" _ d).
  assert (Ht : truthy (VDict d') = true).
  { destruct d' eqn:E; [|reflexivity]. exfalso. exact (dict_set_not_nil _ _ _ E). }
  rewrite (list_of_dict d' Ht). subst d'.
  rewrite dict_get_set_same, (dict_get_set_other "items" "name") by reflexivity.
  rewrite Hn. replace (truthy (VList (l ++ _))) with true
    by (destruct l; reflexivity).
  cbn [py_iter bind]. rewrite Hv. reflexivity.
Qed.

(** X9: [create_item] updates the store before it maps the result, so a
    mapping that raises leaves the item stored: on a document whose items
    are an array and whose name the model rejects, the call raises and the
    document in the collection has the new item at the end of its items. *)
Theorem create_item_stores_before_it_fails :
  forall (u : N) (id : identity) (label : string) (pre post : collection)
         (d : pydict) (l : list pyval) (v : pyval) (e : exn),
    Forall (fun x => query_matches (resolve_identity id) (VDict x) = false) pre ->
    query_matches (resolve_identity id) (VDict d) = true ->
    dict_get "items" d = Some (VList l) ->
    dict_get "name" d = Some v ->
    validate_str v = Raise e ->
    ToDoDAL.create_item u id label (pre ++ d :: post) =
      (Raise e,
       pre ++ dict_set "items"
                (VList (l ++ [VDict [("id", VStr (uuid_hex u));
                                     ("label", VStr label);
                                     ("checked", VBool false)]])) d :: post).
Proof.
  intros u id label pre post d l v e Hpre Hd Hi Hn Hv.
  apply (create_item_fails_after_update u id label pre post d l v e); assumption.
Qed.
End Composition.

(** * Further properties of the mappers and of the enumeration *)

Section MapperExtras.
Context {rt : PyRuntime}.

Lemma map_items_length (l : list pyval) :
  List.length (ToDoList.map_items l) <= List.length l.
Proof.
  induction l as [|e l IH]; cbn [ToDoList.map_items List.length]; [lia|].
  destruct (ToDoListItem.from_doc e); cbn [List.length]; lia.
Qed.

Lemma map_items_all (l : list pyval) :
  Forall (fun e => returns (ToDoListItem.from_doc e)) l ->
  List.length (ToDoList.map_items l) = List.length l.
Proof.
  induction 1 as [|e l [it He] _ IH]; cbn [ToDoList.map_items List.length]; [reflexivity|].
  rewrite He. cbn [List.length]. rewrite IH. reflexivity.
Qed.

(** X10: the two projections of one document can disagree on the number of
    items: the summary counts every element of the items array, the full
    list leaves out the elements whose mapping raises.  So the list never
    has more items than the summary counts, and has as many when every
    element maps. *)
Theorem list_items_at_most_summary_count :
  forall (kv : pydict) (l : list pyval) (s : ListSummary.t) (t : ToDoList.t),
    dict_get "items" kv = Some (VList l) ->
    ListSummary.from_doc (VDict kv) = Ok s ->
    ToDoList.from_doc (VDict kv) = Ok (Some t) ->
    ListSummary.item_count s = Z.of_nat (List.length l) /\
    ToDoList.items t = ToDoList.map_items l /\
    (Z.of_nat (List.length (ToDoList.items t)) <= ListSummary.item_count s)%Z /\
    (Forall (fun e => returns (ToDoListItem.from_doc e)) l ->
     Z.of_nat (List.length (ToDoList.items t)) = ListSummary.item_count s).
Proof.
  intros kv l s t Hi Hs Ht.
  pose proof (dict_get_truthy _ _ _ Hi) as Htr.
  rewrite (summary_of_dict kv Htr) in Hs. rewrite (list_of_dict kv Htr) in Ht.
  rewrite Hi in Ht.
  assert (Hel : py_iter (if truthy (VList l) then VList l else VList []) = Ok l)
    by (destruct l; reflexivity).
  rewrite Hel in Ht. cbn [bind] in Ht.
  destruct (validate_str _) as [n|]; cbn [bind] in *; [|discriminate].
  injection Hs as <-. injection Ht as <-.
  cbn [ListSummary.item_count ToDoList.items].
  unfold expected_item_count. rewrite Hi. cbn [list_like length_of].
  pose proof (map_items_length l).
  repeat split; [lia|]. intros Hall. rewrite (map_items_all l Hall). reflexivity.
Qed.
End MapperExtras.

(** ** The enumeration *)

Lemma dict_get_project (k : string) (fields : list string) (d : pydict) :
  dict_get k (project fields d) =
    if String.eqb k "_id" || existsb (String.eqb k) fields then dict_get k d else None.
Proof.
  induction d as [|[k' v] d IH]; cbn [project filter dict_get fst].
  - destruct (_ || _); reflexivity.
  - fold (project fields d).
    destruct (String.eqb k k') eqn:E.
    + apply String.eqb_eq in E. subst k'.
      destruct (String.eqb k "_id" || existsb (String.eqb k) fields) eqn:K.
      * cbn [dict_get]. rewrite String.eqb_refl. reflexivity.
      * exact IH.
    + destruct (String.eqb k' "_id" || existsb (String.eqb k') fields).
      * cbn [dict_get]. rewrite E. exact IH.
      * exact IH.
Qed.

Section Enumeration.
Context {rt : PyRuntime} {so : StoreOrder}.

Lemma insert_by_perm (f : string) (d : pydict) (l : collection) :
  Permutation (insert_by f d l) (d :: l).
Proof.
  induction l as [|x l IH]; cbn [insert_by]; [reflexivity|].
  destruct (key_le _ _); [reflexivity|].
  rewrite IH. apply perm_swap.
Qed.

Lemma sort_by_perm (f : string) (c : collection) : Permutation (sort_by f c) c.
Proof.
  unfold sort_by. induction c as [|d c IH]; cbn [fold_right]; [reflexivity|].
  rewrite insert_by_perm. constructor. exact IH.
Qed.

Lemma list_doc_name (d : pydict) :
  list_doc d = true -> field_or_none "name" d = VStr (ToDoList.name (list_view d)).
Proof.
  intros Hd. destruct (list_doc_fields d Hd) as (k & n & l & _ & _ & Hn & _).
  unfold field_or_none, list_view. rewrite Hn. reflexivity.
Qed.

Lemma insert_by_sorted (d : pydict) (l : collection) :
  list_doc d = true -> Forall (fun x => list_doc x = true) l ->
  Sorted (fun a b => String.leb (ToDoList.name (list_view a))
                                (ToDoList.name (list_view b)) = true) l ->
  Sorted (fun a b => String.leb (ToDoList.name (list_view a))
                                (ToDoList.name (list_view b)) = true)
         (insert_by "name" d l).
Proof.
  intros Hd Hall Hs. induction l as [|x l IH]; cbn [insert_by].
  - constructor; constructor.
  - inversion Hall as [|? ? Hx Hl]; subst. inversion Hs as [|? ? Hsl Hhd]; subst.
    rewrite (list_doc_name d Hd), (list_doc_name x Hx). cbn [key_le].
    destruct (String.leb (ToDoList.name (list_view d)) (ToDoList.name (list_view x)))
      eqn:E.
    + constructor; [exact Hs | constructor; exact E].
    + constructor; [apply IH; assumption|].
      assert (Hxd : String.leb (ToDoList.name (list_view x))
                               (ToDoList.name (list_view d)) = true).
      { destruct (String.leb_total (ToDoList.name (list_view d))
                                   (ToDoList.name (list_view x))); congruence. }
      destruct l as [|y l]; cbn [insert_by]; [constructor; exact Hxd|].
      inversion Hhd; subst. destruct (key_le _ _); constructor; assumption.
Qed.

Lemma sort_by_sorted (c : collection) :
  Forall (fun x => list_doc x = true) c ->
  Forall (fun x => list_doc x = true) (sort_by "name" c) /\
  Sorted (fun a b => String.leb (ToDoList.name (list_view a))
                                (ToDoList.name (list_view b)) = true)
         (sort_by "name" c).
Proof.
  unfold sort_by. induction 1 as [|d c Hd Hc [IH1 IH2]]; cbn [fold_right].
  - split; constructor.
  - split; [|apply insert_by_sorted; assumption].
    eapply Permutation_Forall.
    + symmetry. apply insert_by_perm.
    + constructor; assumption.
Qed.

(** The summary of a stored list as the enumeration fetches it. *)
Lemma projected_summary (d : pydict) :
  list_doc d = true ->
  ListSummary.from_doc (VDict (project ["name"; "items"] d)) = Ok (listed_summary d).
Proof.
  intros Hd. destruct (list_doc_fields d Hd) as (k & n & l & Hk & Hs & Hn & Hi & Hl).
  assert (Gk : dict_get "_id" (project ["name"; "items"] d) = Some k)
    by (rewrite dict_get_project; exact Hk).
  rewrite (summary_of_dict _ (dict_get_truthy _ _ _ Gk)).
  unfold listed_summary, list_view, expected_item_count. unfold field_or_none.
  rewrite !dict_get_project. cbn [String.eqb existsb orb Ascii.eqb Bool.eqb andb].
  rewrite Hk, Hn, Hi. cbn [validate_str bind list_like length_of ToDoList.name ToDoList.items].
  rewrite length_map. destruct (truthy k); reflexivity.
Qed.

Lemma yield_stored (l : collection) :
  Forall (fun x => list_doc x = true) l ->
  Listing.yield_summaries (map (project ["name"; "items"]) l) =
    (map listed_summary l, None).
Proof.
  induction 1 as [|d l Hd _ IH]; cbn [map Listing.yield_summaries]; [reflexivity|].
  rewrite (projected_summary d Hd), IH. reflexivity.
Qed.

Lemma listed_summarises (d : pydict) : summarises (listed_summary d) d.
Proof.
  unfold summarises, listed_summary, list_view.
  cbn [ListSummary.name ListSummary.item_count ListSummary.id ToDoList.id ToDoList.name].
  repeat split. intros ->. reflexivity.
Qed.

Lemma listing_of_stored (c : collection) :
  store_ok c ->
  exists sorted,
    Permutation sorted c /\
    Listing.list_todo_lists c = (map listed_summary sorted, None) /\
    Forall2 summarises (map listed_summary sorted) sorted /\
    names_sorted (map listed_summary sorted).
Proof.
  intros [Hall _]. destruct (sort_by_sorted c Hall) as [Hs1 Hs2].
  exists (sort_by "name" c). split; [apply sort_by_perm|]. split; [|split].
  - unfold Listing.list_todo_lists, find_all. apply yield_stored. exact Hs1.
  - clear. induction (sort_by "name" c) as [|d l IH]; cbn [map]; constructor;
      [apply listed_summarises | exact IH].
  - unfold names_sorted. clear Hs1. induction Hs2 as [|d l Hl IH Hhd]; cbn [map].
    + constructor.
    + constructor; [exact IH|]. destruct Hhd; cbn [map]; constructor. assumption.
Qed.

(** X11: on a collection of stored lists the enumeration ends without an
    exception and yields one summary for each list, in ascending order of
    the names; each summary has the name of its list and counts the items
    that a get of the list returns, and has the list's id when the primary
    key is truthy. *)
Theorem list_todo_lists_summarises :
  forall (c : collection),
    store_ok c ->
    exists summaries sorted,
      Listing.list_todo_lists c = (summaries, None) /\
      Permutation sorted c /\
      Forall2 summarises summaries sorted /\
      names_sorted summaries /\
      List.length summaries = List.length c.
Proof.
  intros c Hok. destruct (listing_of_stored c Hok) as (sorted & Hp & Hl & Hf & Hs).
  exists (map listed_summary sorted), sorted. repeat split; try assumption.
  rewrite length_map. apply Permutation_length. exact Hp.
Qed.
End Enumeration.

(** * Properties of the request handlers *)

Section HandlerFacts.
Context {rt : PyRuntime} {so : StoreOrder}.

(** The shape of the five handlers that answer 404 for an absent result. *)
Lemma optional_answer (A : Type) (m : DAL (option A)) (d404 d500 : string)
    (c : collection) :
  try_reraising_http d500
    (result <== await m ;;
     match result with
     | None => raise_http 404 d404
     | Some t => returned t
     end) c =
  match m c with
  | (Ok (Some t), c') => (Returned t, c')
  | (Ok None, c') => (Raised (HTTPException 404 d404), c')
  | (Raise _, c') => (Raised (HTTPException 500 d500), c')
  end.
Proof.
  unfold try_reraising_http, handler_bind, await, raise_http, returned.
  destruct (m c) as [[[t|]|e] c']; reflexivity.
Qed.

Lemma delete_list_answer (s : string) (c : collection) :
  Server.delete_list s c =
  match ToDoDAL.delete_todo_list (IdStr s) c with
  | (Ok true, c') => (Returned true, c')
  | (Ok false, c') => (Raised (HTTPException 404 "List not found"), c')
  | (Raise _, c') => (Raised (HTTPException 500 "Failed to delete list"), c')
  end.
Proof.
  unfold Server.delete_list, try_reraising_http, handler_bind, await, raise_http, returned.
  destruct (ToDoDAL.delete_todo_list (IdStr s) c) as [[[|]|e] c']; reflexivity.
Qed.

(** X12: no handler lets an exception of the data-access layer through: on
    every collection, well-formed or not, and for every argument, a handler
    returns its body or raises an [HTTPException], with status 404 or 500
    for the handlers of one list and its items and with status 500 for the
    enumeration and the creation of a list. *)
Theorem handlers_answer_404_or_500 :
  forall (c : collection),
    answers_in [500] (fst (Server.get_all_lists c)) /\
    (forall oid n, answers_in [500] (fst (Server.create_todo_list oid n c))) /\
    (forall s, answers_in [404; 500] (fst (Server.get_list s c))) /\
    (forall s, answers_in [404; 500] (fst (Server.delete_list s c))) /\
    (forall u s l, answers_in [404; 500] (fst (Server.create_item u s l c))) /\
    (forall s i, answers_in [404; 500] (fst (Server.delete_item s i c))) /\
    (forall s i b, answers_in [404; 500] (fst (Server.set_checked_state s i b c))).
Proof.
  intros c. split; [|split; [|split; [|split; [|split; [|split]]]]]; intros.
  - unfold Server.get_all_lists, Server.collect_lists, try_any, handler_bind, returned.
    destruct (Listing.list_todo_lists c) as [l [e|]]; cbn; auto.
  - cbn. exact I.
  - unfold Server.get_list. rewrite optional_answer.
    destruct (ToDoDAL.get_todo_list _ c) as [[[t|]|e] c']; cbn; auto.
  - rewrite delete_list_answer.
    destruct (ToDoDAL.delete_todo_list _ c) as [[[|]|e] c']; cbn; auto.
  - unfold Server.create_item. rewrite optional_answer.
    destruct (ToDoDAL.create_item _ _ _ c) as [[[t|]|e] c']; cbn; auto.
  - unfold Server.delete_item. rewrite optional_answer.
    destruct (ToDoDAL.delete_item _ _ c) as [[[t|]|e] c']; cbn; auto.
  - unfold Server.set_checked_state. rewrite optional_answer.
    destruct (ToDoDAL.set_checked_state _ _ _ c) as [[[t|]|e] c']; cbn; auto.
Qed.

(** X14: DELETE of a list answers true once: on a collection of stored
    lists, when the identity resolves the handler returns true, and the
    same request again, like a GET of the list, is answered with 404 "List
    not found". *)
Theorem delete_list_then_not_found :
  forall (s : string) (c : collection) (d : pydict),
    store_ok c ->
    find_one (resolve_identity (IdStr s)) c = Some d ->
    exists c',
      Server.delete_list s c = (Returned true, c') /\
      List.length c = S (List.length c') /\
      Server.delete_list s c' = (Raised (HTTPException 404 "List not found"), c') /\
      Server.get_list s c' = (Raised (HTTPException 404 "List not found"), c').
Proof.
  intros s c d Hok Hf.
  destruct (find_one_some _ _ _ Hf) as (pre & post & -> & Hpre & Hd).
  assert (Hdel : ToDoDAL.delete_todo_list (IdStr s) (pre ++ d :: post) =
                 (Ok true, pre ++ post)).
  { rewrite delete_todo_list_resolved. unfold Resolved.delete_todo_list.
    rewrite (delete_split _ pre post d Hpre Hd). reflexivity. }
  destruct (delete_true_gone _ _ _ Hok Hdel) as [Hgone Hok'].
  exists (pre ++ post). split; [rewrite delete_list_answer, Hdel; reflexivity|].
  split; [rewrite !length_app; cbn [List.length]; lia|]. split.
  - rewrite delete_list_answer, delete_todo_list_resolved.
    unfold Resolved.delete_todo_list. rewrite (delete_none _ _ Hgone). reflexivity.
  - unfold Server.get_list. rewrite optional_answer, (get_not_found _ _ Hgone).
    reflexivity.
Qed.

(** X15: DELETE of an item answers 404 only for a list that is not there:
    on a collection of stored lists the handler raises 404 exactly when the
    list identity does not resolve, and an item id that no item of the list
    has is answered with the unchanged list. *)
Theorem delete_item_answers :
  forall (s i : string) (c : collection),
    store_ok c ->
    (fst (Server.delete_item s i c) = Raised (HTTPException 404 "List or item not found")
       <-> find_one (resolve_identity (IdStr s)) c = None) /\
    (forall L, ToDoDAL.get_todo_list (IdStr s) c = (Ok (Some L), c) ->
       exists c',
         Server.delete_item s i c =
           (Returned (with_items L (without_id i (ToDoList.items L))), c') /\
         (~ In (Some i) (item_ids L) ->
          Server.delete_item s i c = (Returned L, c))).
Proof.
  intros s i c Hok. unfold Server.delete_item. rewrite optional_answer. split; [split|].
  - intros H. destruct (find_one (resolve_identity (IdStr s)) c) as [d|] eqn:Hf; [|reflexivity].
    destruct (delete_item_view (IdStr s) i c d Hok Hf) as (c' & d' & H1 & _).
    rewrite H1 in H. discriminate.
  - intros Hf. rewrite (delete_item_not_found _ i c Hf). reflexivity.
  - intros L Hget. destruct (get_some_found _ c L Hok Hget) as (d & Hf & ->).
    destruct (delete_item_view (IdStr s) i c d Hok Hf) as (c' & d' & H1 & _).
    exists c'. split; [rewrite H1; reflexivity|].
    intros Hno. apply not_in_ids in Hno.
    destruct (delete_item_found (IdStr s) i c d Hok Hf) as (c2 & d2 & G1 & _ & _ & G4).
    rewrite G1, (G4 Hno), (filter_none i _ Hno), with_items_same. reflexivity.
Qed.

(** X16: PATCH of a checked state answers 404 for a missing list and for a
    missing item alike: on a collection of stored lists the handler raises
    404 exactly when the identity resolves to no list or the list has no
    item with the id, and otherwise returns the list with the flag set on
    the first item with that id. *)
Theorem set_checked_state_answers :
  forall (s i : string) (b : bool) (c : collection),
    store_ok c ->
    (fst (Server.set_checked_state s i b c)
       = Raised (HTTPException 404 "List or item not found")
     <-> find_one (resolve_identity (IdStr s)) c = None \/
         exists L, ToDoDAL.get_todo_list (IdStr s) c = (Ok (Some L), c) /\
                   ~ In (Some i) (item_ids L)) /\
    (forall L, ToDoDAL.get_todo_list (IdStr s) c = (Ok (Some L), c) ->
       In (Some i) (item_ids L) ->
       fst (Server.set_checked_state s i b c) =
         Returned (with_items L (check_first i b (ToDoList.items L)))).
Proof.
  intros s i b c Hok. unfold Server.set_checked_state. rewrite optional_answer.
  split; [split|].
  - intros H. destruct (find_one (resolve_identity (IdStr s)) c) as [d|] eqn:Hf; [|auto].
    right. exists (list_view d). split; [apply get_found; assumption|].
    intros Hin. apply has_id_in in Hin.
    destruct (set_checked_state_found (IdStr s) i b c d Hok Hf Hin) as (c' & d' & H1 & _).
    rewrite H1 in H. discriminate.
  - intros [Hf | (L & Hget & Hno)].
    + rewrite (set_checked_state_not_found _ i b c Hf). reflexivity.
    + destruct (get_some_found _ c L Hok Hget) as (d & Hf & ->).
      apply not_in_ids in Hno.
      rewrite (set_checked_state_no_item _ i b c d Hok Hf Hno). reflexivity.
  - intros L Hget Hin. destruct (get_some_found _ c L Hok Hget) as (d & Hf & ->).
    apply has_id_in in Hin.
    destruct (set_checked_state_found (IdStr s) i b c d Hok Hf Hin) as (c' & d' & H1 & _).
    rewrite H1. reflexivity.
Qed.

(** X17: POST of an item answers with the list and the new item at its
    end when the identity resolves to a stored list, and with 404 "List not
    found", the collection unchanged, when it resolves to nothing. *)
Theorem create_item_answers :
  forall (u : N) (s label : string) (c : collection),
    store_ok c ->
    (forall L, ToDoDAL.get_todo_list (IdStr s) c = (Ok (Some L), c) ->
       fst (Server.create_item u s label c) =
         Returned (with_items L (ToDoList.items L ++ [new_item u label]))) /\
    (find_one (resolve_identity (IdStr s)) c = None ->
       Server.create_item u s label c =
         (Raised (HTTPException 404 "List not found"), c)).
Proof.
  intros u s label c Hok. unfold Server.create_item. rewrite optional_answer. split.
  - intros L Hget. destruct (get_some_found _ c L Hok Hget) as (d & Hf & ->).
    destruct (create_item_found u (IdStr s) label c d Hok Hf) as (c' & d' & H1 & _).
    rewrite H1. reflexivity.
  - intros Hf. rewrite (create_item_not_found u _ label c Hf). reflexivity.
Qed.

Lemma yield_raises (l : collection) (d : pydict) (e : exn) :
  In d l -> ListSummary.from_doc (VDict d) = Raise e ->
  exists ys e', Listing.yield_summaries l = (ys, Some e').
Proof.
  intros Hin Hr. induction l as [|x l IH]; [contradiction|].
  cbn [Listing.yield_summaries]. destruct Hin as [-> | Hin].
  - rewrite Hr. eauto.
  - destruct (ListSummary.from_doc (VDict x)); [|eauto].
    destruct (IH Hin) as (ys & e' & ->). eauto.
Qed.

(** X19: GET of the lists answers, on a collection of stored lists, with
    one summary for each list in ascending order of the names and leaves the
    collection alone; and one document whose summary cannot be built makes
    the whole request answer 500, whatever the other documents are. *)
Theorem get_all_lists_answers :
  forall (c : collection),
    (store_ok c ->
     exists summaries sorted,
       Server.get_all_lists c = (Returned summaries, c) /\
       Permutation sorted c /\
       Forall2 summarises summaries sorted /\
       names_sorted summaries) /\
    (forall d e, In d c ->
       ListSummary.from_doc (VDict (project ["name"; "items"] d)) = Raise e ->
       Server.get_all_lists c =
         (Raised (HTTPException 500 "Failed to list todo lists"), c)).
Proof.
  intros c. split.
  - intros Hok. destruct (listing_of_stored c Hok) as (sorted & Hp & Hl & Hf & Hs).
    exists (map listed_summary sorted), sorted. repeat split; try assumption.
    unfold Server.get_all_lists, Server.collect_lists, try_any, handler_bind, returned.
    rewrite Hl. reflexivity.
  - intros d e Hin Hr.
    assert (Hin' : In (project ["name"; "items"] d) (find_all ["name"; "items"] "name" c)).
    { unfold find_all. apply in_map.
      apply (Permutation_in d (Permutation_sym (sort_by_perm "name" c))). exact Hin. }
    destruct (yield_raises _ _ e Hin' Hr) as (ys & e' & Hy).
    unfold Server.get_all_lists, Server.collect_lists, try_any, handler_bind, returned.
    unfold Listing.list_todo_lists. rewrite Hy. reflexivity.
Qed.

(** X20: POST of an item can answer 500 and still have stored the item:
    when the document found has an items array and a name the model
    rejects, the handler raises 500 "Failed to create item" and the stored
    document has the new item at the end of its items. *)
Theorem create_item_answers_500_after_storing :
  forall (u : N) (s label : string) (pre post : collection)
         (d : pydict) (l : list pyval) (v : pyval) (e : exn),
    Forall (fun x => query_matches (resolve_identity (IdStr s)) (VDict x) = false) pre ->
    query_matches (resolve_identity (IdStr s)) (VDict d) = true ->
    dict_get "items" d = Some (VList l) ->
    dict_get "name" d = Some v ->
    validate_str v = Raise e ->
    Server.create_item u s label (pre ++ d :: post) =
      (Raised (HTTPException 500 "Failed to create item"),
       pre ++ dict_set "items"
                (VList (l ++ [VDict [("id", VStr (uuid_hex u));
                                     ("label", VStr label);
                                     ("checked", VBool false)]])) d :: post).
Proof.
  intros u s label pre post d l v e Hpre Hd Hi Hn Hv.
  unfold Server.create_item. rewrite optional_answer.
  rewrite (create_item_fails_after_update u (IdStr s) label pre post d l v e Hpre Hd Hi Hn Hv).
  reflexivity.
Qed.
End HandlerFacts.

(** * Properties over a store that can fail *)

Lemma round_trip_answered (A : Type) (call : DAL A) (c : collection)
    (out : list (option exn)) :
  next_answers out = true ->
  round_trip call (mkStore c out) = (fst (call c), mkStore (snd (call c)) (tl out)).
Proof.
  intros H. unfold round_trip. cbn [outages documents].
  destruct out as [|[e|] rest]; try discriminate; destruct (call c); reflexivity.
Qed.

Lemma round_trip_outage (A : Type) (call : DAL A) (c : collection) (e : exn)
    (rest : list (option exn)) :
  round_trip call (mkStore c (Some e :: rest)) = (Raise e, mkStore c rest).
Proof. reflexivity. Qed.


Section StoreFacts.
Context {rt : PyRuntime}.

(** With its one round trip answered, [get_todo_list] is the operation on
    the answering store. *)
Lemma get_when_answered (id : identity) (c : collection) (out : list (option exn)) :
  next_answers out = true ->
  Unreliable.get_todo_list id (mkStore c out) =
    (fst (ToDoDAL.get_todo_list id c), mkStore c (tl out)).
Proof.
  intros H.
  unfold Unreliable.get_todo_list, ToDoDAL.get_todo_list.
  unfold store_bind, store_try, store_lift, store_ret, dal_bind, dal_try, lift, ret.
  destruct (ObjectId.new id) as [o|e0];
    rewrite (round_trip_answered _ _ c out H); unfold call_find_one; cbn [fst snd];
    match goal with
    | |- context [truthy ?d] => destruct (truthy d)
    end; cbn [negb fst]; reflexivity.
Qed.

(** The first round trip raises: the [except] clause runs the literal
    query, whether or not the identity decoded. *)
Lemma get_after_outage (id : identity) (o : ObjectId.t) (e : exn) (c : collection)
    (out : list (option exn)) :
  ObjectId.new id = Ok o -> next_answers out = true ->
  Unreliable.get_todo_list id (mkStore c (Some e :: out)) =
    (Resolved.mapped (find_one [("_id", id_value id)] c), mkStore c (tl out)).
Proof.
  intros Hnew H.
  unfold Unreliable.get_todo_list.
  unfold store_bind, store_try, store_lift, store_ret. rewrite Hnew.
  rewrite round_trip_outage, (round_trip_answered _ _ c out H).
  unfold call_find_one. cbn [fst snd]. rewrite <- mapped_result.
  destruct (truthy (py_of_doc _)); reflexivity.
Qed.

Lemma get_outage_undecoded (id : identity) (e0 e : exn) (c : collection)
    (rest : list (option exn)) :
  ObjectId.new id = Raise e0 ->
  Unreliable.get_todo_list id (mkStore c (Some e :: rest)) = (Raise e, mkStore c rest).
Proof.
  intros Hnew. unfold Unreliable.get_todo_list.
  unfold store_bind, store_try, store_lift, store_ret. rewrite Hnew. reflexivity.
Qed.

Lemma get_two_outages (id : identity) (o : ObjectId.t) (e e' : exn) (c : collection)
    (rest : list (option exn)) :
  ObjectId.new id = Ok o ->
  Unreliable.get_todo_list id (mkStore c (Some e :: Some e' :: rest)) =
    (Raise e', mkStore c rest).
Proof.
  intros Hnew. unfold Unreliable.get_todo_list.
  unfold store_bind, store_try, store_lift, store_ret. rewrite Hnew. reflexivity.
Qed.

Lemma delete_when_answered (id : identity) (c : collection) (out : list (option exn)) :
  next_answers out = true ->
  Unreliable.delete_todo_list id (mkStore c out) =
    (fst (ToDoDAL.delete_todo_list id c),
     mkStore (snd (ToDoDAL.delete_todo_list id c)) (tl out)).
Proof.
  intros H.
  unfold Unreliable.delete_todo_list, ToDoDAL.delete_todo_list.
  unfold store_bind, store_try, store_lift, store_ret, dal_bind, dal_try, lift, ret.
  destruct (ObjectId.new id) as [o|e0];
    rewrite (round_trip_answered _ _ c out H); unfold call_delete_one;
    match goal with
    | |- context [delete_one ?f c] => destruct (delete_one f c)
    end; reflexivity.
Qed.

Lemma delete_after_outage (id : identity) (o : ObjectId.t) (e : exn) (c : collection)
    (out : list (option exn)) :
  ObjectId.new id = Ok o -> next_answers out = true ->
  Unreliable.delete_todo_list id (mkStore c (Some e :: out)) =
    (Ok (Nat.eqb (fst (delete_one [("_id", id_value id)] c)) 1),
     mkStore (snd (delete_one [("_id", id_value id)] c)) (tl out)).
Proof.
  intros Hnew H.
  unfold Unreliable.delete_todo_list.
  unfold store_bind, store_try, store_lift, store_ret. rewrite Hnew.
  rewrite round_trip_outage, (round_trip_answered _ _ c out H).
  unfold call_delete_one. destruct (delete_one _ c). reflexivity.
Qed.







(** C2, on the code: [get_todo_list] and [delete_todo_list] run the literal
    query not only when the identity does not decode.  Their [try] holds
    the call of the store too, so when the first round trip raises, an
    identity that decodes ([ObjectId.new] returns) is matched literally: a
    list that is stored under its ObjectId, and that a get finds when the
    store answers, is reported absent by get and by delete, and a list
    stored under the string itself is returned.  [delete_item], whose [try]
    holds the decoding alone, lets the same error surface. *)
Theorem store_error_runs_literal_query :
  ObjectId.new sample_identity = Ok sample_oid /\
  resolve_identity sample_identity = [("_id", VObjectId sample_oid)] /\
  Unreliable.get_todo_list (rt := sample_runtime) sample_identity
    (mkStore new_store [])
    = (Ok (Some (groceries [])), mkStore new_store []) /\
  Unreliable.get_todo_list (rt := sample_runtime) sample_identity
    (mkStore new_store [Some OperationFailure])
    = (Ok None, mkStore new_store []) /\
  Unreliable.delete_todo_list sample_identity
    (mkStore new_store [Some OperationFailure])
    = (Ok false, mkStore new_store []) /\
  Unreliable.get_todo_list (rt := sample_runtime) sample_identity
    (mkStore hex_keyed_store [Some OperationFailure])
    = (Ok (Some (ToDoList.mk (Some "0123456789abcdef01234567") "Legacy" [])),
       mkStore hex_keyed_store []) /\
  Unreliable.delete_item (rt := sample_runtime) sample_identity (uuid_hex uuid_a)
    (mkStore new_store [Some OperationFailure])
    = (Raise OperationFailure, mkStore new_store []).
Proof. repeat split. Qed.

(** X7: a list stored under a string key of 24 hexadecimal characters is
    reached by that string only through a store error.  When no stored list
    has the ObjectId the string decodes to and the round trip is answered,
    get returns None and [delete_todo_list] returns false with nothing
    removed, although the list is in the collection; when the first round
    trip raises and the next is answered, the literal query of the [except]
    clause finds the list: get returns it and delete removes it. *)
Theorem hex_string_key_reached_on_store_error :
  forall (s : string) (o : ObjectId.t) (c : collection) (d : pydict)
         (out : list (option exn)) (e : exn),
    store_ok c ->
    In d c -> dict_get "_id" d = Some (VStr s) ->
    ObjectId.new (IdStr s) = Ok o ->
    ~ In (VObjectId o) (map (field_or_none "_id") c) ->
    next_answers out = true ->
    Unreliable.get_todo_list (IdStr s) (mkStore c out) = (Ok None, mkStore c (tl out)) /\
    Unreliable.delete_todo_list (IdStr s) (mkStore c out)
      = (Ok false, mkStore c (tl out)) /\
    Unreliable.get_todo_list (IdStr s) (mkStore c (Some e :: out))
      = (Ok (Some (list_view d)), mkStore c (tl out)) /\
    exists pre post,
      c = pre ++ d :: post /\
      Unreliable.delete_todo_list (IdStr s) (mkStore c (Some e :: out))
        = (Ok true, mkStore (pre ++ post) (tl out)).
Proof.
  intros s o c d out e Hok Hin Hkey Hnew Hno Hout.
  destruct (literal_key_missed_when_answered s o c d Hok Hin Hkey Hnew Hno)
    as (Hget & Hdel & Hfind).
  split; [rewrite (get_when_answered _ c out Hout), Hget; reflexivity|].
  split; [rewrite (delete_when_answered _ c out Hout), Hdel; reflexivity|].
  destruct (find_one_some _ _ _ Hfind) as (pre & post & Hc & Hpre & Hd).
  split.
  - rewrite (get_after_outage _ o e c out Hnew Hout). cbn [id_value].
    rewrite Hfind, mapped_list_doc; [reflexivity|].
    destruct Hok as [Hall _]. rewrite Forall_forall in Hall. apply Hall. exact Hin.
  - exists pre, post. split; [exact Hc|].
    rewrite (delete_after_outage _ o e c out Hnew Hout). cbn [id_value].
    rewrite Hc, (delete_split _ pre post d Hpre Hd). reflexivity.
Qed.

Lemma get_list_answer (s : string) (st : store) :
  Unreliable.get_list s st =
  match Unreliable.get_todo_list (IdStr s) st with
  | (Ok (Some t), st') => (Returned t, st')
  | (Ok None, st') => (Raised (HTTPException 404 "List not found"), st')
  | (Raise _, st') => (Raised (HTTPException 500 "Failed to get list"), st')
  end.
Proof.
  unfold Unreliable.get_list, store_try_reraising_http, store_handler_bind, store_await,
    store_raise_http, store_returned.
  destruct (Unreliable.get_todo_list (IdStr s) st) as [[[t|]|e] st']; reflexivity.
Qed.

(** X13: GET of a list over a store that can fail, on a collection of
    stored lists.  With its round trip answered the handler returns the
    list when the identity resolves and raises 404 "List not found" when it
    does not.  It raises 500 "Failed to get list" when the last round trip
    it makes raises: the only one of an identity that does not decode, the
    second one of an identity that decodes.  An error of the first round
    trip of an identity that decodes is not reported: the literal query
    runs, and a request for a list that no document has as a string key is
    answered 404, whether or not the list is stored under its ObjectId. *)
Theorem get_list_answers_over_store :
  forall (s : string) (c : collection) (out : list (option exn)),
    store_ok c ->
    next_answers out = true ->
    (forall d, find_one (resolve_identity (IdStr s)) c = Some d ->
       Unreliable.get_list s (mkStore c out) =
         (Returned (list_view d), mkStore c (tl out))) /\
    (find_one (resolve_identity (IdStr s)) c = None ->
       Unreliable.get_list s (mkStore c out) =
         (Raised (HTTPException 404 "List not found"), mkStore c (tl out))) /\
    (forall e e0, ObjectId.new (IdStr s) = Raise e0 ->
       Unreliable.get_list s (mkStore c (Some e :: out)) =
         (Raised (HTTPException 500 "Failed to get list"), mkStore c out)) /\
    (forall e e' o rest, ObjectId.new (IdStr s) = Ok o ->
       Unreliable.get_list s (mkStore c (Some e :: Some e' :: rest)) =
         (Raised (HTTPException 500 "Failed to get list"), mkStore c rest)) /\
    (forall e o, ObjectId.new (IdStr s) = Ok o ->
       find_one [("_id", VStr s)] c = None ->
       Unreliable.get_list s (mkStore c (Some e :: out)) =
         (Raised (HTTPException 404 "List not found"), mkStore c (tl out))).
Proof.
  intros s c out Hok Hout. split; [|split; [|split; [|split]]].
  - intros d Hf. rewrite get_list_answer, (get_when_answered _ c out Hout).
    rewrite (get_found _ c d Hok Hf). reflexivity.
  - intros Hf. rewrite get_list_answer, (get_when_answered _ c out Hout).
    rewrite (get_not_found _ c Hf). reflexivity.
  - intros e e0 Hnew. rewrite get_list_answer, (get_outage_undecoded _ e0 e c out Hnew).
    reflexivity.
  - intros e e' o rest Hnew.
    rewrite get_list_answer, (get_two_outages _ o e e' c rest Hnew). reflexivity.
  - intros e o Hnew Hf.
    rewrite get_list_answer, (get_after_outage _ o e c out Hnew Hout).
    cbn [id_value]. rewrite Hf. reflexivity.
Qed.



End StoreFacts.

(** * The statements at concrete inputs *)

Lemma new_store_ok : store_ok new_store.
Proof.
  split.
  - constructor; [reflexivity | constructor].
  - constructor; [intros [] | constructor].
Qed.



Lemma create_item_appends_witness :
  store_ok sample_store /\
  exists c',
    ToDoDAL.create_item (rt := sample_runtime) 78 sample_identity "Eggs" sample_store =
      (Ok (Some (groceries [milk; eggs 78 false])), c') /\
    ToDoDAL.get_todo_list (rt := sample_runtime) sample_identity c' =
      (Ok (Some (groceries [milk; eggs 78 false])), c').
Proof.
  split; [exact sample_store_ok|].
  destruct (@create_item_appends sample_runtime 78 sample_identity "Eggs" sample_store)
    as [_ H].
  destruct (H sample_store_ok _ eq_refl) as (L & c' & Hget & Hc & Hg & _).
  vm_compute in Hget. injection Hget as <-.
  exists c'. split; [exact Hc | exact Hg].
Defined.

Lemma delete_item_witness :
  store_ok sample_store /\
  ~ In (Some "no such item") (item_ids (groceries [milk])) /\
  ToDoDAL.delete_item (rt := sample_runtime) sample_identity "no such item" sample_store =
    (Ok (Some (groceries [milk])), sample_store).
Proof.
  assert (Hno : ~ In (Some "no such item") (item_ids (groceries [milk]))).
  { intros [H | []]. discriminate. }
  split; [exact sample_store_ok|]. split; [exact Hno|].
  destruct (@delete_item_not_found_only_for_list sample_runtime sample_identity
              "no such item" sample_store) as (_ & _ & H).
  apply (H sample_store_ok); [reflexivity | exact Hno].
Defined.

Lemma set_checked_state_witness :
  store_ok sample_store /\
  exists c',
    ToDoDAL.set_checked_state (rt := sample_runtime) sample_identity
      (uuid_hex 77) true sample_store =
      (Ok (Some (groceries [with_checked milk true])), c') /\
    ToDoDAL.get_todo_list (rt := sample_runtime) sample_identity c' =
      (Ok (Some (groceries [with_checked milk true])), c').
Proof.
  split; [exact sample_store_ok|].
  destruct (@set_checked_state_found_iff sample_runtime sample_identity (uuid_hex 77)
              true sample_store sample_store_ok) as (_ & H & _).
  destruct (H (groceries [milk]) eq_refl (or_introl eq_refl))
    as (c' & pre & it & post & Hsplit & Hpre & Hid & Hset & Hget & _).
  destruct pre as [|x pre].
  - injection Hsplit as <- <-. exists c'. split; [exact Hset | exact Hget].
  - exfalso. injection Hsplit as <- Hrest. destruct pre; discriminate.
Defined.

Lemma delete_todo_list_witness :
  store_ok sample_store /\
  ToDoDAL.delete_todo_list sample_identity sample_store
    = (Ok true, []) /\
  ToDoDAL.delete_todo_list sample_identity [] = (Ok false, []).
Proof.
  split; [exact sample_store_ok|]. split; [reflexivity|].
  destruct (delete_todo_list_once sample_identity sample_store)
    as (_ & _ & H).
  exact (proj1 (H sample_store_ok [] eq_refl)).
Defined.

Lemma summary_item_count_witness :
  ListSummary.item_count
    (ListSummary.mk (Some "a") "Groceries" 0) = 0%Z /\
  ListSummary.from_doc (rt := sample_runtime)
    (VDict [("_id", VStr "a"); ("name", VStr "Groceries")])
    = Ok (ListSummary.mk (Some "a") "Groceries" 0).
Proof.
  destruct (@summary_item_count sample_runtime) as (_ & _ & _ & H & _).
  split; [|reflexivity].
  apply (H [("_id", VStr "a"); ("name", VStr "Groceries")]); reflexivity.
Defined.

(** C8 as written fails: an empty document is present, and
    [ToDoList.from_doc] returns the absence signal for it. *)
Lemma empty_document_is_absent :
  (forall rt : PyRuntime, ToDoList.from_doc (VDict []) = Ok None) /\
  VDict [] <> VNone.
Proof. split; [reflexivity | discriminate]. Qed.

Lemma list_absent_witness :
  ToDoList.from_doc (rt := sample_runtime) (VDict []) = Ok None /\
  ListSummary.from_doc (rt := sample_runtime) (VDict []) = Ok zero_summary /\
  ToDoListItem.from_doc (rt := sample_runtime) (VDict []) = Ok zero_item.
Proof.
  destruct (@list_absent_iff_falsy sample_runtime (VDict [])) as [[_ H1] H2].
  split; [apply H1 | apply H2]; reflexivity.
Defined.

Lemma item_ids_distinct_witness :
  is_uuid4 uuid_a = true /\ is_uuid4 uuid_b = true /\
  (uuid_a < 2 ^ 128)%N /\ (uuid_b < 2 ^ 128)%N /\ store_ok new_store /\
  exists c1 c2,
    ToDoDAL.create_item (rt := sample_runtime) uuid_a sample_identity "Milk" new_store
      = (Ok (Some (groceries [new_item uuid_a "Milk"])), c1) /\
    ToDoDAL.create_item (rt := sample_runtime) uuid_b sample_identity "Eggs" c1
      = (Ok (Some (groceries [new_item uuid_a "Milk"; new_item uuid_b "Eggs"])), c2) /\
    ToDoListItem.id (new_item uuid_a "Milk") <> ToDoListItem.id (new_item uuid_b "Eggs").
Proof.
  split; [reflexivity|]. split; [reflexivity|].
  split; [reflexivity|]. split; [reflexivity|]. split; [exact new_store_ok|].
  destruct (@item_ids_distinct_as_uuids sample_runtime uuid_a uuid_b sample_identity
              "Milk" "Eggs" new_store (groceries []) eq_refl eq_refl new_store_ok eq_refl)
    as (c1 & c2 & H1 & H2 & H3 & _).
  exists c1, c2. split; [exact H1|]. split; [exact H2|].
  apply H3. discriminate.
Defined.

Lemma id_fallback_witness :
  (exists r,
     ListSummary.from_doc (rt := sample_runtime)
       (VDict [("_id", VStr ""); ("id", VInt 7)]) = Ok r /\
     ListSummary.id r = Some "7") /\
  (exists r,
     ToDoList.from_doc (rt := sample_runtime)
       (VDict [("_id", VInt 0); ("id", VStr "x"); ("name", VStr "n")]) = Ok (Some r) /\
     ToDoList.id r = Some "x") /\
  (exists r,
     ToDoList.from_doc (rt := sample_runtime)
       (VDict [("_id", VStr "k"); ("id", VStr "x"); ("name", VStr "n")]) = Ok (Some r) /\
     ToDoList.id r = Some "k") /\
  (exists r,
     ToDoListItem.from_doc (rt := sample_runtime)
       (VDict [("id", VStr ""); ("_id", VStr "k")]) = Ok r /\
     ToDoListItem.id r = Some "").
Proof.
  destruct (@id_fallback sample_runtime)
    as (_ & _ & _ & _ & _ & Hs & _ & Hl & Hl' & Hi & _).
  split; [|split; [|split]].
  - apply (Hs [("_id", VStr ""); ("id", VInt 7)]); reflexivity.
  - apply (Hl [("_id", VInt 0); ("id", VStr "x"); ("name", VStr "n")]);
      [discriminate | reflexivity | reflexivity | reflexivity].
  - apply (Hl' [("_id", VStr "k"); ("id", VStr "x"); ("name", VStr "n")]); reflexivity.
  - apply (Hi [("id", VStr ""); ("_id", VStr "k")]); reflexivity.
Defined.

(** The scenario of the specification, run: create the list "Groceries",
    create the item "Milk", check it, read the list and its summary. *)
Example groceries_scenario :
  let rt := sample_runtime in
  let '(list_id, c0) := ToDoDAL.create_todo_list sample_oid "Groceries" [] in
  let '(created, c1) := ToDoDAL.create_item 77 sample_identity "Milk" c0 in
  let '(toggled, c2) :=
    ToDoDAL.set_checked_state sample_identity (uuid_hex 77) true c1 in
  list_id = Ok "0123456789abcdef01234567" /\
  c0 = new_store /\
  created = Ok (Some (groceries [milk])) /\
  toggled = Ok (Some (groceries [with_checked milk true])) /\
  fst (ToDoDAL.get_todo_list sample_identity c2) =
    Ok (Some (groceries [with_checked milk true])) /\
  map ListSummary.from_doc (map VDict c2) =
    [Ok (ListSummary.mk (Some "0123456789abcdef01234567") "Groceries" 1)].
Proof. vm_compute. repeat split. Qed.

(** * The further properties at concrete inputs *)

Lemma empty_store_ok : store_ok [].
Proof. split; constructor. Qed.

Lemma two_lists_ok : store_ok two_lists.
Proof.
  split.
  - repeat constructor.
  - constructor; [intros [H | []]; discriminate H|].
    constructor; [intros [] | constructor].
Qed.

Lemma hex_keyed_store_ok : store_ok hex_keyed_store.
Proof.
  split.
  - repeat constructor.
  - constructor; [intros [] | constructor].
Qed.

Lemma create_todo_list_then_get_witness :
  store_ok [] /\
  ToDoDAL.create_todo_list (rt := sample_runtime) sample_oid "Groceries" []
    = (Ok "0123456789abcdef01234567", new_store) /\
  ToDoDAL.get_todo_list (rt := sample_runtime) (IdStr "0123456789abcdef01234567") new_store
    = (Ok (Some (groceries [])), new_store).
Proof.
  split; [exact empty_store_ok|]. split; [reflexivity|].
  destruct (@create_todo_list_then_get sample_runtime sample_oid "Groceries" []
              eq_refl empty_store_ok (fun H => H))
    as (list_id & c' & Hc & -> & _ & Hg & _).
  injection Hc as <-. exact Hg.
Defined.

Lemma operations_are_local_witness :
  store_ok two_lists /\
  resolve_identity (IdStr "chores") <> resolve_identity sample_identity /\
  fst (ToDoDAL.get_todo_list (rt := sample_runtime) (IdStr "chores")
         (snd (ToDoDAL.create_item (rt := sample_runtime) 78 sample_identity "Eggs"
                 two_lists)))
    = Ok (Some chores).
Proof.
  assert (Hne : resolve_identity (IdStr "chores") <> resolve_identity sample_identity)
    by discriminate.
  split; [exact two_lists_ok|]. split; [exact Hne|].
  destruct (@operations_are_local sample_runtime sample_identity (IdStr "chores")
              two_lists two_lists_ok Hne) as (H & _).
  exact (eq_trans (H 78%N "Eggs") eq_refl).
Defined.

Lemma delete_item_removes_witness :
  store_ok sample_store /\
  exists c',
    ToDoDAL.delete_item (rt := sample_runtime) sample_identity (uuid_hex 77) sample_store
      = (Ok (Some (groceries [])), c') /\
    ToDoDAL.delete_item (rt := sample_runtime) sample_identity (uuid_hex 77) c'
      = (Ok (Some (groceries [])), c').
Proof.
  split; [exact sample_store_ok|].
  destruct (@delete_item_removes sample_runtime sample_identity (uuid_hex 77)
              sample_store (groceries [milk]) sample_store_ok eq_refl)
    as (c' & H1 & _ & _ & _ & H5).
  exists c'. split; [exact H1 | exact H5].
Defined.

Lemma create_item_then_delete_item_witness :
  store_ok sample_store /\
  ~ In (Some (uuid_hex 78)) (item_ids (groceries [milk])) /\
  exists c1 c2,
    ToDoDAL.create_item (rt := sample_runtime) 78 sample_identity "Eggs" sample_store
      = (Ok (Some (groceries [milk; eggs 78 false])), c1) /\
    ToDoDAL.delete_item (rt := sample_runtime) sample_identity (uuid_hex 78) c1
      = (Ok (Some (groceries [milk])), c2).
Proof.
  assert (Hfresh : ~ In (Some (uuid_hex 78)) (item_ids (groceries [milk]))).
  { intros [H | []]. vm_compute in H. discriminate H. }
  split; [exact sample_store_ok|]. split; [exact Hfresh|].
  destruct (@create_item_then_delete_item sample_runtime 78 sample_identity "Eggs"
              sample_store (groceries [milk]) sample_store_ok eq_refl Hfresh)
    as (c1 & c2 & H1 & H2 & _).
  exists c1, c2. split; [exact H1 | exact H2].
Defined.

Lemma deleted_list_is_gone_witness :
  store_ok two_lists /\
  ToDoDAL.delete_todo_list sample_identity two_lists = (Ok true, [chores_doc]) /\
  ToDoDAL.get_todo_list (rt := sample_runtime) sample_identity [chores_doc]
    = (Ok None, [chores_doc]) /\
  ToDoDAL.create_item (rt := sample_runtime) 78 sample_identity "Eggs" [chores_doc]
    = (Ok None, [chores_doc]).
Proof.
  split; [exact two_lists_ok|]. split; [reflexivity|].
  destruct (@deleted_list_is_gone sample_runtime sample_identity two_lists [chores_doc]
              two_lists_ok eq_refl) as (H1 & H2 & _).
  split; [exact H1 | exact (H2 78%N "Eggs")].
Defined.

Lemma returned_id_witness :
  store_ok sample_store /\
  exists t,
    ToDoList.id (groceries [milk]) = Some t /\
    ToDoDAL.get_todo_list (rt := sample_runtime) (IdStr t) sample_store
      = (Ok (Some (groceries [milk])), sample_store).
Proof.
  split; [exact sample_store_ok|].
  destruct (@returned_id_addresses_list sample_runtime sample_store
              (nth 0 sample_store []) sample_store_ok (or_introl eq_refl)
              (or_introl (ex_intro _ sample_oid (conj eq_refl eq_refl))))
    as (t & Ht & Hg).
  exists t. split; [exact Ht | exact Hg].
Defined.

Lemma create_item_stores_witness :
  validate_str (rt := sample_runtime) VNone = Raise ValidationError /\
  ToDoDAL.create_item (rt := sample_runtime) 77 sample_identity "Milk" [nameless_doc]
    = (Raise ValidationError,
       [dict_set "items" (VList [milk_doc]) nameless_doc]).
Proof.
  split; [reflexivity|].
  exact (@create_item_stores_before_it_fails sample_runtime 77 sample_identity "Milk"
           [] [] nameless_doc [] VNone ValidationError
           (Forall_nil _) eq_refl eq_refl eq_refl eq_refl).
Defined.

Lemma list_items_witness :
  ListSummary.from_doc (rt := sample_runtime)
    (VDict [("_id", VStr "a"); ("items", VList [VDict [("label", VNone)]; VInt 1])])
    = Ok (ListSummary.mk (Some "a") "" 2) /\
  ToDoList.from_doc (rt := sample_runtime)
    (VDict [("_id", VStr "a"); ("items", VList [VDict [("label", VNone)]; VInt 1])])
    = Ok (Some (ToDoList.mk (Some "a") "" [zero_item])) /\
  (Z.of_nat (List.length [zero_item]) <= 2)%Z.
Proof.
  split; [reflexivity|]. split; [reflexivity|].
  destruct (@list_items_at_most_summary_count sample_runtime
              [("_id", VStr "a"); ("items", VList [VDict [("label", VNone)]; VInt 1])]
              [VDict [("label", VNone)]; VInt 1]
              (ListSummary.mk (Some "a") "" 2)
              (ToDoList.mk (Some "a") "" [zero_item])
              eq_refl eq_refl eq_refl) as (_ & _ & H & _).
  exact H.
Defined.

Lemma list_todo_lists_witness :
  store_ok two_lists /\
  exists summaries,
    Listing.list_todo_lists (rt := sample_runtime) (so := sample_order) two_lists
      = (summaries, None) /\
    names_sorted summaries /\
    List.length summaries = 2.
Proof.
  split; [exact two_lists_ok|].
  destruct (@list_todo_lists_summarises sample_runtime sample_order two_lists two_lists_ok)
    as (summaries & sorted & H1 & _ & _ & H4 & H5).
  exists summaries. split; [exact H1|]. split; [exact H4 | exact H5].
Defined.

Lemma delete_list_witness :
  store_ok sample_store /\
  exists c',
    Server.delete_list "0123456789abcdef01234567" sample_store = (Returned true, c') /\
    Server.delete_list "0123456789abcdef01234567" c'
      = (Raised (HTTPException 404 "List not found"), c').
Proof.
  split; [exact sample_store_ok|].
  destruct (@delete_list_then_not_found sample_runtime "0123456789abcdef01234567"
              sample_store _ sample_store_ok eq_refl) as (c' & H1 & _ & H3 & _).
  exists c'. split; [exact H1 | exact H3].
Defined.

Lemma delete_item_answers_witness :
  store_ok sample_store /\
  ~ In (Some "no such item") (item_ids (groceries [milk])) /\
  Server.delete_item (rt := sample_runtime) "0123456789abcdef01234567" "no such item"
    sample_store = (Returned (groceries [milk]), sample_store).
Proof.
  assert (Hno : ~ In (Some "no such item") (item_ids (groceries [milk]))).
  { intros [H | []]. discriminate H. }
  split; [exact sample_store_ok|]. split; [exact Hno|].
  destruct (@delete_item_answers sample_runtime "0123456789abcdef01234567"
              "no such item" sample_store sample_store_ok) as (_ & H).
  destruct (H (groceries [milk]) eq_refl) as (c' & _ & H2).
  exact (H2 Hno).
Defined.

Lemma set_checked_state_answers_witness :
  store_ok sample_store /\
  fst (Server.set_checked_state (rt := sample_runtime) "0123456789abcdef01234567"
         "no such item" true sample_store)
    = Raised (HTTPException 404 "List or item not found") /\
  fst (Server.set_checked_state (rt := sample_runtime) "0123456789abcdef01234567"
         (uuid_hex 77) true sample_store)
    = Returned (groceries [with_checked milk true]).
Proof.
  split; [exact sample_store_ok|].
  destruct (@set_checked_state_answers sample_runtime "0123456789abcdef01234567"
              "no such item" true sample_store sample_store_ok) as ((_ & H1) & _).
  destruct (@set_checked_state_answers sample_runtime "0123456789abcdef01234567"
              (uuid_hex 77) true sample_store sample_store_ok) as (_ & H2).
  split.
  - apply H1. right. exists (groceries [milk]). split; [reflexivity|].
    intros [H | []]. discriminate H.
  - exact (H2 (groceries [milk]) eq_refl (or_introl eq_refl)).
Defined.

Lemma create_item_answers_witness :
  store_ok sample_store /\
  fst (Server.create_item (rt := sample_runtime) 78 "0123456789abcdef01234567" "Eggs"
         sample_store) = Returned (groceries [milk; eggs 78 false]) /\
  Server.create_item (rt := sample_runtime) 78 "chores" "Eggs" sample_store
    = (Raised (HTTPException 404 "List not found"), sample_store).
Proof.
  split; [exact sample_store_ok|].
  destruct (@create_item_answers sample_runtime 78 "0123456789abcdef01234567" "Eggs"
              sample_store sample_store_ok) as (H1 & _).
  destruct (@create_item_answers sample_runtime 78 "chores" "Eggs"
              sample_store sample_store_ok) as (_ & H2).
  split; [exact (H1 (groceries [milk]) eq_refl) | exact (H2 eq_refl)].
Defined.

Lemma get_all_lists_witness :
  store_ok two_lists /\
  (exists summaries,
     Server.get_all_lists (rt := sample_runtime) (so := sample_order) two_lists
       = (Returned summaries, two_lists) /\
     names_sorted summaries) /\
  Server.get_all_lists (rt := sample_runtime) (so := sample_order)
    (two_lists ++ [nameless_doc])
    = (Raised (HTTPException 500 "Failed to list todo lists"),
       two_lists ++ [nameless_doc]).
Proof.
  split; [exact two_lists_ok|]. split.
  - destruct (@get_all_lists_answers sample_runtime sample_order two_lists) as (H & _).
    destruct (H two_lists_ok) as (summaries & sorted & H1 & _ & _ & H4).
    exists summaries. split; [exact H1 | exact H4].
  - destruct (@get_all_lists_answers sample_runtime sample_order
                (two_lists ++ [nameless_doc])) as (_ & H).
    apply (H nameless_doc ValidationError); [|reflexivity].
    apply in_or_app. right. left. reflexivity.
Defined.

Lemma create_item_answers_500_witness :
  validate_str (rt := sample_runtime) VNone = Raise ValidationError /\
  Server.create_item (rt := sample_runtime) 77 "0123456789abcdef01234567" "Milk"
    [nameless_doc]
    = (Raised (HTTPException 500 "Failed to create item"),
       [dict_set "items" (VList [milk_doc]) nameless_doc]).
Proof.
  split; [reflexivity|].
  exact (@create_item_answers_500_after_storing sample_runtime
           77 "0123456789abcdef01234567" "Milk"
           [] [] nameless_doc [] VNone ValidationError
           (Forall_nil _) eq_refl eq_refl eq_refl eq_refl).
Defined.

Lemma set_checked_state_last_write_witness :
  store_ok sample_store /\
  In (Some (uuid_hex 77)) (item_ids (groceries [milk])) /\
  exists pre it post c1 c2,
    ToDoList.items (groceries [milk]) = pre ++ it :: post /\
    ~ In (Some (uuid_hex 77)) (map ToDoListItem.id pre) /\
    ToDoListItem.id it = Some (uuid_hex 77) /\
    ToDoDAL.set_checked_state (rt := sample_runtime) sample_identity (uuid_hex 77)
      true sample_store
      = (Ok (Some (with_items (groceries [milk]) (pre ++ with_checked it true :: post))),
         c1) /\
    ToDoDAL.set_checked_state (rt := sample_runtime) sample_identity (uuid_hex 77)
      false c1
      = (Ok (Some (with_items (groceries [milk]) (pre ++ with_checked it false :: post))),
         c2) /\
    fst (ToDoDAL.set_checked_state (rt := sample_runtime) sample_identity (uuid_hex 77)
           false sample_store)
      = Ok (Some (groceries [milk])).
Proof.
  assert (Hin : In (Some (uuid_hex 77)) (item_ids (groceries [milk])))
    by (left; reflexivity).
  split; [exact sample_store_ok|]. split; [exact Hin|].
  destruct (@set_checked_state_last_write_wins sample_runtime sample_identity
              (uuid_hex 77) true false sample_store (groceries [milk])
              sample_store_ok eq_refl Hin)
    as (pre & it & post & c1 & c2 & H1 & H2 & H3 & H4 & H5 & _).
  exists pre, it, post, c1, c2.
  repeat (split; [assumption|]). reflexivity.
Defined.

Lemma hex_string_key_witness :
  store_ok hex_keyed_store /\
  ObjectId.new (IdStr "0123456789abcdef01234567") = Ok sample_oid /\
  Unreliable.get_todo_list (rt := sample_runtime) (IdStr "0123456789abcdef01234567")
    (mkStore hex_keyed_store []) = (Ok None, mkStore hex_keyed_store []) /\
  Unreliable.delete_todo_list (IdStr "0123456789abcdef01234567")
    (mkStore hex_keyed_store []) = (Ok false, mkStore hex_keyed_store []) /\
  Unreliable.get_todo_list (rt := sample_runtime) (IdStr "0123456789abcdef01234567")
    (mkStore hex_keyed_store [Some OperationFailure])
    = (Ok (Some (ToDoList.mk (Some "0123456789abcdef01234567") "Legacy" [])),
       mkStore hex_keyed_store []).
Proof.
  split; [exact hex_keyed_store_ok|]. split; [reflexivity|].
  assert (Hno : ~ In (VObjectId sample_oid) (map (field_or_none "_id") hex_keyed_store)).
  { intros [H | []]. discriminate H. }
  destruct (@hex_string_key_reached_on_store_error sample_runtime
              "0123456789abcdef01234567" sample_oid hex_keyed_store
              (nth 0 hex_keyed_store []) [] OperationFailure
              hex_keyed_store_ok (or_introl eq_refl) eq_refl eq_refl Hno eq_refl)
    as (H1 & H2 & H3 & _).
  split; [exact H1|]. split; [exact H2 | exact H3].
Defined.

Lemma get_list_over_store_witness :
  store_ok new_store /\
  Unreliable.get_list (rt := sample_runtime) "0123456789abcdef01234567"
    (mkStore new_store []) = (Returned (groceries []), mkStore new_store []) /\
  Unreliable.get_list (rt := sample_runtime) "chores" (mkStore new_store [])
    = (Raised (HTTPException 404 "List not found"), mkStore new_store []) /\
  Unreliable.get_list (rt := sample_runtime) "chores"
    (mkStore new_store [Some OperationFailure])
    = (Raised (HTTPException 500 "Failed to get list"), mkStore new_store []) /\
  Unreliable.get_list (rt := sample_runtime) "0123456789abcdef01234567"
    (mkStore new_store [Some OperationFailure; Some OperationFailure])
    = (Raised (HTTPException 500 "Failed to get list"), mkStore new_store []) /\
  Unreliable.get_list (rt := sample_runtime) "0123456789abcdef01234567"
    (mkStore new_store [Some OperationFailure])
    = (Raised (HTTPException 404 "List not found"), mkStore new_store []).
Proof.
  split; [exact new_store_ok|].
  destruct (@get_list_answers_over_store sample_runtime "0123456789abcdef01234567"
              new_store [] new_store_ok eq_refl) as (H1 & _ & _ & H4 & H5).
  destruct (@get_list_answers_over_store sample_runtime "chores"
              new_store [] new_store_ok eq_refl) as (_ & H2 & H3 & _).
  split; [exact (H1 _ eq_refl)|]. split; [exact (H2 eq_refl)|].
  split; [exact (H3 OperationFailure InvalidId eq_refl)|].
  split; [exact (H4 OperationFailure OperationFailure sample_oid [] eq_refl)|].
  exact (H5 OperationFailure sample_oid eq_refl eq_refl).
Defined.


